(** * A Rocq model of the BLE Central stack for the SX1280 (SWL2001)

    Shallow embedding of the link layer ([ble_ll.c], [ble_ll_missing.c]) and
    of the ATT/GATT client ([ble_gatt.c]), with the properties of the
    natural-language specification stated and settled against it.

    Conventions.
    - C unsigned integers are [Z] values; wrap-around is written out with
      [u8], [u16], [u32], [u64] at every place where the C code can wrap.
    - Byte buffers ([tx_buffer], [rx_buffer], PDUs) are [list Z].
    - Bit-fields of the packed PDU headers follow the little-endian layout
      the target compiler uses (first declared field in the low bits), which
      is also the on-air layout of the specification.
    - The radio is an effect: the calls made on it are appended to a log of
      [radio_op]s and what it reports is an input ([radio_env]).
    - Application callbacks are function pointers of the context; a call is
      recorded in a log of [callback]s. *)

From Stdlib Require Import ZArith List Bool Lia Arith.
Import ListNotations.
Local Open Scope Z_scope.

(** ** Machine integers *)

Definition u8  (x : Z) : Z := x mod 2 ^ 8.
Definition u16 (x : Z) : Z := x mod 2 ^ 16.
Definition u32 (x : Z) : Z := x mod 2 ^ 32.
Definition u64 (x : Z) : Z := x mod 2 ^ 64.

(** [bit x i] is bit [i] of [x] as 0 or 1, the value of [(x >> i) & 1]. *)
Definition bit (x i : Z) : Z := Z.land (Z.shiftr x i) 1.

(** C truth value of an integer expression. *)
Definition nonzero (x : Z) : bool := negb (x =? 0).

(** ** Constants of [ble_defs.h] and [sx128x_ble_defs.h] *)

Definition BLE_T_IFS : Z := 150.
Definition BLE_ACCESS_ADDRESS_ADV : Z := 0x8E89BED6.
Definition BLE_CRC_INIT_ADV : Z := 0x555555.

Definition LL_TERMINATE_IND : Z := 0x02.
Definition LL_UNKNOWN_RSP : Z := 0x07.
Definition LL_FEATURE_REQ : Z := 0x08.
Definition LL_FEATURE_RSP : Z := 0x09.
Definition LL_VERSION_IND : Z := 0x0C.

Definition L2CAP_CID_ATT : Z := 0x0004.

Definition ATT_MTU_DEFAULT : Z := 23.
Definition ATT_MTU_MAX : Z := 247.

Definition ATT_ERROR_RSP : Z := 0x01.
Definition ATT_EXCHANGE_MTU_RSP : Z := 0x03.
Definition ATT_READ_BY_TYPE_REQ : Z := 0x08.
Definition ATT_READ_BY_TYPE_RSP : Z := 0x09.
Definition ATT_READ_REQ : Z := 0x0A.
Definition ATT_READ_RSP : Z := 0x0B.
Definition ATT_READ_BLOB_RSP : Z := 0x0D.
Definition ATT_READ_BY_GROUP_RSP : Z := 0x11.
Definition ATT_WRITE_REQ : Z := 0x12.
Definition ATT_WRITE_RSP : Z := 0x13.
Definition ATT_HANDLE_VALUE_NTF : Z := 0x1B.
Definition ATT_HANDLE_VALUE_IND : Z := 0x1D.
Definition ATT_HANDLE_VALUE_CFM : Z := 0x1E.

Definition SX128X_IRQ_TX_DONE : Z := 0x01.
Definition SX128X_IRQ_RX_DONE : Z := 0x02.
Definition SX128X_IRQ_CRC_ERROR : Z := 0x40.
Definition SX128X_IRQ_RX_TX_TIMEOUT : Z := 0x200.

Inductive ble_status_t : Type :=
  | BLE_STATUS_OK
  | BLE_STATUS_ERROR
  | BLE_STATUS_TIMEOUT
  | BLE_STATUS_NO_MEMORY
  | BLE_STATUS_INVALID_PARAMS
  | BLE_STATUS_NOT_CONNECTED
  | BLE_STATUS_ALREADY_CONNECTED
  | BLE_STATUS_BUSY
  | BLE_STATUS_UNKNOWN_DEVICE
  | BLE_STATUS_PROTOCOL_ERROR.

Inductive ble_conn_state_t : Type :=
  | CONN_STATE_IDLE
  | CONN_STATE_SCANNING
  | CONN_STATE_INITIATING
  | CONN_STATE_CONNECTION
  | CONN_STATE_CONNECTED
  | CONN_STATE_DISCONNECTING.

Definition conn_state_eqb (a b : ble_conn_state_t) : bool :=
  match a, b with
  | CONN_STATE_IDLE, CONN_STATE_IDLE
  | CONN_STATE_SCANNING, CONN_STATE_SCANNING
  | CONN_STATE_INITIATING, CONN_STATE_INITIATING
  | CONN_STATE_CONNECTION, CONN_STATE_CONNECTION
  | CONN_STATE_CONNECTED, CONN_STATE_CONNECTED
  | CONN_STATE_DISCONNECTING, CONN_STATE_DISCONNECTING => true
  | _, _ => false
  end.

(** ** CRC-24 ([ble_ll_missing.c]) *)

Definition crc24_table : list Z :=
  [ 0x000000; 0x01b4c0; 0x036980; 0x02dd40; 0x06d300; 0x0767c0; 0x05ba80; 0x040e40;
    0x0da600; 0x0c12c0; 0x0ecf80; 0x0f7b40; 0x0b7500; 0x0ac1c0; 0x081c80; 0x09a840;
    0x1b4c00; 0x1af8c0; 0x182580; 0x199140; 0x1d9f00; 0x1c2bc0; 0x1ef680; 0x1f4240;
    0x16ea00; 0x175ec0; 0x158380; 0x143740; 0x103900; 0x118dc0; 0x135080; 0x12e440;
    0x369800; 0x372cc0; 0x35f180; 0x344540; 0x304b00; 0x31ffc0; 0x332280; 0x329640;
    0x3b3e00; 0x3a8ac0; 0x385780; 0x39e340; 0x3ded00; 0x3c59c0; 0x3e8480; 0x3f3040;
    0x2dd400; 0x2c60c0; 0x2ebd80; 0x2f0940; 0x2b0700; 0x2ab3c0; 0x286e80; 0x29da40;
    0x207200; 0x21c6c0; 0x231b80; 0x22af40; 0x26a100; 0x2715c0; 0x25c880; 0x247c40;
    0x6d3000; 0x6c84c0; 0x6e5980; 0x6fed40; 0x6be300; 0x6a57c0; 0x688a80; 0x693e40;
    0x609600; 0x6122c0; 0x63ff80; 0x624b40; 0x664500; 0x67f1c0; 0x652c80; 0x649840;
    0x767c00; 0x77c8c0; 0x751580; 0x74a140; 0x70af00; 0x711bc0; 0x73c680; 0x727240;
    0x7bda00; 0x7a6ec0; 0x78b380; 0x790740; 0x7d0900; 0x7cbdc0; 0x7e6080; 0x7fd440;
    0x5ba800; 0x5a1cc0; 0x58c180; 0x597540; 0x5d7b00; 0x5ccfc0; 0x5e1280; 0x5fa640;
    0x560e00; 0x57bac0; 0x556780; 0x54d340; 0x50dd00; 0x5169c0; 0x53b480; 0x520040;
    0x40e400; 0x4150c0; 0x438d80; 0x423940; 0x463700; 0x4783c0; 0x455e80; 0x44ea40;
    0x4d4200; 0x4cf6c0; 0x4e2b80; 0x4f9f40; 0x4b9100; 0x4a25c0; 0x48f880; 0x494c40;
    0xda6000; 0xdbd4c0; 0xd90980; 0xd8bd40; 0xdcb300; 0xdd07c0; 0xdfda80; 0xde6e40;
    0xd7c600; 0xd672c0; 0xd4af80; 0xd51b40; 0xd11500; 0xd0a1c0; 0xd27c80; 0xd3c840;
    0xc12c00; 0xc098c0; 0xc24580; 0xc3f140; 0xc7ff00; 0xc64bc0; 0xc49680; 0xc52240;
    0xcc8a00; 0xcd3ec0; 0xcfe380; 0xce5740; 0xca5900; 0xcbedc0; 0xc93080; 0xc88440;
    0xecf800; 0xed4cc0; 0xef9180; 0xee2540; 0xea2b00; 0xeb9fc0; 0xe94280; 0xe8f640;
    0xe15e00; 0xe0eac0; 0xe23780; 0xe38340; 0xe78d00; 0xe639c0; 0xe4e480; 0xe55040;
    0xf7b400; 0xf600c0; 0xf4dd80; 0xf56940; 0xf16700; 0xf0d3c0; 0xf20e80; 0xf3ba40;
    0xfa1200; 0xfba6c0; 0xf97b80; 0xf8cf40; 0xfcc100; 0xfd75c0; 0xff8880; 0xfe3c40;
    0xb67000; 0xb7c4c0; 0xb51980; 0xb4ad40; 0xb0a300; 0xb117c0; 0xb3ca80; 0xb27e40;
    0xbbd600; 0xba62c0; 0xb8bf80; 0xb90b40; 0xbd0500; 0xbcb1c0; 0xbe6c80; 0xbfd840;
    0xad3c00; 0xac88c0; 0xae5580; 0xafe140; 0xabef00; 0xaa5bc0; 0xa88680; 0xa93240;
    0xa09a00; 0xa12ec0; 0xa3f380; 0xa24740; 0xa64900; 0xa7fdc0; 0xa52080; 0xa49440;
    0x80e800; 0x815cc0; 0x838180; 0x823540; 0x863b00; 0x878fc0; 0x855280; 0x84e640;
    0x8d4e00; 0x8cfac0; 0x8e2780; 0x8f9340; 0x8b9d00; 0x8a29c0; 0x88f480; 0x894040;
    0x9ba400; 0x9a10c0; 0x98cd80; 0x997940; 0x9d7700; 0x9cc3c0; 0x9e1e80; 0x9faa40;
    0x960200; 0x97b6c0; 0x956b80; 0x94df40; 0x90d100; 0x9165c0; 0x93b880; 0x920c40 ].

(** [ble_ll_calculate_crc24]: the loop body, one byte. *)
Definition crc24_update (crc d : Z) : Z :=
  let tbl_idx := Z.land (Z.lxor (Z.shiftr crc 16) d) 0xFF in
  Z.land (Z.lxor (Z.shiftl crc 8) (nth (Z.to_nat tbl_idx) crc24_table 0)) 0xFFFFFF.

(** [ble_ll_calculate_crc24 (data, len, crc_init)] with [len] the length of
    [data]. *)
Definition ble_ll_calculate_crc24 (data : list Z) (crc_init : Z) : Z :=
  fold_left crc24_update data (Z.land crc_init 0xFFFFFF).

(** *** The bitwise CRC-24 of the specification

    The two definitions below follow the specification, not the code: the
    CRC of the polynomial 0x100065B computed one bit at a time, first as the
    textbook division (most significant bit first), then in the bit-reversed
    form the specification names (least significant bit first, polynomial
    reflected to 0xDA6000). *)

Definition BLE_CRC_POLY : Z := 0x100065B.
Definition BLE_CRC_POLY_REFLECTED : Z := 0xDA6000.

Definition spec_crc24_bit_msb (crc : Z) : Z :=
  if Z.testbit crc 23
  then Z.land (Z.lxor (Z.shiftl crc 1) BLE_CRC_POLY) 0xFFFFFF
  else Z.land (Z.shiftl crc 1) 0xFFFFFF.

Definition spec_crc24_bit_lsb (crc : Z) : Z :=
  if Z.testbit crc 0
  then Z.lxor (Z.shiftr crc 1) BLE_CRC_POLY_REFLECTED
  else Z.shiftr crc 1.

Fixpoint iter_bits (n : nat) (f : Z -> Z) (x : Z) : Z :=
  match n with
  | O => x
  | S n' => iter_bits n' f (f x)
  end.

Definition spec_crc24_msb (data : list Z) (init : Z) : Z :=
  fold_left (fun crc d => iter_bits 8 spec_crc24_bit_msb (Z.lxor crc (Z.shiftl d 16)))
            data (Z.land init 0xFFFFFF).

Definition spec_crc24_lsb (data : list Z) (init : Z) : Z :=
  fold_left (fun crc d => iter_bits 8 spec_crc24_bit_lsb (Z.lxor crc d))
            data (Z.land init 0xFFFFFF).

(** Reversal of the low [n] bits of [x]; the bit order conventions of a CRC
    differ by such reversals of the bytes, the initial value and the result. *)
Fixpoint reflect_bits (n : nat) (x : Z) : Z :=
  match n with
  | O => 0
  | S n' => Z.lor (Z.shiftl (Z.land x 1) (Z.of_nat n')) (reflect_bits n' (Z.shiftr x 1))
  end.

(** Every bit-order variant of the two references: bytes reflected or not,
    initial value reflected or not, result reflected or not. *)
Definition spec_crc24_variants (data : list Z) (init : Z) : list Z :=
  flat_map (fun alg : list Z -> Z -> Z =>
    flat_map (fun rin : bool =>
      flat_map (fun ri : bool =>
        map (fun ro : bool =>
          let d := if rin then map (reflect_bits 8) data else data in
          let i := if ri then reflect_bits 24 init else init in
          let r := alg d i in
          if ro then reflect_bits 24 r else r)
        [false; true])
      [false; true])
    [false; true])
  [spec_crc24_msb; spec_crc24_lsb].

(** ** Channel frequencies *)

(** [channel_freq_table] of [ble_ll.c], in Hz, indexed by channel 0..39. *)
Definition channel_freq_table : list Z :=
  [ 2402000000; 2404000000; 2406000000; 2408000000; 2410000000;
    2412000000; 2414000000; 2416000000; 2418000000; 2420000000;
    2422000000; 2424000000; 2426000000; 2428000000; 2430000000;
    2432000000; 2434000000; 2436000000; 2438000000; 2440000000;
    2442000000; 2444000000; 2446000000; 2448000000; 2450000000;
    2452000000; 2454000000; 2456000000; 2458000000; 2460000000;
    2462000000; 2464000000; 2466000000; 2468000000; 2470000000;
    2472000000; 2474000000; 2476000000; 2478000000; 2480000000 ].

Definition channel_freq (channel : Z) : Z :=
  nth (Z.to_nat channel) channel_freq_table 0.

(** [ble_ll_get_frequency] of [ble_ll_missing.c], used by
    [ll_scan_for_device]. *)
Definition ble_ll_get_frequency (channel : Z) : Z :=
  if channel <=? 39 then
    if channel <=? 36 then u32 (2402000000 + channel * 2000000)
    else if channel =? 37 then 2402000000
    else if channel =? 38 then 2426000000
    else if channel =? 39 then 2480000000
    else 2402000000
  else 2402000000.

(** ** The radio as an effect *)

(** The driver calls the modelled functions make, with their arguments. *)
Inductive radio_op : Type :=
  | sx128x_set_standby (mode : Z)
  | sx128x_set_pkt_type (pkt_type : Z)
  | sx128x_set_ble_mod_params (br_bw mod_ind pulse_shape : Z)
  | sx128x_set_ble_pkt_params (con_state crc_type pkt_type dc_free : Z)
  | sx128x_set_ble_sync_word (sync_word : list Z)
  | sx128x_set_ble_crc_seed (seed : Z)
  | sx128x_set_rf_freq (freq : Z)
  | sx128x_set_ble_whitening_seed (seed : Z)
  | sx128x_set_rx
  | sx128x_set_rx_with_timeout (ms : Z)
  | sx128x_set_buffer_base_address (tx_base rx_base : Z)
  | sx128x_write_buffer (offset : Z) (data : list Z) (size : Z)
  | sx128x_set_tx
  | sx128x_clear_irq_status (mask : Z).

(** What the application callbacks of the context were called with. *)
Inductive callback : Type :=
  | cb_disconnected (reason : Z)
  | cb_data_received (data : list Z) (len : Z).

(** What the radio reports during one call of [ble_ll_process_events]. *)
Record radio_env : Type := mk_env {
  scan_irq : Z;         (* status word read in the Scanning state *)
  tx_irq : nat -> Z;    (* status word returned by the k-th poll for TX_DONE *)
  rx_irq : list Z;      (* status words returned by the polls of the 2 ms RX window *)
  rx_data : list Z      (* the rx_len bytes sx128x_read_buffer copies out *)
}.

(** ** The connection context ([ble_ll.h])

    The fields the modelled functions read or write; the addresses, the
    unused counters and the debug fields of the C structure are left out. *)

Record ble_conn_context_t : Type := mk_ctx {
  conn_state : ble_conn_state_t; (* current connection state *)
  conn_interval : Z; (* uint16_t, microseconds *)
  supervision_timeout : Z; (* uint16_t, stored by ble_ll_connect, read by no link-layer code *)
  channel_map : list Z; (* uint8_t[5], bitmap of the 37 data channels *)
  hop_increment : Z; (* uint8_t *)
  last_unmapped_channel : Z; (* uint8_t *)
  num_used_channels : Z; (* uint8_t *)
  event_counter : Z; (* uint32_t *)
  anchor_point : Z; (* uint64_t, microseconds *)
  tx_seq_num : Z; (* uint8_t *)
  next_expected_seq_num : Z; (* uint8_t *)
  tx_buffer : list Z; (* uint8_t[255] *)
  tx_length : Z; (* uint16_t *)
  tx_pending : bool; (* bool *)
  rx_buffer : list Z; (* uint8_t[255] *)
  consecutive_crc_errors : Z; (* uint32_t *)
  total_crc_errors : Z; (* uint32_t *)
  on_disconnected : bool; (* callback pointer: true when not NULL *)
  on_data_received : bool; (* callback pointer: true when not NULL *)
  more_data : bool (* bool *)
}.

(** Field updates, one per field the code assigns. *)

Definition set_conn_state (c : ble_conn_context_t) (v : ble_conn_state_t) : ble_conn_context_t :=
  mk_ctx
    v (conn_interval c) (supervision_timeout c) (channel_map c)
    (hop_increment c) (last_unmapped_channel c) (num_used_channels c)
    (event_counter c) (anchor_point c) (tx_seq_num c)
    (next_expected_seq_num c) (tx_buffer c) (tx_length c) (tx_pending c)
    (rx_buffer c) (consecutive_crc_errors c) (total_crc_errors c)
    (on_disconnected c) (on_data_received c) (more_data c).

Definition set_last_unmapped_channel (c : ble_conn_context_t) (v : Z) : ble_conn_context_t :=
  mk_ctx
    (conn_state c) (conn_interval c) (supervision_timeout c) (channel_map c)
    (hop_increment c) v (num_used_channels c) (event_counter c)
    (anchor_point c) (tx_seq_num c) (next_expected_seq_num c) (tx_buffer c)
    (tx_length c) (tx_pending c) (rx_buffer c) (consecutive_crc_errors c)
    (total_crc_errors c) (on_disconnected c) (on_data_received c)
    (more_data c).

Definition set_event_counter (c : ble_conn_context_t) (v : Z) : ble_conn_context_t :=
  mk_ctx
    (conn_state c) (conn_interval c) (supervision_timeout c) (channel_map c)
    (hop_increment c) (last_unmapped_channel c) (num_used_channels c) v
    (anchor_point c) (tx_seq_num c) (next_expected_seq_num c) (tx_buffer c)
    (tx_length c) (tx_pending c) (rx_buffer c) (consecutive_crc_errors c)
    (total_crc_errors c) (on_disconnected c) (on_data_received c)
    (more_data c).

Definition set_anchor_point (c : ble_conn_context_t) (v : Z) : ble_conn_context_t :=
  mk_ctx
    (conn_state c) (conn_interval c) (supervision_timeout c) (channel_map c)
    (hop_increment c) (last_unmapped_channel c) (num_used_channels c)
    (event_counter c) v (tx_seq_num c) (next_expected_seq_num c)
    (tx_buffer c) (tx_length c) (tx_pending c) (rx_buffer c)
    (consecutive_crc_errors c) (total_crc_errors c) (on_disconnected c)
    (on_data_received c) (more_data c).

Definition set_tx_seq_num (c : ble_conn_context_t) (v : Z) : ble_conn_context_t :=
  mk_ctx
    (conn_state c) (conn_interval c) (supervision_timeout c) (channel_map c)
    (hop_increment c) (last_unmapped_channel c) (num_used_channels c)
    (event_counter c) (anchor_point c) v (next_expected_seq_num c)
    (tx_buffer c) (tx_length c) (tx_pending c) (rx_buffer c)
    (consecutive_crc_errors c) (total_crc_errors c) (on_disconnected c)
    (on_data_received c) (more_data c).

Definition set_next_expected_seq_num (c : ble_conn_context_t) (v : Z) : ble_conn_context_t :=
  mk_ctx
    (conn_state c) (conn_interval c) (supervision_timeout c) (channel_map c)
    (hop_increment c) (last_unmapped_channel c) (num_used_channels c)
    (event_counter c) (anchor_point c) (tx_seq_num c) v (tx_buffer c)
    (tx_length c) (tx_pending c) (rx_buffer c) (consecutive_crc_errors c)
    (total_crc_errors c) (on_disconnected c) (on_data_received c)
    (more_data c).

Definition set_tx_buffer (c : ble_conn_context_t) (v : list Z) : ble_conn_context_t :=
  mk_ctx
    (conn_state c) (conn_interval c) (supervision_timeout c) (channel_map c)
    (hop_increment c) (last_unmapped_channel c) (num_used_channels c)
    (event_counter c) (anchor_point c) (tx_seq_num c)
    (next_expected_seq_num c) v (tx_length c) (tx_pending c) (rx_buffer c)
    (consecutive_crc_errors c) (total_crc_errors c) (on_disconnected c)
    (on_data_received c) (more_data c).

Definition set_tx_length (c : ble_conn_context_t) (v : Z) : ble_conn_context_t :=
  mk_ctx
    (conn_state c) (conn_interval c) (supervision_timeout c) (channel_map c)
    (hop_increment c) (last_unmapped_channel c) (num_used_channels c)
    (event_counter c) (anchor_point c) (tx_seq_num c)
    (next_expected_seq_num c) (tx_buffer c) v (tx_pending c) (rx_buffer c)
    (consecutive_crc_errors c) (total_crc_errors c) (on_disconnected c)
    (on_data_received c) (more_data c).

Definition set_tx_pending (c : ble_conn_context_t) (v : bool) : ble_conn_context_t :=
  mk_ctx
    (conn_state c) (conn_interval c) (supervision_timeout c) (channel_map c)
    (hop_increment c) (last_unmapped_channel c) (num_used_channels c)
    (event_counter c) (anchor_point c) (tx_seq_num c)
    (next_expected_seq_num c) (tx_buffer c) (tx_length c) v (rx_buffer c)
    (consecutive_crc_errors c) (total_crc_errors c) (on_disconnected c)
    (on_data_received c) (more_data c).

Definition set_rx_buffer (c : ble_conn_context_t) (v : list Z) : ble_conn_context_t :=
  mk_ctx
    (conn_state c) (conn_interval c) (supervision_timeout c) (channel_map c)
    (hop_increment c) (last_unmapped_channel c) (num_used_channels c)
    (event_counter c) (anchor_point c) (tx_seq_num c)
    (next_expected_seq_num c) (tx_buffer c) (tx_length c) (tx_pending c) v
    (consecutive_crc_errors c) (total_crc_errors c) (on_disconnected c)
    (on_data_received c) (more_data c).

Definition set_consecutive_crc_errors (c : ble_conn_context_t) (v : Z) : ble_conn_context_t :=
  mk_ctx
    (conn_state c) (conn_interval c) (supervision_timeout c) (channel_map c)
    (hop_increment c) (last_unmapped_channel c) (num_used_channels c)
    (event_counter c) (anchor_point c) (tx_seq_num c)
    (next_expected_seq_num c) (tx_buffer c) (tx_length c) (tx_pending c)
    (rx_buffer c) v (total_crc_errors c) (on_disconnected c)
    (on_data_received c) (more_data c).

Definition set_total_crc_errors (c : ble_conn_context_t) (v : Z) : ble_conn_context_t :=
  mk_ctx
    (conn_state c) (conn_interval c) (supervision_timeout c) (channel_map c)
    (hop_increment c) (last_unmapped_channel c) (num_used_channels c)
    (event_counter c) (anchor_point c) (tx_seq_num c)
    (next_expected_seq_num c) (tx_buffer c) (tx_length c) (tx_pending c)
    (rx_buffer c) (consecutive_crc_errors c) v (on_disconnected c)
    (on_data_received c) (more_data c).

Definition set_more_data (c : ble_conn_context_t) (v : bool) : ble_conn_context_t :=
  mk_ctx
    (conn_state c) (conn_interval c) (supervision_timeout c) (channel_map c)
    (hop_increment c) (last_unmapped_channel c) (num_used_channels c)
    (event_counter c) (anchor_point c) (tx_seq_num c)
    (next_expected_seq_num c) (tx_buffer c) (tx_length c) (tx_pending c)
    (rx_buffer c) (consecutive_crc_errors c) (total_crc_errors c)
    (on_disconnected c) (on_data_received c) v.

(** The link layer with its effects: the context, the radio calls made so
    far and the callbacks invoked so far, oldest first. *)
Record ll_world : Type := mk_world {
  ctx : ble_conn_context_t;
  radio : list radio_op;
  calls : list callback
}.

Definition with_ctx (w : ll_world) (c : ble_conn_context_t) : ll_world :=
  mk_world c (radio w) (calls w).

Definition radio_do (w : ll_world) (ops : list radio_op) : ll_world :=
  mk_world (ctx w) (radio w ++ ops) (calls w).

(** A call through a callback pointer as the log sees it: recorded when the
    pointer is set.  What the callback does to the context is not part of
    it; [call_back] below runs the callback on the link layer. *)
Definition invoke (w : ll_world) (registered : bool) (cb : callback) : ll_world :=
  if registered then mk_world (ctx w) (radio w) (calls w ++ [cb]) else w.

(** ** Byte buffers *)

(** [store_bytes off data buf]: [memcpy (&buf[off], data, length data)] for
    a destination range inside [buf]. *)
Definition store_bytes (off : nat) (data buf : list Z) : list Z :=
  firstn off buf ++ data ++ skipn (off + length data) buf.

Definition store_byte (i : nat) (v : Z) (buf : list Z) : list Z :=
  store_bytes i [v] buf.

(** The same copy with the bounds of the destination array checked: [None]
    is a write past the end of the array. *)
Definition store_bytes_checked (off : nat) (data buf : list Z) : option (list Z) :=
  if (off + length data <=? length buf)%nat
  then Some (store_bytes off data buf)
  else None.

(** ** Channel selection algorithm #1 *)

(** [channel_map[ch >> 3] & (1 << (ch & 0x07))] as a truth value. *)
Definition channel_used (map : list Z) (ch : Z) : bool :=
  nonzero (Z.land (nth (Z.to_nat (Z.shiftr ch 3)) map 0)
                  (Z.shiftl 1 (Z.land ch 0x07))).

(** The remapping loop [for (channel = 0; channel < 37; channel++)], started
    at [channel] with [fuel] iterations left; the final [return 0] is the
    fall-through of the C function. *)
Fixpoint remap_scan (fuel : nat) (map : list Z) (remapping_index channel count : Z) : Z :=
  match fuel with
  | O => 0
  | S fuel' =>
      if channel_used map channel then
        if count =? remapping_index then channel
        else remap_scan fuel' map remapping_index (channel + 1) (u8 (count + 1))
      else remap_scan fuel' map remapping_index (channel + 1) count
  end.

(** [ble_ll_calculate_next_channel]: the channel returned and the context
    left behind.  The C remainder [unmapped % num_used_channels] is
    undefined for [num_used_channels = 0]; the model uses [Z.modulo] there. *)
Definition ble_ll_calculate_next_channel (c : ble_conn_context_t)
  : Z * ble_conn_context_t :=
  let unmapped_channel := u8 ((last_unmapped_channel c + hop_increment c) mod 37) in
  let c := set_last_unmapped_channel c unmapped_channel in
  if channel_used (channel_map c) unmapped_channel then (unmapped_channel, c)
  else
    let remapping_index := u8 (unmapped_channel mod num_used_channels c) in
    (remap_scan 37 (channel_map c) remapping_index 0 0, c).

(** ** Access addresses *)

(** Rule 2 of [ll_validate_access_address]: the loop over the 32 bits, with
    [temp] shifted right once per iteration; [false] is the early
    [return false]. *)
Fixpoint aa_run_loop (n : nat) (temp consecutive_ones consecutive_zeros max_consecutive : Z)
  : bool :=
  match n with
  | O => true
  | S n' =>
      let ones := if nonzero (Z.land temp 1) then u8 (consecutive_ones + 1) else 0 in
      let zeros := if nonzero (Z.land temp 1) then 0 else u8 (consecutive_zeros + 1) in
      let m := if ones >? max_consecutive then ones else max_consecutive in
      let m := if zeros >? m then zeros else m in
      if m >? 6 then false
      else aa_run_loop n' (Z.shiftr temp 1) ones zeros m
  end.

(** Rule 3: the loop [for (i = 1; i < 32; i++)] counting the transitions. *)
Fixpoint aa_transition_loop (n : nat) (temp prev_bit transitions : Z) : Z :=
  match n with
  | O => transitions
  | S n' =>
      let current_bit := Z.land temp 1 in
      let transitions := if current_bit =? prev_bit then transitions else u8 (transitions + 1) in
      aa_transition_loop n' (Z.shiftr temp 1) current_bit transitions
  end.

(** Rule 4: the loop [for (i = 27; i < 32; i++)], [n] iterations from [i]. *)
Fixpoint aa_last_six_loop (n : nat) (aa i prev_bit last_six_transitions : Z) : Z :=
  match n with
  | O => last_six_transitions
  | S n' =>
      let current_bit := bit aa i in
      let t := if current_bit =? prev_bit then last_six_transitions
               else u8 (last_six_transitions + 1) in
      aa_last_six_loop n' aa (i + 1) current_bit t
  end.

Definition ll_validate_access_address (aa : Z) : bool :=
  if aa =? BLE_ACCESS_ADDRESS_ADV then false
  else if negb (aa_run_loop 32 aa 0 0 0) then false
  else if aa_transition_loop 31 (Z.shiftr aa 1) (Z.land aa 1) 0 <? 3 then false
  else if aa_last_six_loop 5 aa 27 (bit aa 26) 0 <? 2 then false
  else true.

(** [ble_ll_get_random]: one step of the 8-bit LFSR [g_lfsr_state]; the
    result is the new state, returned twice (value, state). *)
Definition ble_ll_get_random (g_lfsr_state : Z) : Z * Z :=
  let b := Z.land (Z.lxor (Z.lxor (Z.lxor (Z.shiftr g_lfsr_state 0)
                                          (Z.shiftr g_lfsr_state 2))
                                  (Z.shiftr g_lfsr_state 3))
                          (Z.shiftr g_lfsr_state 5)) 1 in
  let s := u8 (Z.lor (Z.shiftr g_lfsr_state 1) (Z.shiftl b 7)) in
  (s, s).

(** One candidate of [ble_ll_generate_access_address]: four random bytes,
    drawn left to right, most significant first. *)
Definition aa_candidate (g_lfsr_state : Z) : Z * Z :=
  let '(r3, s) := ble_ll_get_random g_lfsr_state in
  let '(r2, s) := ble_ll_get_random s in
  let '(r1, s) := ble_ll_get_random s in
  let '(r0, s) := ble_ll_get_random s in
  (u32 (Z.lor (Z.lor (Z.lor (Z.shiftl r3 24) (Z.shiftl r2 16)) (Z.shiftl r1 8)) r0), s).

(** [ble_ll_generate_access_address]: the [do ... while (1)] loop, bounded
    by [fuel] iterations; [None] when no candidate passed within them. *)
Fixpoint ble_ll_generate_access_address (fuel : nat) (g_lfsr_state : Z)
  : option (Z * Z) :=
  match fuel with
  | O => None
  | S fuel' =>
      let '(aa, s) := aa_candidate g_lfsr_state in
      if ll_validate_access_address aa then Some (aa, s)
      else ble_ll_generate_access_address fuel' s
  end.

(** ** Scanning *)

Record ble_scan_params_t : Type := mk_scan_params {
  scan_interval : Z;
  scan_window : Z;
  scan_type : Z;
  filter_duplicates : bool
}.

Definition SX128X_STANDBY_RC : Z := 0x00.
Definition SX128X_PKT_TYPE_BLE : Z := 0x04.

(** [ble_ll_start_scanning]; [params = None] is the NULL pointer.  The
    filter callback is not used by the function. *)
Definition ble_ll_start_scanning (w : ll_world) (params : option ble_scan_params_t)
  : ble_status_t * ll_world :=
  match params with
  | None => (BLE_STATUS_INVALID_PARAMS, w)
  | Some _ =>
      if negb (conn_state_eqb (conn_state (ctx w)) CONN_STATE_IDLE)
      then (BLE_STATUS_BUSY, w)
      else
        let w := with_ctx w (set_conn_state (ctx w) CONN_STATE_SCANNING) in
        (BLE_STATUS_OK,
         radio_do w
           [ sx128x_set_standby SX128X_STANDBY_RC;
             sx128x_set_pkt_type SX128X_PKT_TYPE_BLE;
             sx128x_set_ble_mod_params 0x0C 0x00 0x00;
             sx128x_set_ble_pkt_params 0x00 0x10 0x00 0x08;
             sx128x_set_ble_sync_word [0xD6; 0xBE; 0x89; 0x8E];
             sx128x_set_ble_crc_seed BLE_CRC_INIT_ADV;
             sx128x_set_rf_freq (channel_freq 37);
             sx128x_set_ble_whitening_seed (Z.lor 37 0x40);
             sx128x_set_rx ])
  end.

(** ** Sending data *)

(** [ble_ll_send_data (ctx, data, len)]; [data = None] is the NULL pointer,
    otherwise [data] holds at least [len] bytes.  The result is [None] when
    a byte is written past the end of [tx_buffer]. *)
Definition ble_ll_send_data (c : ble_conn_context_t) (data : option (list Z)) (len : Z)
  : option (ble_status_t * ble_conn_context_t) :=
  match data with
  | None => Some (BLE_STATUS_INVALID_PARAMS, c)
  | Some data =>
      if (len =? 0) || (len >? 251) then Some (BLE_STATUS_INVALID_PARAMS, c)
      else if negb (conn_state_eqb (conn_state c) CONN_STATE_CONNECTED)
      then Some (BLE_STATUS_NOT_CONNECTED, c)
      else if tx_pending c then Some (BLE_STATUS_BUSY, c)
      else
        let header :=
          [ 0x02; u8 (len + 4);
            Z.land len 0xFF; Z.land (Z.shiftr len 8) 0xFF;
            Z.land L2CAP_CID_ATT 0xFF; Z.land (Z.shiftr L2CAP_CID_ATT 8) 0xFF ] in
        match store_bytes_checked 0 header (tx_buffer c) with
        | None => None
        | Some buf =>
            match store_bytes_checked 6 (firstn (Z.to_nat len) data) buf with
            | None => None
            | Some buf =>
                Some (BLE_STATUS_OK,
                      set_tx_pending (set_tx_length (set_tx_buffer c buf) (u16 (len + 6))) true)
            end
        end
  end.

(** ** The LL Data PDU header ([ble_data_pdu_t]) *)

(** Assignment to a bit-field of [width] bits at bit [pos] of byte [b]. *)
Definition set_bits (b pos width v : Z) : Z :=
  Z.lor (Z.land b (Z.lxor 0xFF (Z.shiftl (Z.ones width) pos)))
        (Z.shiftl (Z.land v (Z.ones width)) pos).

Definition pdu_llid (buf : list Z) : Z := Z.land (nth 0 buf 0) 3.
Definition pdu_nesn (buf : list Z) : Z := bit (nth 0 buf 0) 2.
Definition pdu_sn (buf : list Z) : Z := bit (nth 0 buf 0) 3.
Definition pdu_md (buf : list Z) : Z := bit (nth 0 buf 0) 4.
Definition pdu_length (buf : list Z) : Z := nth 1 buf 0.
Definition pdu_payload (buf : list Z) (i : nat) : Z := nth (2 + i) buf 0.

(** ** The connection event *)

(** The wait for TX_DONE: [while (timeout-- && !(irq & TX_DONE))], the
    value of [timeout] when the loop is left.  [k] counts the polls. *)
Fixpoint tx_done_poll (fuel : nat) (timeout : Z) (k : nat) (irq : nat -> Z) : Z :=
  match fuel with
  | O => timeout
  | S fuel' =>
      if timeout =? 0 then u32 (timeout - 1)
      else if nonzero (Z.land (irq k) SX128X_IRQ_TX_DONE) then timeout - 1
      else tx_done_poll fuel' (timeout - 1) (S k) irq
  end.

(** The header the Master stamps on [tx_buffer] before transmitting. *)
Definition stamp_tx_header (c : ble_conn_context_t) : list Z :=
  let buf := tx_buffer c in
  let buf :=
    if tx_pending c then buf
    else store_byte 1 0 (store_byte 0 (set_bits (nth 0 buf 0) 0 2 0x01) buf) in
  let b0 := set_bits (nth 0 buf 0) 2 1 (next_expected_seq_num c) in
  let b0 := set_bits b0 3 1 (tx_seq_num c) in
  let b0 := set_bits b0 4 1 (if more_data c then 1 else 0) in
  store_byte 0 b0 buf.

(** "Master TX": the first block of [ll_handle_connection_event]. *)
Definition master_tx (w : ll_world) (env : radio_env) : ll_world :=
  let c := ctx w in
  if tx_pending c || (event_counter c =? 0) then
    let buf := stamp_tx_header c in
    let size := pdu_length buf + 2 in
    let w := with_ctx w (set_tx_buffer c buf) in
    let w := radio_do w
               [ sx128x_set_buffer_base_address 0x00 0x80;
                 sx128x_write_buffer 0x00 (firstn (Z.to_nat size) buf) size;
                 sx128x_set_tx ] in
    if tx_done_poll 1001 1000 0 (tx_irq env) >? 0
    then radio_do w [sx128x_clear_irq_status SX128X_IRQ_TX_DONE]
    else w
  else w.

Definition rx_done (status : Z) : bool :=
  nonzero (Z.land status SX128X_IRQ_RX_DONE).

(** RX_DONE seen: the buffer is read and the error counter reset. *)
Definition rx_receive (w : ll_world) (env : radio_env) : ll_world :=
  let c := ctx w in
  let c := set_rx_buffer c (store_bytes 0 (rx_data env) (rx_buffer c)) in
  with_ctx w (set_consecutive_crc_errors c 0).

(** The sequence-number check and the dispatch on LLID; the boolean is
    [true] when the C function returns from inside (LL_TERMINATE_IND). *)
Definition rx_dispatch (w : ll_world) : ll_world * bool :=
  let c := ctx w in
  let rx := rx_buffer c in
  if pdu_sn rx =? next_expected_seq_num c then
    let c := set_next_expected_seq_num c (Z.lxor (next_expected_seq_num c) 1) in
    let w := with_ctx w c in
    if pdu_length rx >? 0 then
      if pdu_llid rx =? 0x02 then
        let len := u16 (pdu_length rx - 4) in
        (invoke w (on_data_received c)
           (cb_data_received (firstn (Z.to_nat len) (skipn 6 rx)) len), false)
      else if pdu_llid rx =? 0x03 then
        if pdu_payload rx 0 =? LL_TERMINATE_IND then
          let w := with_ctx w (set_conn_state c CONN_STATE_IDLE) in
          (invoke w (on_disconnected c) (cb_disconnected (pdu_payload rx 1)), true)
        else if pdu_payload rx 0 =? LL_VERSION_IND then (w, false)
        else if pdu_payload rx 0 =? LL_FEATURE_REQ then
          let feature_rsp := [0x03; 9; LL_FEATURE_RSP; 0; 0; 0; 0; 0; 0; 0; 0] in
          let c := set_tx_buffer c (store_bytes 0 feature_rsp (tx_buffer c)) in
          (with_ctx w (set_tx_pending (set_tx_length c 11) true), false)
        else (w, false)
      else (w, false)
    else (w, false)
  else (w, false).

(** The acknowledgement check and the MD bit. *)
Definition rx_acknowledge (w : ll_world) : ll_world :=
  let c := ctx w in
  let rx := rx_buffer c in
  let c :=
    if pdu_nesn rx =? tx_seq_num c then c
    else set_tx_pending (set_tx_seq_num c (Z.lxor (tx_seq_num c) 1)) false in
  with_ctx w (set_more_data c (nonzero (pdu_md rx))).

(** The end of the event: error counters, event counter, anchor point and
    the connection-timeout check. *)
Definition event_epilogue (w : ll_world) (rx_success : bool) : ll_world :=
  let c := ctx w in
  let c :=
    if rx_success then c
    else set_total_crc_errors
           (set_consecutive_crc_errors c (u32 (consecutive_crc_errors c + 1)))
           (u32 (total_crc_errors c + 1)) in
  let c := set_event_counter c (u32 (event_counter c + 1)) in
  let c := set_anchor_point c (u64 (anchor_point c + conn_interval c)) in
  if consecutive_crc_errors c >? 6 then
    invoke (with_ctx w (set_conn_state c CONN_STATE_IDLE))
           (on_disconnected c) (cb_disconnected 0x08)
  else with_ctx w c.

(** The first half of [ll_handle_connection_event]: the channel is
    selected and programmed, the Master transmits, the radio is put in RX
    with its 2 ms timeout. *)
Definition event_tx_phase (w : ll_world) (env : radio_env) : ll_world :=
  let '(channel, c) := ble_ll_calculate_next_channel (ctx w) in
  let freq := channel_freq channel in
  let w := radio_do (with_ctx w c)
             [ sx128x_set_rf_freq freq;
               sx128x_set_ble_whitening_seed (Z.lor channel 0x40) ] in
  let w := master_tx w env in
  radio_do w [sx128x_set_rx_with_timeout 2].

(** [ll_handle_connection_event].  The waits (anchor point, T_IFS) change
    no state; the callbacks are application code and are taken to leave the
    context as it is.  The RX loop polls the status word while the 2 ms
    window is open and stops at the first one with RX_DONE. *)
Definition ll_handle_connection_event (w : ll_world) (env : radio_env) : ll_world :=
  let w := event_tx_phase w env in
  match find rx_done (rx_irq env) with
  | Some _ =>
      let '(w, returned) := rx_dispatch (rx_receive w env) in
      if returned then w else event_epilogue (rx_acknowledge w) true
  | None => event_epilogue w false
  end.

(** [ble_ll_process_events] at time [now] (microseconds).  In the Scanning
    state the CONNECT_REQ branch of the C code is guarded by
    [conn_state == CONN_STATE_INITIATING] and cannot be taken there. *)
Definition ble_ll_process_events (w : ll_world) (now : Z) (env : radio_env) : ll_world :=
  match conn_state (ctx w) with
  | CONN_STATE_SCANNING =>
      if rx_done (scan_irq env)
      then radio_do w [sx128x_clear_irq_status SX128X_IRQ_RX_DONE; sx128x_set_rx]
      else w
  | CONN_STATE_CONNECTED =>
      if now >=? anchor_point (ctx w) then ll_handle_connection_event w env else w
  | _ => w
  end.

(** A run of the main loop: one call per element, with the time of the call
    and what the radio reports during it. *)
Definition run_events (w : ll_world) (trace : list (Z * radio_env)) : ll_world :=
  fold_left (fun w te => ble_ll_process_events w (fst te) (snd te)) trace w.

(** ** The ATT/GATT client ([ble_gatt.h], [ble_gatt.c]) *)

Record gatt_bracelet_handles_t : Type := mk_handles {
  service_handle : Z;
  tx_char_handle : Z;
  rx_char_handle : Z;
  cccd_handle : Z
}.

(** [gatt_client_context_t] without its pointer to the link-layer context,
    which the functions below take and return next to it. *)
Record gatt_client_context_t : Type := mk_gatt {
  mtu : Z;                    (* uint16_t *)
  pending_op : Z;             (* uint8_t *)
  pending_handle : Z;         (* uint16_t *)
  response_buffer : list Z;   (* uint8_t[ATT_MTU_MAX] *)
  response_length : Z;        (* uint16_t *)
  response_received : bool;
  handles : gatt_bracelet_handles_t
}.

Definition set_mtu (g : gatt_client_context_t) (v : Z) : gatt_client_context_t :=
  mk_gatt v (pending_op g) (pending_handle g) (response_buffer g)
    (response_length g) (response_received g) (handles g).

Definition set_pending_op (g : gatt_client_context_t) (v : Z) : gatt_client_context_t :=
  mk_gatt (mtu g) v (pending_handle g) (response_buffer g)
    (response_length g) (response_received g) (handles g).

Definition set_pending_handle (g : gatt_client_context_t) (v : Z) : gatt_client_context_t :=
  mk_gatt (mtu g) (pending_op g) v (response_buffer g)
    (response_length g) (response_received g) (handles g).

Definition set_response_buffer (g : gatt_client_context_t) (v : list Z) : gatt_client_context_t :=
  mk_gatt (mtu g) (pending_op g) (pending_handle g) v
    (response_length g) (response_received g) (handles g).

Definition set_response_length (g : gatt_client_context_t) (v : Z) : gatt_client_context_t :=
  mk_gatt (mtu g) (pending_op g) (pending_handle g) (response_buffer g)
    v (response_received g) (handles g).

Definition set_response_received (g : gatt_client_context_t) (v : bool) : gatt_client_context_t :=
  mk_gatt (mtu g) (pending_op g) (pending_handle g) (response_buffer g)
    (response_length g) v (handles g).

(** [att_msg_t] as far as requests use it: the opcode with the member of
    the parameter union that belongs to it.  The value of a write request
    is the whole array [value[ATT_MTU_MAX - 3]]. *)
Inductive att_msg_t : Type :=
  | att_read_by_type_req (starting_handle ending_handle uuid16 : Z)
  | att_read_req (handle : Z)
  | att_write_req (handle : Z) (value : list Z)
  | att_other (opcode : Z).

Definition att_opcode (req : att_msg_t) : Z :=
  match req with
  | att_read_by_type_req _ _ _ => ATT_READ_BY_TYPE_REQ
  | att_read_req _ => ATT_READ_REQ
  | att_write_req _ _ => ATT_WRITE_REQ
  | att_other opcode => opcode
  end.

(** [gatt_build_read_request] and [gatt_build_write_request]; [value] is
    copied to the front of the array [old_value] of the message. *)
Definition gatt_build_read_request (handle : Z) : att_msg_t :=
  att_read_req handle.

Definition gatt_build_write_request (old_value : list Z) (handle : Z) (value : list Z)
  : att_msg_t :=
  att_write_req handle (store_bytes 0 value old_value).

(** [gatt_process_notification]. *)
Definition gatt_process_notification (g : gatt_client_context_t) (w : ll_world)
  (handle : Z) (value : list Z) : ll_world :=
  if handle =? rx_char_handle (handles g)
  then invoke w (on_data_received (ctx w))
         (cb_data_received value (u16 (response_length g - 3)))
  else w.

Definition att_is_response (opcode : Z) : bool :=
  (opcode =? ATT_READ_RSP) || (opcode =? ATT_READ_BLOB_RSP) ||
  (opcode =? ATT_READ_BY_TYPE_RSP) || (opcode =? ATT_READ_BY_GROUP_RSP) ||
  (opcode =? ATT_WRITE_RSP).

(** The notification and indication branches: the value is copied to a
    local [att_msg_t], which holds [ATT_MTU_MAX - 3] bytes. *)
Definition gatt_notify (g : gatt_client_context_t) (w : ll_world) (data : list Z) (len : Z)
  : option (gatt_client_context_t * ll_world) :=
  if (len <? 3) || (len - 3 >? ATT_MTU_MAX - 3) then None
  else
    let handle := u16 (Z.lor (nth 1 data 0) (Z.shiftl (nth 2 data 0) 8)) in
    let value := firstn (Z.to_nat (len - 3)) (skipn 3 data) in
    Some (g, gatt_process_notification g w handle value).

(** [ble_gatt_handle_rx_data (ctx, data, len)]; [data = None] is the NULL
    pointer, otherwise the bytes at the pointer (a read past them gives 0).
    [None] is a write past the end of an array. *)
Definition ble_gatt_handle_rx_data (g : gatt_client_context_t) (w : ll_world)
  (data : option (list Z)) (len : Z) : option (gatt_client_context_t * ll_world) :=
  match data with
  | None => Some (g, w)
  | Some data =>
      if len =? 0 then Some (g, w)
      else
        let opcode := nth 0 data 0 in
        if opcode =? ATT_ERROR_RSP then
          let g := set_response_buffer g (store_byte 0 opcode (response_buffer g)) in
          Some (set_response_received (set_response_length g len) true, w)
        else if opcode =? ATT_EXCHANGE_MTU_RSP then
          let m := u16 (Z.lor (nth 1 data 0) (Z.shiftl (nth 2 data 0) 8)) in
          let m := if m >? ATT_MTU_MAX then ATT_MTU_MAX else m in
          Some (set_response_received (set_mtu g m) true, w)
        else if att_is_response opcode then
          match store_bytes_checked 0 (firstn (Z.to_nat len) data) (response_buffer g) with
          | None => None
          | Some buf =>
              let g := set_response_buffer g buf in
              Some (set_response_received (set_response_length g len) true, w)
          end
        else if opcode =? ATT_HANDLE_VALUE_NTF then gatt_notify g w data len
        else if opcode =? ATT_HANDLE_VALUE_IND then
          match ble_ll_send_data (ctx w) (Some [ATT_HANDLE_VALUE_CFM]) 1 with
          | None => None
          | Some (_, c) => gatt_notify g (with_ctx w c) data len
          end
        else Some (g, w)
  end.

(** The ATT PDU [gatt_send_att_request] builds in its local array
    [pdu[ATT_MTU_MAX]], with its length; [None] for an opcode the switch
    does not know or a copy that leaves the array. *)
Definition att_build_pdu (g : gatt_client_context_t) (req : att_msg_t)
  : option (option (list Z * Z)) :=
  match req with
  | att_read_by_type_req starting_handle ending_handle uuid16 =>
      Some (Some ([ ATT_READ_BY_TYPE_REQ;
                    Z.land starting_handle 0xFF; Z.land (Z.shiftr starting_handle 8) 0xFF;
                    Z.land ending_handle 0xFF; Z.land (Z.shiftr ending_handle 8) 0xFF;
                    Z.land uuid16 0xFF; Z.land (Z.shiftr uuid16 8) 0xFF ], 7))
  | att_read_req handle =>
      Some (Some ([ ATT_READ_REQ; Z.land handle 0xFF; Z.land (Z.shiftr handle 8) 0xFF ], 3))
  | att_write_req handle value =>
      if (mtu g <? 3) || (mtu g >? ATT_MTU_MAX) then None
      else
        Some (Some ([ ATT_WRITE_REQ; Z.land handle 0xFF; Z.land (Z.shiftr handle 8) 0xFF ]
                      ++ firstn (Z.to_nat (mtu g - 3)) value,
                    u16 (3 + (mtu g - 3))))
  | att_other _ => Some None
  end.

(** The first half-word of the parameter union, which
    [req->params.read.handle] and [req->params.write.handle] both read. *)
Definition att_first_handle (req : att_msg_t) : Z :=
  match req with
  | att_read_by_type_req starting_handle _ _ => starting_handle
  | att_read_req handle => handle
  | att_write_req handle _ => handle
  | att_other _ => 0
  end.

(** [gatt_send_att_request (ctx, req)] on the GATT context and the
    link-layer context it points to.  [None] is a write past the end of an
    array. *)
Definition gatt_send_att_request (g : gatt_client_context_t) (c : ble_conn_context_t)
  (req : att_msg_t)
  : option (ble_status_t * gatt_client_context_t * ble_conn_context_t) :=
  let g := set_response_length (set_response_received g false) 0 in
  match att_build_pdu g req with
  | None => None
  | Some None => Some (BLE_STATUS_INVALID_PARAMS, g, c)
  | Some (Some (pdu, pdu_len)) =>
      let g := set_pending_op g (att_opcode req) in
      let g := set_pending_handle g (att_first_handle req) in
      match ble_ll_send_data c (Some pdu) pdu_len with
      | None => None
      | Some (status, c) => Some (status, g, c)
      end
  end.

(** ** The properties of the specification, in its own words *)

(** *** Channel map *)

(** Bit [ch] of the channel map: bit [ch mod 8] of byte [ch / 8]. *)
Definition map_bit (map : list Z) (ch : Z) : bool :=
  Z.testbit (nth (Z.to_nat (ch / 8)) map 0) (ch mod 8).

(** The data channels 0..36 in order, and those of them a map uses. *)
Definition data_channels : list Z := map Z.of_nat (seq 0 37).

Definition used_channels (map : list Z) : list Z :=
  filter (map_bit map) data_channels.

(** *** The four validity rules of an access address *)

(** A run of seven identical consecutive bits somewhere in bits 0..31. *)
Definition has_run7 (aa : Z) : Prop :=
  exists i, 0 <= i /\ i + 7 <= 32 /\
    forall j, i <= j < i + 7 -> Z.testbit aa j = Z.testbit aa i.

(** The number of positions [j] among the [n] positions from [lo] on where
    bit [j + 1] differs from bit [j]; [transitions aa lo hi] counts them
    between bit [lo] and bit [hi]. *)
Definition count_transitions (aa : Z) (lo n : nat) : Z :=
  Z.of_nat (length (filter
    (fun j => xorb (Z.testbit aa (Z.of_nat j)) (Z.testbit aa (Z.of_nat j + 1)))
    (seq lo n))).

Definition transitions (aa : Z) (lo hi : nat) : Z :=
  count_transitions aa lo (hi - lo).

Definition aa_valid (aa : Z) : Prop :=
  aa <> 0x8E89BED6 /\
  ~ has_run7 aa /\
  3 <= transitions aa 0 31 /\
  2 <= transitions aa 26 31.

(** Invariants of the run-length loop after [i] bits: no run of seven
    inside bits 0..i-1, and [k] the length of the run of [b] that ends at
    bit [i - 1]. *)
Definition no_run_below (aa i : Z) : Prop :=
  forall s, 0 <= s -> s + 7 <= i ->
    ~ (forall j, s <= j < s + 7 -> Z.testbit aa j = Z.testbit aa s).

Definition trailing_run (aa : Z) (b : bool) (i k : Z) : Prop :=
  0 <= k <= i /\
  (forall j, i - k <= j < i -> Z.testbit aa j = b) /\
  (k < i -> Z.testbit aa (i - k - 1) = negb b).

(** *** Outcomes of the RX window *)

(** No status word of the window has RX_DONE: the RX timeout. *)
Definition rx_timed_out (env : radio_env) : Prop :=
  find rx_done (rx_irq env) = None.

(** The first status word with RX_DONE reports no CRC error: a valid PDU. *)
Definition rx_valid (env : radio_env) : Prop :=
  exists status, find rx_done (rx_irq env) = Some status /\
                 Z.land status SX128X_IRQ_CRC_ERROR = 0.

(** The PDU the event sees: the received bytes laid over [rx_buffer]. *)
Definition received_pdu (w : ll_world) (env : radio_env) : list Z :=
  store_bytes 0 (rx_data env) (rx_buffer (ctx w)).

(** The received PDU is a new LL control PDU (LLID 11, not empty, expected
    sequence number) with the given opcode. *)
Definition new_control_pdu (c : ble_conn_context_t) (rx : list Z) (opcode : Z) : bool :=
  (pdu_sn rx =? next_expected_seq_num c) && (pdu_length rx >? 0) &&
  (pdu_llid rx =? 0x03) && (pdu_payload rx 0 =? opcode).

(** *** What an event puts on air *)

(** The radio calls an event adds to the log. *)
Definition event_ops (w w' : ll_world) : list radio_op :=
  skipn (length (radio w)) (radio w').

(** The PDUs written to the radio and the number of TX starts among some
    radio calls. *)
Definition transmitted (ops : list radio_op) : list (list Z) :=
  flat_map (fun op => match op with
                      | sx128x_write_buffer _ data _ => [data]
                      | _ => []
                      end) ops.

Definition tx_starts (ops : list radio_op) : nat :=
  length (filter (fun op => match op with sx128x_set_tx => true | _ => false end) ops).

(** *** Runs of events *)

(** Consecutive connection events, one per radio environment. *)
Definition handle_events (w : ll_world) (envs : list radio_env) : ll_world :=
  fold_left ll_handle_connection_event envs w.

(** The supervision timeout in microseconds; the field holds milliseconds. *)
Definition supervision_timeout_us (c : ble_conn_context_t) : Z :=
  supervision_timeout c * 1000.

(** *** ATT requests *)

(** The requests [gatt_send_att_request] can encode with the current MTU. *)
Definition att_encodable (g : gatt_client_context_t) (req : att_msg_t) : Prop :=
  match req with
  | att_read_by_type_req _ _ _ => True
  | att_read_req _ => True
  | att_write_req _ _ => 3 <= mtu g <= ATT_MTU_MAX
  | att_other _ => False
  end.

(** *** Sample values *)

(** A connected Master between two events: all 37 channels in use, hop
    increment 7, connection interval 50 ms, supervision timeout 100 ms,
    nothing to send, callbacks registered. *)
Definition sample_ctx : ble_conn_context_t :=
  mk_ctx CONN_STATE_CONNECTED 50000 100 [0xFF; 0xFF; 0xFF; 0xFF; 0x1F]
    7 0 37 1 0 0 0 (repeat 0 255) 0 false (repeat 0 255) 0 0 true true false.

Definition sample_gatt : gatt_client_context_t :=
  mk_gatt 23 0 0 (repeat 0 247) 0 false (mk_handles 0x000C 0x000E 0x0011 0x0012).

(** The radio reports TX_DONE at once and, in the RX window, RX_DONE with
    the given bytes. *)
Definition env_receiving (data : list Z) : radio_env :=
  mk_env 0 (fun _ => SX128X_IRQ_TX_DONE) [0; SX128X_IRQ_RX_DONE] data.

(** The radio reports TX_DONE at once and nothing in the RX window. *)
Definition env_silent : radio_env :=
  mk_env 0 (fun _ => SX128X_IRQ_TX_DONE) [0; 0; 0] [].

(** ** Further functions of the link layer ([ble_ll.c], [ble_ll_missing.c]) *)

(** The address and connection-parameter fields of the C context that the
    record [ble_conn_context_t] above leaves out; [ble_ll_init],
    [ble_ll_set_address] and [ble_ll_connect] write them. *)
Record ble_conn_ident_t : Type := mk_ident {
  local_addr : list Z;      (* uint8_t[6] *)
  peer_addr : list Z;       (* uint8_t[6] *)
  access_address : Z;       (* uint32_t *)
  crc_init : Z;             (* uint32_t *)
  slave_latency : Z         (* uint16_t *)
}.

Definition set_conn_interval (c : ble_conn_context_t) (v : Z) : ble_conn_context_t :=
  mk_ctx
    (conn_state c) v (supervision_timeout c) (channel_map c)
    (hop_increment c) (last_unmapped_channel c) (num_used_channels c)
    (event_counter c) (anchor_point c) (tx_seq_num c)
    (next_expected_seq_num c) (tx_buffer c) (tx_length c) (tx_pending c)
    (rx_buffer c) (consecutive_crc_errors c) (total_crc_errors c)
    (on_disconnected c) (on_data_received c) (more_data c).

Definition set_supervision_timeout (c : ble_conn_context_t) (v : Z) : ble_conn_context_t :=
  mk_ctx
    (conn_state c) (conn_interval c) v (channel_map c)
    (hop_increment c) (last_unmapped_channel c) (num_used_channels c)
    (event_counter c) (anchor_point c) (tx_seq_num c)
    (next_expected_seq_num c) (tx_buffer c) (tx_length c) (tx_pending c)
    (rx_buffer c) (consecutive_crc_errors c) (total_crc_errors c)
    (on_disconnected c) (on_data_received c) (more_data c).

Definition set_hop_increment (c : ble_conn_context_t) (v : Z) : ble_conn_context_t :=
  mk_ctx
    (conn_state c) (conn_interval c) (supervision_timeout c) (channel_map c)
    v (last_unmapped_channel c) (num_used_channels c)
    (event_counter c) (anchor_point c) (tx_seq_num c)
    (next_expected_seq_num c) (tx_buffer c) (tx_length c) (tx_pending c)
    (rx_buffer c) (consecutive_crc_errors c) (total_crc_errors c)
    (on_disconnected c) (on_data_received c) (more_data c).

(** [n] successive calls of [ble_ll_get_random]: the values, first call
    first, and the state left behind. *)
Fixpoint random_bytes (n : nat) (g_lfsr_state : Z) : list Z * Z :=
  match n with
  | O => ([], g_lfsr_state)
  | S n' =>
      let '(r, s) := ble_ll_get_random g_lfsr_state in
      let '(rs, s) := random_bytes n' s in
      (r :: rs, s)
  end.

(** The state of the LFSR after [n] calls. *)
Fixpoint lfsr_after (n : nat) (g_lfsr_state : Z) : Z :=
  match n with
  | O => g_lfsr_state
  | S n' => lfsr_after n' (snd (ble_ll_get_random g_lfsr_state))
  end.

(** [ble_ll_generate_crc_init]: three random bytes, drawn left to right. *)
Definition ble_ll_generate_crc_init (g_lfsr_state : Z) : Z * Z :=
  let '(r2, s) := ble_ll_get_random g_lfsr_state in
  let '(r1, s) := ble_ll_get_random s in
  let '(r0, s) := ble_ll_get_random s in
  (u32 (Z.lor (Z.lor (Z.shiftl r2 16) (Z.shiftl r1 8)) r0), s).

(** The context [memset] leaves: every field zero, every pointer NULL. *)
Definition zeroed_ctx : ble_conn_context_t :=
  mk_ctx CONN_STATE_IDLE 0 0 [0; 0; 0; 0; 0] 0 0 0 0 0 0 0
    (repeat 0 255) 0 false (repeat 0 255) 0 0 false false false.

Definition zeroed_ident : ble_conn_ident_t :=
  mk_ident [0; 0; 0; 0; 0; 0] [0; 0; 0; 0; 0; 0] 0 0 0.

(** [ble_ll_init (ctx, radio_context)]; [radio_context = false] is the NULL
    pointer.  The context is cleared, the local address drawn from the
    LFSR and made random static, the channel map set to the 37 data
    channels. *)
Definition ble_ll_init (c : ble_conn_context_t) (i : ble_conn_ident_t)
  (radio_context : bool) (g_lfsr_state : Z)
  : ble_status_t * ble_conn_context_t * ble_conn_ident_t * Z :=
  if negb radio_context then (BLE_STATUS_INVALID_PARAMS, c, i, g_lfsr_state)
  else
    let '(addr, s) := random_bytes 6 g_lfsr_state in
    let addr := store_byte 5 (Z.lor (nth 5 addr 0) 0xC0) addr in
    let i := mk_ident addr (peer_addr zeroed_ident) (access_address zeroed_ident)
               (crc_init zeroed_ident) (slave_latency zeroed_ident) in
    let c := mk_ctx CONN_STATE_IDLE 0 0 [0xFF; 0xFF; 0xFF; 0xFF; 0x1F] 0 0 37 0 0 0 0
               (repeat 0 255) 0 false (repeat 0 255) 0 0 false false false in
    (BLE_STATUS_OK, c, i, s).

(** [ble_defs.h]: the connection parameters the caller passes. *)
Record ble_conn_params_t : Type := mk_conn_params {
  params_conn_interval : Z;         (* uint16_t, unit 1.25 ms *)
  params_slave_latency : Z;         (* uint16_t *)
  params_supervision_timeout : Z    (* uint16_t *)
}.

(** [ble_ll_connect (ctx, peer_addr, params)]; [None] arguments are NULL
    pointers, otherwise [peer] holds at least six bytes.  [fuel] bounds the
    loop of the access-address generator; the result is [None] when the
    generator has not returned within it. *)
Definition ble_ll_connect (fuel : nat) (c : ble_conn_context_t) (i : ble_conn_ident_t)
  (g_lfsr_state : Z) (peer : option (list Z)) (params : option ble_conn_params_t)
  : option (ble_status_t * ble_conn_context_t * ble_conn_ident_t * Z) :=
  match peer, params with
  | Some peer, Some params =>
      if negb (conn_state_eqb (conn_state c) CONN_STATE_IDLE)
         && negb (conn_state_eqb (conn_state c) CONN_STATE_SCANNING)
      then Some (BLE_STATUS_BUSY, c, i, g_lfsr_state)
      else
        let c := set_conn_interval c (u16 (params_conn_interval params * 1250)) in
        let c := set_supervision_timeout c (params_supervision_timeout params) in
        match ble_ll_generate_access_address fuel g_lfsr_state with
        | None => None
        | Some (aa, s) =>
            let '(crc, s) := ble_ll_generate_crc_init s in
            let '(r, s) := ble_ll_get_random s in
            let c := set_hop_increment c (u8 (5 + r mod 12)) in
            let i := mk_ident (local_addr i) (firstn 6 peer) aa (Z.land crc 0xFFFFFF)
                       (params_slave_latency params) in
            Some (BLE_STATUS_OK, set_conn_state c CONN_STATE_INITIATING, i, s)
        end
  | _, _ => Some (BLE_STATUS_INVALID_PARAMS, c, i, g_lfsr_state)
  end.

(** [ble_ll_stop_scanning]. *)
Definition ble_ll_stop_scanning (w : ll_world) : ble_status_t * ll_world :=
  if negb (conn_state_eqb (conn_state (ctx w)) CONN_STATE_SCANNING)
  then (BLE_STATUS_ERROR, w)
  else
    let w := radio_do w [sx128x_set_standby SX128X_STANDBY_RC] in
    (BLE_STATUS_OK, with_ctx w (set_conn_state (ctx w) CONN_STATE_IDLE)).

(** [ble_ll_disconnect (ctx, reason)].  The array [terminate_pdu] is
    declared with three elements, so its fourth initialiser, [reason], is
    dropped; the [memcpy] of four bytes then reads one byte past the array,
    here [past_end]. *)
Definition ble_ll_disconnect (c : ble_conn_context_t) (reason past_end : Z)
  : ble_status_t * ble_conn_context_t :=
  if negb (conn_state_eqb (conn_state c) CONN_STATE_CONNECTED)
  then (BLE_STATUS_NOT_CONNECTED, c)
  else
    let terminate_pdu := [0x03; 0x02; LL_TERMINATE_IND] in
    let c := set_tx_length c 4 in
    let c := set_tx_buffer c (store_bytes 0 (terminate_pdu ++ [past_end]) (tx_buffer c)) in
    let c := set_tx_pending c true in
    (BLE_STATUS_OK, set_conn_state c CONN_STATE_DISCONNECTING).

(** [ble_ll_deinit]: a connected link is disconnected with reason 0x16;
    stopping the timers changes no state of the model. *)
Definition ble_ll_deinit (c : ble_conn_context_t) (past_end : Z)
  : ble_status_t * ble_conn_context_t :=
  if conn_state_eqb (conn_state c) CONN_STATE_CONNECTED
  then (BLE_STATUS_OK, snd (ble_ll_disconnect c 0x16 past_end))
  else (BLE_STATUS_OK, c).

(** [ble_send_empty_pdu]. *)
Definition ble_send_empty_pdu (c : ble_conn_context_t)
  : ble_status_t * ble_conn_context_t :=
  if negb (conn_state_eqb (conn_state c) CONN_STATE_CONNECTED)
  then (BLE_STATUS_NOT_CONNECTED, c)
  else
    let buf := store_byte 1 0x00 (store_byte 0 0x01 (tx_buffer c)) in
    (BLE_STATUS_OK, set_tx_pending (set_tx_length (set_tx_buffer c buf) 2) true).

(** [l2cap_frame_t]: the header and the 251-byte payload array. *)
Record l2cap_frame_t : Type := mk_l2cap_frame {
  frame_length : Z;        (* header.length, uint16_t *)
  frame_cid : Z;           (* header.cid, uint16_t *)
  frame_payload : list Z   (* uint8_t[251] *)
}.

(** [ll_send_l2cap_frame]; [None] when a byte is written past the end of
    [tx_buffer]. *)
Definition ll_send_l2cap_frame (c : ble_conn_context_t) (frame : l2cap_frame_t)
  : option (ble_status_t * ble_conn_context_t) :=
  if negb (conn_state_eqb (conn_state c) CONN_STATE_CONNECTED)
  then Some (BLE_STATUS_NOT_CONNECTED, c)
  else if tx_pending c then Some (BLE_STATUS_BUSY, c)
  else
    let header :=
      [ 0x02; u8 (frame_length frame + 4);
        Z.land (frame_length frame) 0xFF; Z.land (Z.shiftr (frame_length frame) 8) 0xFF;
        Z.land (frame_cid frame) 0xFF; Z.land (Z.shiftr (frame_cid frame) 8) 0xFF ] in
    match store_bytes_checked 0 header (tx_buffer c) with
    | None => None
    | Some buf =>
        match store_bytes_checked 6
                (firstn (Z.to_nat (frame_length frame)) (frame_payload frame)) buf with
        | None => None
        | Some buf =>
            Some (BLE_STATUS_OK,
                  set_tx_pending
                    (set_tx_length (set_tx_buffer c buf) (u16 (frame_length frame + 6)))
                    true)
        end
    end.

(** [ll_send_pdu (ctx, pdu, len)]: the PDU is written and transmitted, then
    TX_DONE is polled for with the loop [while (timeout-- && ...)], the
    same as in the connection event. *)
Definition ll_send_pdu (w : ll_world) (pdu : list Z) (len : Z) (irq : nat -> Z)
  : ble_status_t * ll_world :=
  let w := radio_do w
             [ sx128x_set_standby SX128X_STANDBY_RC;
               sx128x_set_buffer_base_address 0x00 0x80;
               sx128x_write_buffer 0x00 (firstn (Z.to_nat len) pdu) len;
               sx128x_set_tx ] in
  if tx_done_poll 1001 1000 0 irq =? 0 then (BLE_STATUS_TIMEOUT, w)
  else (BLE_STATUS_OK, radio_do w [sx128x_clear_irq_status SX128X_IRQ_TX_DONE]).

(** The channels of [n] consecutive calls of
    [ble_ll_calculate_next_channel], first call first. *)
Fixpoint hop_sequence (n : nat) (c : ble_conn_context_t) : list Z :=
  match n with
  | O => []
  | S n' =>
      let '(channel, c) := ble_ll_calculate_next_channel c in
      channel :: hop_sequence n' c
  end.

(** ** Decidable checks used in the proofs *)

(** No value occurs twice in [l]. *)
Fixpoint nodupb (l : list Z) : bool :=
  match l with
  | [] => true
  | x :: r => negb (existsb (Z.eqb x) r) && nodupb r
  end.

(** The channel map with the 37 data channels in use, as [ble_ll_init]
    sets it. *)
Definition all_data_channels_map : list Z := [0xFF; 0xFF; 0xFF; 0xFF; 0x1F].

(** The unmapped channel of the [k]-th event after a context with the
    given last unmapped channel and hop increment. *)
Definition unmapped_after (last hop : Z) (k : nat) : Z :=
  (last + Z.of_nat k * hop) mod 37.

(** [ble_ll_set_address (ctx, addr)]; [addr = None] is the NULL pointer,
    otherwise [addr] holds at least six bytes. *)
Definition ble_ll_set_address (i : ble_conn_ident_t) (addr : option (list Z))
  : ble_status_t * ble_conn_ident_t :=
  match addr with
  | None => (BLE_STATUS_INVALID_PARAMS, i)
  | Some addr =>
      (BLE_STATUS_OK,
       mk_ident (firstn 6 addr) (peer_addr i) (access_address i) (crc_init i)
         (slave_latency i))
  end.

(** ** The Link Layer API as a whole *)

(** What the API functions of [ble_ll.h] work on: the context with the
    radio and callback logs, the address fields, and the state of the
    random number generator. *)
Record ll_state : Type := mk_ll_state {
  st_world : ll_world;
  st_ident : ble_conn_ident_t;
  st_lfsr : Z
}.

(** One call of a function of the section "Link Layer API" of [ble_ll.h],
    with its arguments and what the environment supplies during the call.
    [ble_ll_radio_irq_handler] and [ble_ll_connection_event_trigger] have
    empty bodies. *)
Inductive ll_api_call : Type :=
  | api_init (radio_context : bool)
  | api_deinit (past_end : Z)
  | api_set_address (addr : option (list Z))
  | api_start_scanning (params : option ble_scan_params_t)
  | api_stop_scanning
  | api_connect (peer : option (list Z)) (params : option ble_conn_params_t)
  | api_disconnect (reason past_end : Z)
  | api_send_data (data : option (list Z)) (len : Z)
  | api_process_events (now : Z) (env : radio_env)
  | api_radio_irq_handler
  | api_connection_event_trigger.

(** The call performed on a state: the status returned ([BLE_STATUS_OK] for
    the functions that return nothing) and the state left.  [None] when
    the access-address generator has not returned within [fuel] candidates
    or a byte is written past the end of an array. *)
Definition ll_api_step (fuel : nat) (st : ll_state) (call : ll_api_call)
  : option (ble_status_t * ll_state) :=
  let w := st_world st in
  match call with
  | api_init radio_context =>
      let '(status, c, i, s) := ble_ll_init (ctx w) (st_ident st) radio_context (st_lfsr st) in
      Some (status, mk_ll_state (with_ctx w c) i s)
  | api_deinit past_end =>
      let '(status, c) := ble_ll_deinit (ctx w) past_end in
      Some (status, mk_ll_state (with_ctx w c) (st_ident st) (st_lfsr st))
  | api_set_address addr =>
      let '(status, i) := ble_ll_set_address (st_ident st) addr in
      Some (status, mk_ll_state w i (st_lfsr st))
  | api_start_scanning params =>
      let '(status, w) := ble_ll_start_scanning w params in
      Some (status, mk_ll_state w (st_ident st) (st_lfsr st))
  | api_stop_scanning =>
      let '(status, w) := ble_ll_stop_scanning w in
      Some (status, mk_ll_state w (st_ident st) (st_lfsr st))
  | api_connect peer params =>
      match ble_ll_connect fuel (ctx w) (st_ident st) (st_lfsr st) peer params with
      | None => None
      | Some (status, c, i, s) => Some (status, mk_ll_state (with_ctx w c) i s)
      end
  | api_disconnect reason past_end =>
      let '(status, c) := ble_ll_disconnect (ctx w) reason past_end in
      Some (status, mk_ll_state (with_ctx w c) (st_ident st) (st_lfsr st))
  | api_send_data data len =>
      match ble_ll_send_data (ctx w) data len with
      | None => None
      | Some (status, c) =>
          Some (status, mk_ll_state (with_ctx w c) (st_ident st) (st_lfsr st))
      end
  | api_process_events now env =>
      Some (BLE_STATUS_OK,
            mk_ll_state (ble_ll_process_events w now env) (st_ident st) (st_lfsr st))
  | api_radio_irq_handler => Some (BLE_STATUS_OK, st)
  | api_connection_event_trigger => Some (BLE_STATUS_OK, st)
  end.

(** A sequence of calls, first call first. *)
Fixpoint ll_api_run (fuel : nat) (st : ll_state) (calls : list ll_api_call)
  : option ll_state :=
  match calls with
  | [] => Some st
  | call :: calls =>
      match ll_api_step fuel st call with
      | None => None
      | Some (_, st) => ll_api_run fuel st calls
      end
  end.

(** Radio calls that neither fill the TX buffer nor start a transmission. *)
Definition no_tx (ops : list radio_op) : Prop :=
  transmitted ops = [] /\ tx_starts ops = 0%nat.

(** The radio calls of [ble_ll_process_events] over a run in the Scanning
    state: for every call that finds RX_DONE set, the interrupt is cleared
    and the receiver started again. *)
Definition scan_rearm_ops (trace : list (Z * radio_env)) : list radio_op :=
  flat_map (fun te =>
              if rx_done (scan_irq (snd te))
              then [sx128x_clear_irq_status SX128X_IRQ_RX_DONE; sx128x_set_rx]
              else []) trace.

(** ** Writing through the GATT client ([ble_gatt.c]) *)

(** [bracelet_type_t] of [ble_defs.h]; the field [bracelet_type] of the
    GATT context is passed next to the record above. *)
Inductive bracelet_type_t : Type :=
  | BRACELET_TYPE_UNKNOWN
  | BRACELET_TYPE_XIAOMI
  | BRACELET_TYPE_NORDIC_UART
  | BRACELET_TYPE_CUSTOM.

Definition bracelet_type_eqb (a b : bracelet_type_t) : bool :=
  match a, b with
  | BRACELET_TYPE_UNKNOWN, BRACELET_TYPE_UNKNOWN
  | BRACELET_TYPE_XIAOMI, BRACELET_TYPE_XIAOMI
  | BRACELET_TYPE_NORDIC_UART, BRACELET_TYPE_NORDIC_UART
  | BRACELET_TYPE_CUSTOM, BRACELET_TYPE_CUSTOM => true
  | _, _ => false
  end.

(** [ble_gatt_init (ctx, ll_ctx)]; [ll_ctx = false] is the NULL pointer.
    The context is cleared, the MTU set to its default and the bracelet
    type to unknown. *)
Definition ble_gatt_init (g : gatt_client_context_t) (bracelet_type : bracelet_type_t)
  (ll_ctx : bool) : ble_status_t * gatt_client_context_t * bracelet_type_t :=
  if negb ll_ctx then (BLE_STATUS_INVALID_PARAMS, g, bracelet_type)
  else
    (BLE_STATUS_OK,
     mk_gatt ATT_MTU_DEFAULT 0 0 (repeat 0 247) 0 false (mk_handles 0 0 0 0),
     BRACELET_TYPE_UNKNOWN).

Section GattWrites.

(** [gatt_wait_att_response (ctx, expected_opcode, timeout_ms)] runs the
    main loop of the link layer, and with it the callbacks of the
    application, until the response flag is set or the time is over.  What
    it returns and how it leaves the two contexts depends on the peer and
    on the clock; the functions below take it as it comes. *)
Variable gatt_wait_att_response :
  gatt_client_context_t -> ble_conn_context_t -> Z -> Z ->
  ble_status_t * gatt_client_context_t * ble_conn_context_t.

(** [ble_gatt_write_data (ctx, handle, data, len)]; [data = None] is the
    NULL pointer, otherwise [data] holds at least [len] bytes.
    [req_value] is what the value array of the local message [req], which
    is not initialised, holds when the function is entered.  [None] is a
    write past the end of an array. *)
Definition ble_gatt_write_data (g : gatt_client_context_t) (c : ble_conn_context_t)
  (req_value : list Z) (handle : Z) (data : option (list Z)) (len : Z)
  : option (ble_status_t * gatt_client_context_t * ble_conn_context_t) :=
  match data with
  | None => Some (BLE_STATUS_INVALID_PARAMS, g, c)
  | Some data =>
      if (len =? 0) || (len >? mtu g - 3) then Some (BLE_STATUS_INVALID_PARAMS, g, c)
      else
        let req := gatt_build_write_request req_value handle (firstn (Z.to_nat len) data) in
        match gatt_send_att_request g c req with
        | None => None
        | Some (BLE_STATUS_OK, g, c) => Some (gatt_wait_att_response g c ATT_WRITE_RSP 1000)
        | Some (status, g, c) => Some (status, g, c)
        end
  end.

(** [ble_gatt_enable_notifications (ctx, char_handle)]. *)
Definition ble_gatt_enable_notifications (g : gatt_client_context_t)
  (c : ble_conn_context_t) (req_value : list Z) (char_handle : Z)
  : option (ble_status_t * gatt_client_context_t * ble_conn_context_t) :=
  let cccd_value := [0x01; 0x00] in
  let cccd_handle :=
    if char_handle =? rx_char_handle (handles g)
    then cccd_handle (handles g)
    else u16 (char_handle + 1) in
  ble_gatt_write_data g c req_value cccd_handle (Some cccd_value) 2.

(** The loop [while (offset < text_len)] of [ble_gatt_write_text], with
    [fuel] iterations left; [k] counts the calls of [ble_gatt_write_data]
    and [stack k] is what the message array of call [k] holds on entry. *)
Fixpoint write_text_loop (fuel : nat) (g : gatt_client_context_t)
  (c : ble_conn_context_t) (stack : nat -> list Z) (k : nat)
  (text : list Z) (text_len offset : Z)
  : option (ble_status_t * gatt_client_context_t * ble_conn_context_t) :=
  match fuel with
  | O => None
  | S fuel' =>
      if offset <? text_len then
        let chunk_len := u16 (text_len - offset) in
        let chunk_len := if chunk_len >? mtu g - 3 then u16 (mtu g - 3) else chunk_len in
        match ble_gatt_write_data g c (stack k) (tx_char_handle (handles g))
                (Some (skipn (Z.to_nat offset) text)) chunk_len with
        | None => None
        | Some (BLE_STATUS_OK, g, c) =>
            write_text_loop fuel' g c stack (S k) text text_len (u16 (offset + chunk_len))
        | Some (status, g, c) => Some (status, g, c)
        end
      else Some (BLE_STATUS_OK, g, c)
  end.

(** [ble_gatt_write_text (ctx, text)]; [text = None] is the NULL pointer,
    otherwise the characters of the string before its terminator.  The
    result is [None] when the loop has not ended within [fuel] iterations
    or a byte is written past the end of an array. *)
Definition ble_gatt_write_text (fuel : nat) (g : gatt_client_context_t)
  (c : ble_conn_context_t) (bracelet_type : bracelet_type_t)
  (stack : nat -> list Z) (text : option (list Z))
  : option (ble_status_t * gatt_client_context_t * ble_conn_context_t) :=
  match text with
  | None => Some (BLE_STATUS_INVALID_PARAMS, g, c)
  | Some text =>
      if bracelet_type_eqb bracelet_type BRACELET_TYPE_UNKNOWN
      then Some (BLE_STATUS_ERROR, g, c)
      else
        let text_len := u16 (Z.of_nat (length text)) in
        write_text_loop fuel g c stack 0 text text_len 0
  end.

(** The calls of [ble_gatt_write_data] for a list of values, one after the
    other, up to the first that does not return OK. *)
Fixpoint write_values (g : gatt_client_context_t) (c : ble_conn_context_t)
  (stack : nat -> list Z) (k : nat) (values : list (list Z))
  : option (ble_status_t * gatt_client_context_t * ble_conn_context_t) :=
  match values with
  | [] => Some (BLE_STATUS_OK, g, c)
  | value :: values =>
      match ble_gatt_write_data g c (stack k) (tx_char_handle (handles g))
              (Some value) (Z.of_nat (length value)) with
      | None => None
      | Some (BLE_STATUS_OK, g, c) => write_values g c stack (S k) values
      | Some (status, g, c) => Some (status, g, c)
      end
  end.

End GattWrites.

(** A text cut into pieces of [n] bytes, the last one shorter when the
    length is not a multiple of [n]. *)
Fixpoint chunks (fuel n : nat) (text : list Z) : list (list Z) :=
  match fuel with
  | O => []
  | S fuel' =>
      match text with
      | [] => []
      | _ => firstn n text :: chunks fuel' n (skipn n text)
      end
  end.

(** A peer that answers every request at once: the wait returns OK with
    the PDU acknowledged. *)
Definition wait_answered (g : gatt_client_context_t) (c : ble_conn_context_t)
  (expected_opcode timeout_ms : Z)
  : ble_status_t * gatt_client_context_t * ble_conn_context_t :=
  (BLE_STATUS_OK, set_response_received g true, set_tx_pending c false).

(** ** The connection event with the callbacks of the application *)

(** [invoke] above records a callback and leaves the context to the event
    as it was.  A callback registered by an application is code of its own
    and is handed the context itself: [app_on_disconnected] of [ble_app.c]
    calls [ble_ll_start_scanning], and [app_on_data_received] reaches
    [ble_ll_send_data] through [ble_gatt_handle_rx_data].  In this section
    the two callbacks are functions on the link layer, whatever they do. *)
Section Callbacks.

Variable app_on_disconnected : ll_world -> Z -> ll_world.
Variable app_on_data_received : ll_world -> list Z -> Z -> ll_world.

(** A call through the function pointer: nothing when it is NULL; otherwise
    the call is recorded and the callback runs on the link layer as it is at
    that moment. *)
Definition call_back (w : ll_world) (registered : bool) (cb : callback) : ll_world :=
  if registered then
    let w := mk_world (ctx w) (radio w) (calls w ++ [cb]) in
    match cb with
    | cb_disconnected reason => app_on_disconnected w reason
    | cb_data_received data len => app_on_data_received w data len
    end
  else w.

(** [rx_dispatch], [event_epilogue] and [ll_handle_connection_event] with
    the callbacks run where the C code calls them. *)
Definition rx_dispatch_cb (w : ll_world) : ll_world * bool :=
  let c := ctx w in
  let rx := rx_buffer c in
  if pdu_sn rx =? next_expected_seq_num c then
    let c := set_next_expected_seq_num c (Z.lxor (next_expected_seq_num c) 1) in
    let w := with_ctx w c in
    if pdu_length rx >? 0 then
      if pdu_llid rx =? 0x02 then
        let len := u16 (pdu_length rx - 4) in
        (call_back w (on_data_received c)
           (cb_data_received (firstn (Z.to_nat len) (skipn 6 rx)) len), false)
      else if pdu_llid rx =? 0x03 then
        if pdu_payload rx 0 =? LL_TERMINATE_IND then
          let w := with_ctx w (set_conn_state c CONN_STATE_IDLE) in
          (call_back w (on_disconnected c) (cb_disconnected (pdu_payload rx 1)), true)
        else if pdu_payload rx 0 =? LL_VERSION_IND then (w, false)
        else if pdu_payload rx 0 =? LL_FEATURE_REQ then
          let feature_rsp := [0x03; 9; LL_FEATURE_RSP; 0; 0; 0; 0; 0; 0; 0; 0] in
          let c := set_tx_buffer c (store_bytes 0 feature_rsp (tx_buffer c)) in
          (with_ctx w (set_tx_pending (set_tx_length c 11) true), false)
        else (w, false)
      else (w, false)
    else (w, false)
  else (w, false).

Definition event_epilogue_cb (w : ll_world) (rx_success : bool) : ll_world :=
  let c := ctx w in
  let c :=
    if rx_success then c
    else set_total_crc_errors
           (set_consecutive_crc_errors c (u32 (consecutive_crc_errors c + 1)))
           (u32 (total_crc_errors c + 1)) in
  let c := set_event_counter c (u32 (event_counter c + 1)) in
  let c := set_anchor_point c (u64 (anchor_point c + conn_interval c)) in
  if consecutive_crc_errors c >? 6 then
    call_back (with_ctx w (set_conn_state c CONN_STATE_IDLE))
              (on_disconnected c) (cb_disconnected 0x08)
  else with_ctx w c.

Definition ll_handle_connection_event_cb (w : ll_world) (env : radio_env) : ll_world :=
  let w := event_tx_phase w env in
  match find rx_done (rx_irq env) with
  | Some _ =>
      let '(w, returned) := rx_dispatch_cb (rx_receive w env) in
      if returned then w else event_epilogue_cb (rx_acknowledge w) true
  | None => event_epilogue_cb w false
  end.

(** Consecutive connection events, one per radio environment. *)
Definition handle_events_cb (w : ll_world) (envs : list radio_env) : ll_world :=
  fold_left ll_handle_connection_event_cb envs w.

End Callbacks.

(** What the sequence-number protocol of the event needs of a callback:
    the link layer [w'] it leaves has the sequence numbers, the receive
    buffer and the error counter of the link layer [w] it was handed. *)
Definition keeps_sequence_state (w w' : ll_world) : Prop :=
  tx_seq_num (ctx w') = tx_seq_num (ctx w) /\
  next_expected_seq_num (ctx w') = next_expected_seq_num (ctx w) /\
  rx_buffer (ctx w') = rx_buffer (ctx w) /\
  consecutive_crc_errors (ctx w') = consecutive_crc_errors (ctx w).

(** The callback has queued nothing: the pending flag and the transmit
    buffer are as they were. *)
Definition keeps_tx_queue (w w' : ll_world) : Prop :=
  tx_pending (ctx w') = tx_pending (ctx w) /\
  tx_buffer (ctx w') = tx_buffer (ctx w).

(** Sample callbacks that write the context they are handed, the way the
    callbacks of [ble_app.c] do: one restarts scanning unless the reason is
    0x13, the other queues the confirmation of an indication. *)
Definition sample_on_disconnected (w : ll_world) (reason : Z) : ll_world :=
  if reason =? 0x13 then w
  else snd (ble_ll_start_scanning w (Some (mk_scan_params 16 16 0 true))).

Definition sample_on_data_received (w : ll_world) (data : list Z) (len : Z) : ll_world :=
  if nth 0 data 0 =? ATT_HANDLE_VALUE_IND then
    match ble_ll_send_data (ctx w) (Some [ATT_HANDLE_VALUE_CFM]) 1 with
    | Some (_, c) => with_ctx w c
    | None => w
    end
  else w.

(** * Properties *)

(** ** Bits and bytes *)

Lemma land_1_testbit (x i : Z) :
  0 <= i -> Z.land (Z.shiftr x i) 1 = Z.b2z (Z.testbit x i).
Proof.
  intros Hi.
  change 1 with (Z.ones 1).
  rewrite Z.land_ones by lia.
  rewrite Z.shiftr_div_pow2 by lia.
  rewrite Z.testbit_spec' by lia.
  reflexivity.
Qed.

Lemma bit_testbit (x i : Z) : 0 <= i -> bit x i = Z.b2z (Z.testbit x i).
Proof. apply land_1_testbit. Qed.

Lemma nonzero_b2z (b : bool) : nonzero (Z.b2z b) = b.
Proof. destruct b; reflexivity. Qed.

Lemma nonzero_land_1 (x : Z) : nonzero (Z.land x 1) = Z.testbit x 0.
Proof.
  rewrite <- (Z.shiftr_0_r x) at 1.
  rewrite land_1_testbit by lia.
  apply nonzero_b2z.
Qed.

Lemma b2z_eqb (a b : bool) : (Z.b2z a =? Z.b2z b) = negb (xorb a b).
Proof. destruct a, b; reflexivity. Qed.

Lemma land_shiftl_1 (b k : Z) :
  0 <= k -> Z.land b (Z.shiftl 1 k) = if Z.testbit b k then 2 ^ k else 0.
Proof.
  intros Hk.
  rewrite Z.shiftl_1_l.
  apply Z.bits_inj'; intros n Hn.
  rewrite Z.land_spec.
  destruct (Z.eq_dec n k) as [->|Hne].
  - rewrite Z.pow2_bits_true by lia.
    rewrite andb_true_r.
    destruct (Z.testbit b k).
    + now rewrite Z.pow2_bits_true by lia.
    + now rewrite Z.bits_0.
  - rewrite Z.pow2_bits_false by lia.
    rewrite andb_false_r.
    destruct (Z.testbit b k).
    + now rewrite Z.pow2_bits_false by lia.
    + now rewrite Z.bits_0.
Qed.

Lemma lor_shiftl_8 (lo hi : Z) :
  0 <= lo < 256 -> Z.lor lo (Z.shiftl hi 8) = lo + 256 * hi.
Proof.
  intros Hlo.
  assert (Hdisj : Z.land lo (Z.shiftl hi 8) = 0).
  { apply Z.bits_inj'; intros n Hn.
    rewrite Z.land_spec, Z.bits_0.
    destruct (Z.ltb_spec n 8).
    - rewrite Z.shiftl_spec_low by lia. apply andb_false_r.
    - replace (Z.testbit lo n) with false; [reflexivity|].
      symmetry. apply Z.bits_above_log2; [lia|].
      destruct (Z.eq_dec lo 0) as [->|]; [simpl; lia|].
      apply Z.log2_lt_pow2; [lia|].
      apply Z.lt_le_trans with (2 ^ 8); [lia|].
      apply Z.pow_le_mono_r; lia. }
  rewrite <- Z.lxor_lor by exact Hdisj.
  rewrite <- Z.add_nocarry_lxor by exact Hdisj.
  rewrite Z.shiftl_mul_pow2 by lia.
  change (2 ^ 8) with 256. lia.
Qed.

Lemma length_store_bytes (off : nat) (data buf : list Z) :
  (off + length data <= length buf)%nat ->
  length (store_bytes off data buf) = length buf.
Proof.
  intros H. unfold store_bytes.
  rewrite !length_app, length_firstn, length_skipn. lia.
Qed.

Lemma store_bytes_payload (off : nat) (data buf : list Z) :
  (off <= length buf)%nat ->
  firstn (length data) (skipn off (store_bytes off data buf)) = data.
Proof.
  intros H. unfold store_bytes.
  assert (Hl : length (firstn off buf) = off) by (rewrite length_firstn; lia).
  rewrite skipn_app, Hl, Nat.sub_diag.
  rewrite (skipn_all2 (firstn off buf)) by lia.
  cbn [app skipn].
  rewrite firstn_app, firstn_all, Nat.sub_diag, firstn_O.
  apply app_nil_r.
Qed.

Lemma store_bytes_checked_some (off : nat) (data buf : list Z) :
  (off + length data <= length buf)%nat ->
  store_bytes_checked off data buf = Some (store_bytes off data buf).
Proof.
  intros H. unfold store_bytes_checked.
  destruct (Nat.leb_spec (off + length data) (length buf)); [reflexivity|lia].
Qed.

Lemma store_bytes_checked_none (off : nat) (data buf : list Z) :
  (length buf < off + length data)%nat ->
  store_bytes_checked off data buf = None.
Proof.
  intros H. unfold store_bytes_checked.
  destruct (Nat.leb_spec (off + length data) (length buf)); [lia|reflexivity].
Qed.

(** ** CRC-24 *)

(** The table is not the byte table of the BLE polynomial: from entry 190
    on it differs from the eight bitwise steps of the index. *)
Lemma crc24_table_entry_190 :
  nth 190 crc24_table 0 = 0xFF8880 /\
  iter_bits 8 spec_crc24_bit_lsb 190 = 0xFFA880.
Proof. split; reflexivity. Qed.

Lemma crc24_table_agrees_below_190 :
  forallb (fun i => nth i crc24_table 0 =? iter_bits 8 spec_crc24_bit_lsb (Z.of_nat i))
          (seq 0 190) = true.
Proof. vm_compute. reflexivity. Qed.

Lemma crc24_table_differs_from_190 :
  forallb (fun i => negb (nth i crc24_table 0 =? iter_bits 8 spec_crc24_bit_lsb (Z.of_nat i)))
          (seq 190 66) = true.
Proof. vm_compute. reflexivity. Qed.

(** C4. [ble_ll_calculate_crc24] is not the bitwise CRC-24 of the polynomial
    0x100065B: on the single byte 0x00 with the advertising initial value
    0x555555 it returns 0x244EC0, while the bitwise reference gives 0x54B947
    (most significant bit first) or 0x714E95 (bit-reversed form), and no
    reversal of the bits of the bytes, of the initial value or of the
    result makes the two agree. *)
Theorem crc24_differs_from_bitwise_reference :
  ble_ll_calculate_crc24 [0x00] BLE_CRC_INIT_ADV = 0x244EC0 /\
  spec_crc24_msb [0x00] BLE_CRC_INIT_ADV = 0x54B947 /\
  spec_crc24_lsb [0x00] BLE_CRC_INIT_ADV = 0x714E95 /\
  ~ In (ble_ll_calculate_crc24 [0x00] BLE_CRC_INIT_ADV)
       (spec_crc24_variants [0x00] BLE_CRC_INIT_ADV).
Proof.
  repeat split; try reflexivity.
  vm_compute. intros H.
  repeat (destruct H as [H|H]; [discriminate H|]).
  exact H.
Qed.

(** ** Channel frequencies *)

(** C6. The table of [ble_ll.c] gives advertising channel 37 the frequency
    2476 MHz (and 38 the frequency 2478 MHz), data channel 0 the frequency
    2402 MHz and data channel 12 the frequency 2426 MHz; so
    [ble_ll_start_scanning], started from Idle, programs the radio to
    2476 MHz, not 2402 MHz. *)
Theorem start_scanning_programs_2476_MHz :
  forall (w : ll_world) (p : ble_scan_params_t),
    conn_state (ctx w) = CONN_STATE_IDLE ->
    channel_freq 37 = 2476000000 /\
    channel_freq 38 = 2478000000 /\
    channel_freq 0 = 2402000000 /\
    channel_freq 12 = 2426000000 /\
    fst (ble_ll_start_scanning w (Some p)) = BLE_STATUS_OK /\
    In (sx128x_set_rf_freq 2476000000) (radio (snd (ble_ll_start_scanning w (Some p)))) /\
    ~ In (sx128x_set_rf_freq 2402000000)
         (skipn (length (radio w)) (radio (snd (ble_ll_start_scanning w (Some p))))).
Proof.
  intros w p Hidle.
  unfold ble_ll_start_scanning. rewrite Hidle. cbn [conn_state_eqb negb fst snd].
  repeat split; try reflexivity.
  - cbn [radio radio_do with_ctx]. apply in_or_app. right.
    change (channel_freq 37) with 2476000000. cbn. tauto.
  - cbn [radio radio_do with_ctx].
    rewrite skipn_app, skipn_all, Nat.sub_diag. cbn [app skipn].
    change (channel_freq 37) with 2476000000.
    intros H. cbn in H.
    repeat (destruct H as [H|H]; [discriminate H|]). exact H.
Qed.

(** Scanning started on an idle link layer tunes to 2476 MHz. *)
Lemma start_scanning_programs_2476_MHz_witness :
  let w := mk_world (set_conn_state sample_ctx CONN_STATE_IDLE) [] [] in
  let p := mk_scan_params 0x0010 0x0010 0 false in
  In (sx128x_set_rf_freq 2476000000) (radio (snd (ble_ll_start_scanning w (Some p)))).
Proof.
  intros w p.
  apply (start_scanning_programs_2476_MHz w p). reflexivity.
Defined.

(** The frequency function of [ble_ll_missing.c] gives the advertising
    channels their frequencies, and data channels 0 and 12 the frequencies
    of advertising channels 37 and 38. *)
Lemma get_frequency_values :
  ble_ll_get_frequency 37 = 2402000000 /\
  ble_ll_get_frequency 38 = 2426000000 /\
  ble_ll_get_frequency 39 = 2480000000 /\
  ble_ll_get_frequency 0 = 2402000000 /\
  ble_ll_get_frequency 12 = 2426000000.
Proof. repeat split; reflexivity. Qed.

(** ** Sending data *)

(** The six header bytes [ble_ll_send_data] writes. *)
Lemma send_data_header_stored (c : ble_conn_context_t) (header : list Z) :
  length header = 6%nat -> length (tx_buffer c) = 255%nat ->
  store_bytes_checked 0 header (tx_buffer c) = Some (store_bytes 0 header (tx_buffer c)) /\
  length (store_bytes 0 header (tx_buffer c)) = 255%nat.
Proof.
  intros Hh Hbuf. split.
  - apply store_bytes_checked_some. lia.
  - rewrite length_store_bytes by lia. exact Hbuf.
Qed.

(** A payload of up to 249 bytes is accepted and queued. *)
Lemma send_data_accepted (c : ble_conn_context_t) (data : list Z) (len : Z) :
  conn_state c = CONN_STATE_CONNECTED ->
  tx_pending c = false ->
  length (tx_buffer c) = 255%nat ->
  1 <= len <= 249 ->
  exists buf,
    ble_ll_send_data c (Some data) len
      = Some (BLE_STATUS_OK,
              set_tx_pending (set_tx_length (set_tx_buffer c buf) (u16 (len + 6))) true) /\
    length buf = 255%nat /\
    firstn (length (firstn (Z.to_nat len) data)) (skipn 6 buf) = firstn (Z.to_nat len) data.
Proof.
  intros Hconn Hpend Hbuf Hrange.
  unfold ble_ll_send_data.
  destruct (Z.eqb_spec len 0) as [?|_]; [lia|].
  destruct (Z.gtb_spec len 251) as [?|_]; [lia|].
  rewrite Hconn, Hpend. cbn [orb conn_state_eqb negb].
  match goal with
  | |- context [store_bytes_checked 0 ?h (tx_buffer c)] =>
      destruct (send_data_header_stored c h eq_refl Hbuf) as [Hs Hl]; rewrite Hs;
      set (buf := store_bytes 0 h (tx_buffer c)) in *
  end.
  assert (Hle : (length (firstn (Z.to_nat len) data) <= Z.to_nat len)%nat)
    by (rewrite length_firstn; lia).
  rewrite store_bytes_checked_some by lia.
  eexists. split; [reflexivity|]. split.
  - rewrite length_store_bytes by lia. exact Hl.
  - apply store_bytes_payload. lia.
Qed.

(** While a PDU is pending the call is refused and changes nothing. *)
Lemma send_data_busy (c : ble_conn_context_t) (data : list Z) (len : Z) :
  conn_state c = CONN_STATE_CONNECTED ->
  tx_pending c = true ->
  1 <= len <= 251 ->
  ble_ll_send_data c (Some data) len = Some (BLE_STATUS_BUSY, c).
Proof.
  intros Hconn Hpend Hrange.
  unfold ble_ll_send_data.
  destruct (Z.eqb_spec len 0) as [?|_]; [lia|].
  destruct (Z.gtb_spec len 251) as [?|_]; [lia|].
  rewrite Hconn, Hpend. reflexivity.
Qed.

(** C8. For a connected context with no pending TX, a 255-byte [tx_buffer]
    and [len] bytes of data, 1 <= len <= 251, [ble_ll_send_data] writes
    past the end of [tx_buffer] exactly when 250 <= len: the six header
    bytes and the payload need [len + 6] bytes, 257 for the maximum-length
    payload.  Up to 249 bytes the call succeeds and the buffer holds the
    header followed by the whole payload. *)
Theorem send_data_overflows_tx_buffer :
  forall (c : ble_conn_context_t) (data : list Z) (len : Z),
    conn_state c = CONN_STATE_CONNECTED ->
    tx_pending c = false ->
    length (tx_buffer c) = 255%nat ->
    Z.of_nat (length data) = len ->
    1 <= len <= 251 ->
    (ble_ll_send_data c (Some data) len = None <-> 250 <= len) /\
    (len <= 249 ->
     exists c',
       ble_ll_send_data c (Some data) len = Some (BLE_STATUS_OK, c') /\
       tx_pending c' = true /\
       tx_length c' = len + 6 /\
       length (tx_buffer c') = 255%nat /\
       firstn (length data) (skipn 6 (tx_buffer c')) = data).
Proof.
  intros c data len Hconn Hpend Hbuf Hlen Hrange.
  assert (Hfirst : firstn (Z.to_nat len) data = data).
  { apply firstn_all2. lia. }
  assert (Hok : len <= 249 ->
     exists c',
       ble_ll_send_data c (Some data) len = Some (BLE_STATUS_OK, c') /\
       tx_pending c' = true /\
       tx_length c' = len + 6 /\
       length (tx_buffer c') = 255%nat /\
       firstn (length data) (skipn 6 (tx_buffer c')) = data).
  { intros Hle.
    destruct (send_data_accepted c data len Hconn Hpend Hbuf) as (buf & Hs & Hl & Hp);
      [lia|].
    rewrite Hfirst in Hp.
    eexists. split; [exact Hs|].
    cbn [tx_pending tx_length tx_buffer set_tx_pending set_tx_length set_tx_buffer].
    repeat split; try assumption.
    unfold u16. apply Z.mod_small. lia. }
  split; [|exact Hok].
  split.
  - intros H.
    destruct (Z.le_gt_cases 250 len) as [?|Hlt]; [assumption|].
    destruct Hok as (c' & Hs & _); [lia|]. rewrite Hs in H. discriminate H.
  - intros H.
    unfold ble_ll_send_data.
    destruct (Z.eqb_spec len 0) as [?|_]; [lia|].
    destruct (Z.gtb_spec len 251) as [?|_]; [lia|].
    rewrite Hconn, Hpend. cbn [orb conn_state_eqb negb].
    match goal with
    | |- context [store_bytes_checked 0 ?h (tx_buffer c)] =>
        destruct (send_data_header_stored c h eq_refl Hbuf) as [Hs Hl]; rewrite Hs
    end.
    rewrite Hfirst.
    rewrite store_bytes_checked_none by lia. reflexivity.
Qed.

(** The maximum-length payload of 251 bytes leaves [tx_buffer]. *)
Lemma send_data_overflows_tx_buffer_witness :
  ble_ll_send_data sample_ctx (Some (repeat 0xAA 251)) 251 = None.
Proof.
  apply (send_data_overflows_tx_buffer sample_ctx (repeat 0xAA 251) 251);
    try reflexivity; lia.
Defined.

(** ** MTU exchange *)

(** C9, as the claim states it, fails: a server MTU of 5 is stored as 5. *)
Lemma mtu_rsp_below_23_is_stored :
  option_map (fun r => mtu (fst r))
    (ble_gatt_handle_rx_data sample_gatt (mk_world sample_ctx [] [])
       (Some [ATT_EXCHANGE_MTU_RSP; 5; 0]) 3) = Some 5 /\
  ~ (23 <= 5 <= 247).
Proof. split; [reflexivity|lia]. Qed.

(** C9, amended. After an ATT_EXCHANGE_MTU_RSP carrying the server MTU
    [lo + 256 * hi], the stored MTU is the smaller of that value and 247:
    it never exceeds 247, and it is at least 23 exactly when the server
    value is. *)
Theorem mtu_rsp_clamps_to_maximum_only :
  forall (g : gatt_client_context_t) (w : ll_world) (lo hi : Z) (rest : list Z) (len : Z),
    0 <= lo < 256 -> 0 <= hi < 256 -> len <> 0 ->
    exists g',
      ble_gatt_handle_rx_data g w (Some (ATT_EXCHANGE_MTU_RSP :: lo :: hi :: rest)) len
        = Some (g', w) /\
      mtu g' = Z.min (lo + 256 * hi) 247 /\
      mtu g' <= 247 /\
      (23 <= mtu g' <-> 23 <= lo + 256 * hi) /\
      response_received g' = true.
Proof.
  intros g w lo hi rest len Hlo Hhi Hlen.
  unfold ble_gatt_handle_rx_data.
  destruct (Z.eqb_spec len 0) as [?|_]; [contradiction|].
  cbn [nth].
  change (ATT_EXCHANGE_MTU_RSP =? ATT_ERROR_RSP) with false.
  change (ATT_EXCHANGE_MTU_RSP =? ATT_EXCHANGE_MTU_RSP) with true.
  cbv iota.
  rewrite lor_shiftl_8 by exact Hlo.
  assert (Hu : u16 (lo + 256 * hi) = lo + 256 * hi).
  { unfold u16. apply Z.mod_small. change (2 ^ 16) with 65536. lia. }
  rewrite Hu.
  eexists. split; [reflexivity|].
  cbn [mtu response_received set_response_received set_mtu].
  unfold ATT_MTU_MAX.
  destruct (Z.gtb_spec (lo + 256 * hi) 247); repeat split; lia.
Qed.

Lemma mtu_rsp_clamps_to_maximum_only_witness :
  let g := sample_gatt in
  let w := mk_world sample_ctx [] [] in
  exists g',
    ble_gatt_handle_rx_data g w (Some (ATT_EXCHANGE_MTU_RSP :: 0xF7 :: 0x01 :: [])) 3
      = Some (g', w) /\
    mtu g' = Z.min (0xF7 + 256 * 0x01) 247 /\
    mtu g' <= 247 /\
    (23 <= mtu g' <-> 23 <= 0xF7 + 256 * 0x01) /\
    response_received g' = true.
Proof.
  intros g w.
  apply (mtu_rsp_clamps_to_maximum_only g w 0xF7 0x01 [] 3); lia.
Defined.

(** ** Channel selection *)

(** The test of the C code reads bit [ch] of the map. *)
Lemma channel_used_map_bit (map : list Z) (ch : Z) :
  0 <= ch -> channel_used map ch = map_bit map ch.
Proof.
  intros Hch. unfold channel_used, map_bit.
  rewrite Z.shiftr_div_pow2 by lia. change (2 ^ 3) with 8.
  change 0x07 with (Z.ones 3). rewrite Z.land_ones by lia. change (2 ^ 3) with 8.
  assert (0 <= ch mod 8 < 8) by (apply Z.mod_pos_bound; lia).
  rewrite land_shiftl_1 by lia.
  destruct (Z.testbit _ (ch mod 8)); unfold nonzero.
  - destruct (Z.eqb_spec (2 ^ (ch mod 8)) 0) as [E|_]; [|reflexivity].
    assert (0 < 2 ^ (ch mod 8)) by (apply Z.pow_pos_nonneg; lia). lia.
  - reflexivity.
Qed.

(** The remapping loop returns the used channel of rank
    [remapping_index - count] among the channels it still has to visit. *)
Lemma remap_scan_nth (map : list Z) (remapping_index : Z) :
  forall (fuel n : nat) (count : Z),
    0 <= count ->
    count + Z.of_nat fuel < 256 ->
    count <= remapping_index
      < count + Z.of_nat (length (filter (map_bit map) (List.map Z.of_nat (seq n fuel)))) ->
    remap_scan fuel map remapping_index (Z.of_nat n) count
      = nth (Z.to_nat (remapping_index - count))
            (filter (map_bit map) (List.map Z.of_nat (seq n fuel))) 0.
Proof.
  induction fuel as [|fuel IH]; intros n count Hc Hsmall Hidx.
  - cbn [seq List.map filter length] in Hidx. lia.
  - cbn [remap_scan].
    rewrite channel_used_map_bit by lia.
    cbn [seq List.map filter] in *.
    destruct (map_bit map (Z.of_nat n)) eqn:Hbit.
    + cbn [length] in Hidx.
      destruct (Z.eqb_spec count remapping_index) as [->|Hne].
      * rewrite Z.sub_diag. reflexivity.
      * assert (Hu : u8 (count + 1) = count + 1).
        { unfold u8. apply Z.mod_small. change (2 ^ 8) with 256. lia. }
        rewrite Hu.
        replace (Z.of_nat n + 1) with (Z.of_nat (S n)) by lia.
        rewrite IH by lia.
        replace (Z.to_nat (remapping_index - count))
          with (S (Z.to_nat (remapping_index - (count + 1)))) by lia.
        reflexivity.
    + replace (Z.of_nat n + 1) with (Z.of_nat (S n)) by lia.
      apply IH; lia.
Qed.

Lemma remap_scan_used (map : list Z) (remapping_index : Z) :
  0 <= remapping_index < Z.of_nat (length (used_channels map)) ->
  remap_scan 37 map remapping_index 0 0
    = nth (Z.to_nat remapping_index) (used_channels map) 0.
Proof.
  unfold used_channels, data_channels. intros H.
  pose proof (remap_scan_nth map remapping_index 37 0 0) as Hscan.
  rewrite Z.sub_0_r in Hscan.
  apply Hscan; lia.
Qed.

Lemma data_channels_range (ch : Z) : In ch data_channels <-> 0 <= ch < 37.
Proof.
  unfold data_channels. rewrite in_map_iff. split.
  - intros [n [<- Hin]]. apply in_seq in Hin. lia.
  - intros H. exists (Z.to_nat ch). split; [lia|]. apply in_seq. lia.
Qed.

Lemma used_channels_spec (map : list Z) (ch : Z) :
  In ch (used_channels map) <-> 0 <= ch < 37 /\ map_bit map ch = true.
Proof.
  unfold used_channels. rewrite filter_In, data_channels_range. tauto.
Qed.

(** C3. With [num_used_channels] the number of data channels 0..36 whose bit
    is set in [channel_map], and at least one of them,
    [ble_ll_calculate_next_channel] is channel selection algorithm #1: the
    unmapped channel is (last_unmapped_channel + hop_increment) mod 37 and
    is stored in [last_unmapped_channel] whether remapping occurs or not
    (nothing else of the context changes); the result is the unmapped
    channel when its bit is set, and otherwise the used channel of rank
    (unmapped mod num_used_channels) in the order 0..36; the result is a
    data channel whose bit is set; with only channel 0 used it is 0. *)
Theorem calculate_next_channel_algorithm_1 :
  forall c : ble_conn_context_t,
    1 <= num_used_channels c ->
    num_used_channels c = Z.of_nat (length (used_channels (channel_map c))) ->
    let unmapped := (last_unmapped_channel c + hop_increment c) mod 37 in
    let ch := fst (ble_ll_calculate_next_channel c) in
    snd (ble_ll_calculate_next_channel c) = set_last_unmapped_channel c unmapped /\
    ch = (if map_bit (channel_map c) unmapped then unmapped
          else nth (Z.to_nat (unmapped mod num_used_channels c))
                   (used_channels (channel_map c)) 0) /\
    map_bit (channel_map c) ch = true /\
    0 <= ch < 37 /\
    (channel_map c = [0x01; 0x00; 0x00; 0x00; 0x00] -> ch = 0).
Proof.
  intros c Hpos Hnum unmapped ch.
  assert (Hun : 0 <= unmapped < 37) by (apply Z.mod_pos_bound; lia).
  assert (Hu8 : u8 unmapped = unmapped).
  { unfold u8. apply Z.mod_small. change (2 ^ 8) with 256. lia. }
  assert (Hidx : 0 <= unmapped mod num_used_channels c < num_used_channels c)
    by (apply Z.mod_pos_bound; lia).
  assert (Hidx8 : u8 (unmapped mod num_used_channels c) = unmapped mod num_used_channels c).
  { unfold u8. apply Z.mod_small. change (2 ^ 8) with 256.
    assert (unmapped mod num_used_channels c <= unmapped) by (apply Z.mod_le; lia). lia. }
  assert (Hch : ch = (if map_bit (channel_map c) unmapped then unmapped
                      else nth (Z.to_nat (unmapped mod num_used_channels c))
                               (used_channels (channel_map c)) 0)).
  { subst ch. unfold ble_ll_calculate_next_channel.
    fold unmapped. rewrite Hu8.
    cbn [channel_map num_used_channels set_last_unmapped_channel].
    rewrite channel_used_map_bit by lia.
    destruct (map_bit (channel_map c) unmapped); [reflexivity|].
    cbn [fst]. rewrite Hidx8.
    apply remap_scan_used. lia. }
  assert (Hin : In ch (used_channels (channel_map c))).
  { rewrite Hch. destruct (map_bit (channel_map c) unmapped) eqn:Hbit.
    - apply used_channels_spec. split; assumption.
    - apply nth_In. lia. }
  apply used_channels_spec in Hin as Hin'.
  repeat split; try tauto.
  - unfold ble_ll_calculate_next_channel. fold unmapped. rewrite Hu8.
    destruct (channel_used _ unmapped); reflexivity.
  - intros Hmap. rewrite Hmap in Hin.
    change (used_channels [0x01; 0x00; 0x00; 0x00; 0x00]) with [0] in Hin.
    destruct Hin as [Hin|[]]. symmetry. exact Hin.
Qed.

(** The count is over the data channels: were the three unused bits 37..39
    of the fifth byte set and counted in [num_used_channels], the rank
    could pass the last used channel and the loop fall through to 0. *)
Lemma calculate_next_channel_counts_data_channels :
  let c := mk_ctx CONN_STATE_CONNECTED 50000 100 [0x02; 0x00; 0x00; 0x00; 0xE0]
             7 32 4 1 0 0 0 (repeat 0 255) 0 false (repeat 0 255) 0 0 true true false in
  used_channels (channel_map c) = [1] /\
  fst (ble_ll_calculate_next_channel c) = 0 /\
  map_bit (channel_map c) 0 = false.
Proof. cbv zeta. repeat split; vm_compute; reflexivity. Qed.

(** With only channel 0 used and a hop increment of 7, the result is 0. *)
Lemma calculate_next_channel_algorithm_1_witness :
  let c := mk_ctx CONN_STATE_CONNECTED 50000 100 [0x01; 0x00; 0x00; 0x00; 0x00]
             7 0 1 1 0 0 0 (repeat 0 255) 0 false (repeat 0 255) 0 0 true true false in
  fst (ble_ll_calculate_next_channel c) = 0.
Proof.
  intros c.
  apply (calculate_next_channel_algorithm_1 c); [cbn; lia|reflexivity|reflexivity].
Defined.

(** ** Access addresses *)

Section AccessAddress.

Variable aa : Z.

Lemma no_run_below_0 : no_run_below aa 0.
Proof. intros s Hs Hle. lia. Qed.

Lemma trailing_run_0 (b : bool) : trailing_run aa b 0 0.
Proof. split; [lia|split; intros; lia]. Qed.

(** A bit that ends a run of [b] starts a run of length 0 of [negb b]. *)
Lemma trailing_run_reset (b : bool) (i : Z) :
  0 <= i -> Z.testbit aa i = negb b -> trailing_run aa b (i + 1) 0.
Proof.
  intros Hi Hb. split; [lia|split].
  - intros j Hj. lia.
  - intros _. replace (i + 1 - 0 - 1) with i by lia. exact Hb.
Qed.

Lemma trailing_run_extend (b : bool) (i k : Z) :
  0 <= i -> Z.testbit aa i = b ->
  trailing_run aa b i k -> trailing_run aa b (i + 1) (k + 1).
Proof.
  intros Hi Hb (Hk & Hrun & Hstop). split; [lia|split].
  - intros j Hj. destruct (Z.eq_dec j i) as [->|Hne]; [exact Hb|].
    apply Hrun. lia.
  - intros Hlt. replace (i + 1 - (k + 1) - 1) with (i - k - 1) by lia.
    apply Hstop. lia.
Qed.

(** Seven equal bits ending at bit [i]. *)
Lemma trailing_run_six_has_run7 (b : bool) (i : Z) :
  0 <= i < 32 -> Z.testbit aa i = b -> trailing_run aa b i 6 -> has_run7 aa.
Proof.
  intros Hi Hb (Hk & Hrun & _).
  exists (i - 6). split; [lia|split; [lia|]].
  intros j Hj.
  assert (Hj' : Z.testbit aa j = b).
  { destruct (Z.eq_dec j i) as [->|Hne]; [exact Hb|]. apply Hrun. lia. }
  rewrite Hj'. symmetry. apply Hrun. lia.
Qed.

Lemma no_run_below_extend (b : bool) (i k : Z) :
  0 <= i -> Z.testbit aa i = b -> k < 6 ->
  trailing_run aa b i k -> no_run_below aa i -> no_run_below aa (i + 1).
Proof.
  intros Hi Hb Hk6 (Hk & Hrun & Hstop) Hno s Hs Hle Hall.
  destruct (Z.le_gt_cases (s + 7) i) as [Hold|Hnew].
  - exact (Hno s Hs Hold Hall).
  - assert (s = i - 6) by lia. subst s.
    assert (Hsb : Z.testbit aa (i - 6) = b).
    { rewrite <- (Hall i) by lia. exact Hb. }
    assert (Hbreak : Z.testbit aa (i - k - 1) = negb b) by (apply Hstop; lia).
    rewrite (Hall (i - k - 1)) in Hbreak by lia.
    rewrite Hsb in Hbreak. destruct b; discriminate Hbreak.
Qed.

(** The run-length loop of rule 2 accepts exactly the values without a
    run of seven. *)
Lemma aa_run_loop_spec :
  forall (n : nat) (i ones zeros m : Z),
    0 <= i -> i + Z.of_nat n = 32 ->
    no_run_below aa i ->
    trailing_run aa true i ones -> trailing_run aa false i zeros ->
    ones <= m -> zeros <= m -> m <= 6 ->
    (aa_run_loop n (Z.shiftr aa i) ones zeros m = true <-> ~ has_run7 aa).
Proof.
  induction n as [|n IH]; intros i ones zeros m Hi Hn Hno Hones Hzeros Hom Hzm Hm.
  - cbn [aa_run_loop]. split; [intros _|reflexivity].
    intros (s & Hs & Hs32 & Hall). apply (Hno s); [lia|lia|exact Hall].
  - cbn [aa_run_loop].
    rewrite nonzero_land_1, Z.shiftr_spec, Z.add_0_l by lia.
    rewrite Z.shiftr_shiftr by lia.
    pose proof Hones as (Ho0 & _ & _). pose proof Hzeros as (Hz0 & _ & _).
    destruct (Z.testbit aa i) eqn:Hb.
    + assert (Hu : u8 (ones + 1) = ones + 1).
      { unfold u8. apply Z.mod_small. change (2 ^ 8) with 256. lia. }
      rewrite Hu.
      destruct (Z.gtb_spec (ones + 1) m) as [Hgt|Hle].
      * destruct (Z.gtb_spec 0 (ones + 1)) as [?|_]; [lia|].
        destruct (Z.gtb_spec (ones + 1) 6) as [H7|H6].
        -- split; [discriminate|]. intros Hnot. exfalso. apply Hnot.
           assert (ones = 6) by lia. subst ones.
           apply (trailing_run_six_has_run7 true i); [lia|exact Hb|exact Hones].
        -- apply IH; try lia.
           ++ apply (no_run_below_extend true i ones); try assumption; lia.
           ++ apply trailing_run_extend; assumption.
           ++ apply trailing_run_reset; [lia|exact Hb].
      * destruct (Z.gtb_spec 0 m) as [?|_]; [lia|].
        destruct (Z.gtb_spec m 6) as [?|_]; [lia|].
        apply IH; try lia.
        -- apply (no_run_below_extend true i ones); try assumption; lia.
        -- apply trailing_run_extend; assumption.
        -- apply trailing_run_reset; [lia|exact Hb].
    + assert (Hu : u8 (zeros + 1) = zeros + 1).
      { unfold u8. apply Z.mod_small. change (2 ^ 8) with 256. lia. }
      rewrite Hu.
      destruct (Z.gtb_spec 0 m) as [?|_]; [lia|].
      destruct (Z.gtb_spec (zeros + 1) m) as [Hgt|Hle].
      * destruct (Z.gtb_spec (zeros + 1) 6) as [H7|H6].
        -- split; [discriminate|]. intros Hnot. exfalso. apply Hnot.
           assert (zeros = 6) by lia. subst zeros.
           apply (trailing_run_six_has_run7 false i); [lia|exact Hb|exact Hzeros].
        -- apply IH; try lia.
           ++ apply (no_run_below_extend false i zeros); try assumption; lia.
           ++ apply trailing_run_reset; [lia|exact Hb].
           ++ apply trailing_run_extend; assumption.
      * destruct (Z.gtb_spec m 6) as [?|_]; [lia|].
        apply IH; try lia.
        -- apply (no_run_below_extend false i zeros); try assumption; lia.
        -- apply trailing_run_reset; [lia|exact Hb].
        -- apply trailing_run_extend; assumption.
Qed.

(** The loop of rule 3 adds the transitions of the positions it visits. *)
Lemma aa_transition_loop_spec :
  forall (n i : nat) (t : Z),
    0 <= t -> t + Z.of_nat n < 256 ->
    aa_transition_loop n (Z.shiftr aa (Z.of_nat i + 1))
                       (Z.b2z (Z.testbit aa (Z.of_nat i))) t
      = t + count_transitions aa i n.
Proof.
  unfold count_transitions.
  induction n as [|n IH]; intros i t Ht Hsmall.
  - cbn. lia.
  - cbn [aa_transition_loop seq filter].
    rewrite land_1_testbit by lia.
    rewrite Z.shiftr_shiftr by lia.
    rewrite b2z_eqb.
    replace (Z.of_nat i + 1 + 1) with (Z.of_nat (S i) + 1) by lia.
    replace (Z.of_nat i + 1) with (Z.of_nat (S i)) by lia.
    rewrite (xorb_comm (Z.testbit aa (Z.of_nat (S i)))).
    destruct (xorb (Z.testbit aa (Z.of_nat i)) (Z.testbit aa (Z.of_nat (S i)))).
    + cbn [negb].
      assert (Hu : u8 (t + 1) = t + 1).
      { unfold u8. apply Z.mod_small. change (2 ^ 8) with 256. lia. }
      rewrite Hu, IH by lia. cbn [length]. lia.
    + cbn [negb]. rewrite IH by lia. reflexivity.
Qed.

(** The loop of rule 4 does the same from bit 26 on. *)
Lemma aa_last_six_loop_spec :
  forall (n i : nat) (t : Z),
    0 <= t -> t + Z.of_nat n < 256 ->
    aa_last_six_loop n aa (Z.of_nat i + 1) (Z.b2z (Z.testbit aa (Z.of_nat i))) t
      = t + count_transitions aa i n.
Proof.
  unfold count_transitions.
  induction n as [|n IH]; intros i t Ht Hsmall.
  - cbn. lia.
  - cbn [aa_last_six_loop seq filter].
    rewrite bit_testbit by lia.
    rewrite b2z_eqb.
    replace (Z.of_nat i + 1 + 1) with (Z.of_nat (S i) + 1) by lia.
    replace (Z.of_nat i + 1) with (Z.of_nat (S i)) by lia.
    rewrite (xorb_comm (Z.testbit aa (Z.of_nat (S i)))).
    destruct (xorb (Z.testbit aa (Z.of_nat i)) (Z.testbit aa (Z.of_nat (S i)))).
    + cbn [negb].
      assert (Hu : u8 (t + 1) = t + 1).
      { unfold u8. apply Z.mod_small. change (2 ^ 8) with 256. lia. }
      rewrite Hu, IH by lia. cbn [length]. lia.
    + cbn [negb]. rewrite IH by lia. reflexivity.
Qed.

(** [ll_validate_access_address] decides the four rules. *)
Lemma ll_validate_access_address_spec :
  ll_validate_access_address aa = true <-> aa_valid aa.
Proof.
  unfold ll_validate_access_address, aa_valid, BLE_ACCESS_ADDRESS_ADV.
  assert (Hrun : aa_run_loop 32 aa 0 0 0 = true <-> ~ has_run7 aa).
  { rewrite <- (Z.shiftr_0_r aa) at 1.
    apply aa_run_loop_spec; try lia.
    - apply no_run_below_0.
    - apply trailing_run_0.
    - apply trailing_run_0. }
  assert (Htr : aa_transition_loop 31 (Z.shiftr aa 1) (Z.land aa 1) 0
                = transitions aa 0 31).
  { pose proof (aa_transition_loop_spec 31 0 0) as H.
    change (Z.of_nat 0 + 1) with 1 in H. change (Z.of_nat 0) with 0 in H.
    rewrite <- (land_1_testbit aa 0), Z.shiftr_0_r in H by lia.
    rewrite H by lia. unfold transitions.
    change (31 - 0)%nat with 31%nat. apply Z.add_0_l. }
  assert (Hsix : aa_last_six_loop 5 aa 27 (bit aa 26) 0 = transitions aa 26 31).
  { pose proof (aa_last_six_loop_spec 5 26 0) as H.
    change (Z.of_nat 26 + 1) with 27 in H. change (Z.of_nat 26) with 26 in H.
    rewrite <- bit_testbit in H by lia.
    rewrite H by lia. unfold transitions.
    change (31 - 26)%nat with 5%nat. apply Z.add_0_l. }
  rewrite Htr, Hsix.
  destruct (Z.eqb_spec aa 0x8E89BED6) as [Heq|Hne].
  { split; [discriminate|]. intros [H _]. contradiction. }
  destruct (aa_run_loop 32 aa 0 0 0) eqn:Hloop; cbn [negb].
  - destruct (Z.ltb_spec (transitions aa 0 31) 3).
    { split; [discriminate|]. intros (_ & _ & H3 & _). lia. }
    destruct (Z.ltb_spec (transitions aa 26 31) 2).
    { split; [discriminate|]. intros (_ & _ & _ & H2). lia. }
    split; [intros _|reflexivity].
    repeat split; try assumption; try lia. apply Hrun. reflexivity.
  - split; [discriminate|]. intros (_ & Hnr & _).
    apply Hrun in Hnr. discriminate Hnr.
Qed.

End AccessAddress.

(** Whatever the generator returns has passed the validation. *)
Lemma generate_access_address_valid :
  forall (fuel : nat) (s aa s' : Z),
    ble_ll_generate_access_address fuel s = Some (aa, s') ->
    ll_validate_access_address aa = true.
Proof.
  induction fuel as [|fuel IH]; intros s aa s' H.
  - discriminate H.
  - cbn [ble_ll_generate_access_address] in H.
    destruct (aa_candidate s) as [cand s1].
    destruct (ll_validate_access_address cand) eqn:Hv.
    + injection H as <- _. exact Hv.
    + exact (IH _ _ _ H).
Qed.

(** From every state of the LFSR but 0 the generator returns within six
    candidates. *)
Lemma generate_access_address_terminates :
  forall s : Z, 1 <= s < 256 ->
    exists aa s', ble_ll_generate_access_address 6 s = Some (aa, s').
Proof.
  assert (Hall : forallb (fun n =>
            match ble_ll_generate_access_address 6 (Z.of_nat n) with
            | Some _ => true
            | None => false
            end) (seq 1 255) = true) by (vm_compute; reflexivity).
  intros s Hs.
  rewrite forallb_forall in Hall.
  specialize (Hall (Z.to_nat s)).
  rewrite Z2Nat.id in Hall by lia.
  destruct (ble_ll_generate_access_address 6 s) as [[aa s']|].
  - exists aa, s'. reflexivity.
  - assert (false = true) by (apply Hall; apply in_seq; lia). discriminate.
Qed.

(** C5. Every value [ble_ll_generate_access_address] returns satisfies
    [ll_validate_access_address], and it does return one, within six
    candidates, from every non-zero state of the LFSR;
    [ll_validate_access_address] returns true exactly when the four rules
    hold (not the advertising address, no run of seven or more identical
    bits in the 32 bits, at least 3 transitions over the 32 bits, at least
    2 transitions among the six most significant bits); 0x8E89BED6 and
    0xFFFFFFFF are rejected. *)
Theorem access_address_generated_and_validated :
  (forall (fuel : nat) (s aa s' : Z),
     ble_ll_generate_access_address fuel s = Some (aa, s') ->
     ll_validate_access_address aa = true /\ aa_valid aa) /\
  (forall s : Z, 1 <= s < 256 ->
     exists aa s', ble_ll_generate_access_address 6 s = Some (aa, s')) /\
  (forall aa : Z, ll_validate_access_address aa = true <-> aa_valid aa) /\
  ll_validate_access_address 0x8E89BED6 = false /\
  ll_validate_access_address 0xFFFFFFFF = false.
Proof.
  split; [|split; [|split; [|split]]].
  - intros fuel s aa s' H.
    pose proof (generate_access_address_valid fuel s aa s' H) as Hv.
    split; [exact Hv|]. apply ll_validate_access_address_spec. exact Hv.
  - exact generate_access_address_terminates.
  - exact ll_validate_access_address_spec.
  - reflexivity.
  - reflexivity.
Qed.

(** From the initial state 0x53 of the LFSR the first candidate,
    0xA9D4EA75, is returned; it satisfies the four rules. *)
Lemma access_address_generated_and_validated_witness :
  ble_ll_generate_access_address 6 0x53 = Some (0xA9D4EA75, 0x75) /\
  aa_valid 0xA9D4EA75.
Proof.
  split; [reflexivity|].
  destruct access_address_generated_and_validated as [Hgen _].
  apply (Hgen 6%nat 0x53 0xA9D4EA75 0x75). reflexivity.
Defined.

(** ** The connection event *)

(** *** What the first half of the event leaves unchanged *)

Lemma calculate_next_channel_ctx (c : ble_conn_context_t) :
  snd (ble_ll_calculate_next_channel c)
    = set_last_unmapped_channel c
        (u8 ((last_unmapped_channel c + hop_increment c) mod 37)).
Proof.
  unfold ble_ll_calculate_next_channel.
  destruct (channel_used _ _); reflexivity.
Qed.

Lemma master_tx_ctx (w : ll_world) (env : radio_env) :
  ctx (master_tx w env)
    = if tx_pending (ctx w) || (event_counter (ctx w) =? 0)
      then set_tx_buffer (ctx w) (stamp_tx_header (ctx w))
      else ctx w.
Proof.
  unfold master_tx.
  destruct (tx_pending (ctx w) || (event_counter (ctx w) =? 0)); [|reflexivity].
  destruct (tx_done_poll _ _ _ _ >? 0); reflexivity.
Qed.

Lemma master_tx_calls (w : ll_world) (env : radio_env) :
  calls (master_tx w env) = calls w.
Proof.
  unfold master_tx.
  destruct (tx_pending (ctx w) || (event_counter (ctx w) =? 0)); [|reflexivity].
  destruct (tx_done_poll _ _ _ _ >? 0); reflexivity.
Qed.

Lemma master_tx_radio (w : ll_world) (env : radio_env) :
  radio (master_tx w env)
    = radio w ++
      (if tx_pending (ctx w) || (event_counter (ctx w) =? 0)
       then [ sx128x_set_buffer_base_address 0x00 0x80;
              sx128x_write_buffer 0x00
                (firstn (Z.to_nat (pdu_length (stamp_tx_header (ctx w)) + 2))
                        (stamp_tx_header (ctx w)))
                (pdu_length (stamp_tx_header (ctx w)) + 2);
              sx128x_set_tx ]
            ++ (if tx_done_poll 1001 1000 0 (tx_irq env) >? 0
                then [sx128x_clear_irq_status SX128X_IRQ_TX_DONE]
                else [])
       else []).
Proof.
  unfold master_tx.
  destruct (tx_pending (ctx w) || (event_counter (ctx w) =? 0)).
  - destruct (tx_done_poll _ _ _ _ >? 0); cbn [radio radio_do with_ctx].
    + rewrite <- app_assoc. reflexivity.
    + rewrite app_nil_r. reflexivity.
  - symmetry. apply app_nil_r.
Qed.

(** The context after the first half: [last_unmapped_channel] advanced and,
    when something is transmitted, the header stamped on [tx_buffer]. *)
Lemma event_tx_phase_ctx (w : ll_world) (env : radio_env) :
  let c := set_last_unmapped_channel (ctx w)
             (u8 ((last_unmapped_channel (ctx w) + hop_increment (ctx w)) mod 37)) in
  ctx (event_tx_phase w env)
    = if tx_pending (ctx w) || (event_counter (ctx w) =? 0)
      then set_tx_buffer c (stamp_tx_header c)
      else c.
Proof.
  unfold event_tx_phase.
  pose proof (calculate_next_channel_ctx (ctx w)) as Hc.
  destruct (ble_ll_calculate_next_channel (ctx w)) as [channel c1].
  cbn [snd] in Hc. subst c1.
  cbn [ctx radio_do]. rewrite master_tx_ctx. reflexivity.
Qed.

Lemma event_tx_phase_calls (w : ll_world) (env : radio_env) :
  calls (event_tx_phase w env) = calls w.
Proof.
  unfold event_tx_phase.
  destruct (ble_ll_calculate_next_channel (ctx w)) as [channel c1].
  cbn [calls radio_do]. rewrite master_tx_calls. reflexivity.
Qed.

Lemma stamp_tx_header_last_unmapped (c : ble_conn_context_t) (v : Z) :
  stamp_tx_header (set_last_unmapped_channel c v) = stamp_tx_header c.
Proof. reflexivity. Qed.

Lemma event_tx_phase_radio (w : ll_world) (env : radio_env) :
  let channel := fst (ble_ll_calculate_next_channel (ctx w)) in
  radio (event_tx_phase w env)
    = radio w ++
      [ sx128x_set_rf_freq (channel_freq channel);
        sx128x_set_ble_whitening_seed (Z.lor channel 0x40) ] ++
      (if tx_pending (ctx w) || (event_counter (ctx w) =? 0)
       then [ sx128x_set_buffer_base_address 0x00 0x80;
              sx128x_write_buffer 0x00
                (firstn (Z.to_nat (pdu_length (stamp_tx_header (ctx w)) + 2))
                        (stamp_tx_header (ctx w)))
                (pdu_length (stamp_tx_header (ctx w)) + 2);
              sx128x_set_tx ]
            ++ (if tx_done_poll 1001 1000 0 (tx_irq env) >? 0
                then [sx128x_clear_irq_status SX128X_IRQ_TX_DONE]
                else [])
       else []) ++
      [sx128x_set_rx_with_timeout 2].
Proof.
  unfold event_tx_phase.
  pose proof (calculate_next_channel_ctx (ctx w)) as Hc.
  destruct (ble_ll_calculate_next_channel (ctx w)) as [channel c1].
  cbn [snd fst] in *. subst c1.
  cbn [radio radio_do]. rewrite master_tx_radio.
  cbn [radio ctx radio_do with_ctx tx_pending event_counter set_last_unmapped_channel].
  rewrite stamp_tx_header_last_unmapped.
  rewrite <- !app_assoc. reflexivity.
Qed.

(** The second half of the event makes no radio call. *)
Lemma invoke_radio (w : ll_world) (r : bool) (cb : callback) :
  radio (invoke w r cb) = radio w.
Proof. unfold invoke. destruct r; reflexivity. Qed.

Lemma invoke_ctx (w : ll_world) (r : bool) (cb : callback) :
  ctx (invoke w r cb) = ctx w.
Proof. unfold invoke. destruct r; reflexivity. Qed.

Lemma invoke_calls (w : ll_world) (r : bool) (cb : callback) :
  calls (invoke w r cb) = calls w ++ (if r then [cb] else []).
Proof. unfold invoke. destruct r; cbn [calls]; [reflexivity|]. symmetry. apply app_nil_r. Qed.

Lemma rx_dispatch_radio (w : ll_world) :
  radio (fst (rx_dispatch w)) = radio w.
Proof.
  unfold rx_dispatch.
  repeat match goal with
         | |- context [if ?b then _ else _] => destruct b
         end; cbn [fst]; rewrite ?invoke_radio; reflexivity.
Qed.

Lemma event_epilogue_radio (w : ll_world) (ok : bool) :
  radio (event_epilogue w ok) = radio w.
Proof.
  unfold event_epilogue.
  destruct (_ >? 6); rewrite ?invoke_radio; reflexivity.
Qed.

Lemma handle_connection_event_radio (w : ll_world) (env : radio_env) :
  radio (ll_handle_connection_event w env) = radio (event_tx_phase w env).
Proof.
  unfold ll_handle_connection_event.
  destruct (find rx_done (rx_irq env)).
  - pose proof (rx_dispatch_radio (rx_receive (event_tx_phase w env) env)) as H.
    destruct (rx_dispatch _) as [w' returned]. cbn [fst] in H.
    destruct returned.
    + exact H.
    + rewrite event_epilogue_radio. exact H.
  - apply event_epilogue_radio.
Qed.

(** *** Sequence numbers *)

Lemma event_tx_phase_frame (w : ll_world) (env : radio_env) :
  let c := ctx w in
  let c3 := ctx (event_tx_phase w env) in
  tx_seq_num c3 = tx_seq_num c /\
  next_expected_seq_num c3 = next_expected_seq_num c /\
  tx_pending c3 = tx_pending c /\
  rx_buffer c3 = rx_buffer c /\
  consecutive_crc_errors c3 = consecutive_crc_errors c /\
  conn_state c3 = conn_state c /\
  on_disconnected c3 = on_disconnected c /\
  tx_buffer c3 = (if tx_pending c || (event_counter c =? 0)
                  then stamp_tx_header c else tx_buffer c).
Proof.
  cbv zeta. rewrite event_tx_phase_ctx.
  destruct (tx_pending (ctx w) || (event_counter (ctx w) =? 0));
    repeat split; reflexivity.
Qed.

Ltac fields_done :=
  repeat split; intros; first [reflexivity | discriminate | congruence].

(** What [rx_dispatch] does to the fields the protocol uses. *)
Lemma rx_dispatch_fields (w : ll_world) :
  let c := ctx w in
  let rx := rx_buffer c in
  let c' := ctx (fst (rx_dispatch w)) in
  snd (rx_dispatch w) = new_control_pdu c rx LL_TERMINATE_IND /\
  next_expected_seq_num c' =
    (if pdu_sn rx =? next_expected_seq_num c
     then Z.lxor (next_expected_seq_num c) 1 else next_expected_seq_num c) /\
  tx_seq_num c' = tx_seq_num c /\
  rx_buffer c' = rx /\
  consecutive_crc_errors c' = consecutive_crc_errors c /\
  on_disconnected c' = on_disconnected c /\
  (new_control_pdu c rx LL_TERMINATE_IND = true -> conn_state c' = CONN_STATE_IDLE) /\
  (new_control_pdu c rx LL_TERMINATE_IND = false -> conn_state c' = conn_state c) /\
  (new_control_pdu c rx LL_FEATURE_REQ = false ->
   tx_pending c' = tx_pending c /\ tx_buffer c' = tx_buffer c).
Proof.
  cbv zeta. unfold rx_dispatch, new_control_pdu.
  unfold LL_TERMINATE_IND, LL_FEATURE_REQ, LL_VERSION_IND.
  destruct (pdu_sn (rx_buffer (ctx w)) =? next_expected_seq_num (ctx w));
    [|cbn; fields_done].
  destruct (pdu_length (rx_buffer (ctx w)) >? 0);
    [|cbn; fields_done].
  destruct (Z.eqb_spec (pdu_llid (rx_buffer (ctx w))) 2) as [H2|H2].
  { rewrite H2. cbn [fst snd andb Z.eqb Pos.eqb]. rewrite invoke_ctx.
    cbn. fields_done. }
  destruct (Z.eqb_spec (pdu_llid (rx_buffer (ctx w))) 3) as [H3|H3];
    [|cbn; fields_done].
  destruct (Z.eqb_spec (pdu_payload (rx_buffer (ctx w)) 0) 2) as [Ht|Ht].
  { rewrite Ht. cbn [fst snd andb Z.eqb Pos.eqb]. rewrite invoke_ctx.
    cbn. fields_done. }
  destruct (Z.eqb_spec (pdu_payload (rx_buffer (ctx w)) 0) 12) as [Hv|Hv].
  { rewrite Hv. cbn. fields_done. }
  destruct (Z.eqb_spec (pdu_payload (rx_buffer (ctx w)) 0) 8) as [Hf|Hf];
    cbn; fields_done.
Qed.

Lemma event_epilogue_fields (w : ll_world) (ok : bool) :
  let c := ctx w in
  let c' := ctx (event_epilogue w ok) in
  tx_seq_num c' = tx_seq_num c /\
  next_expected_seq_num c' = next_expected_seq_num c /\
  tx_pending c' = tx_pending c /\
  tx_buffer c' = tx_buffer c /\
  consecutive_crc_errors c' =
    (if ok then consecutive_crc_errors c else u32 (consecutive_crc_errors c + 1)).
Proof.
  cbv zeta. unfold event_epilogue.
  destruct ok; destruct (_ >? 6); rewrite ?invoke_ctx; repeat split; reflexivity.
Qed.

(** The context [rx_dispatch] starts from: the received PDU in
    [rx_buffer], the rest as the first half of the event left it. *)
Lemma rx_receive_frame (w : ll_world) (env : radio_env) :
  let c := ctx w in
  let c4 := ctx (rx_receive (event_tx_phase w env) env) in
  rx_buffer c4 = received_pdu w env /\
  tx_seq_num c4 = tx_seq_num c /\
  next_expected_seq_num c4 = next_expected_seq_num c /\
  tx_pending c4 = tx_pending c /\
  conn_state c4 = conn_state c /\
  tx_buffer c4 = (if tx_pending c || (event_counter c =? 0)
                  then stamp_tx_header c else tx_buffer c) /\
  consecutive_crc_errors c4 = 0.
Proof.
  destruct (event_tx_phase_frame w env)
    as (Htx & Hne & Hpend & Hrxb & Hcce & Hcs & Hcb & Hbuf).
  cbv zeta. unfold rx_receive, received_pdu.
  cbn [ctx with_ctx rx_buffer tx_seq_num next_expected_seq_num tx_pending
       conn_state tx_buffer consecutive_crc_errors
       set_consecutive_crc_errors set_rx_buffer].
  rewrite Hrxb, Htx, Hne, Hpend, Hcs, Hbuf. repeat split; reflexivity.
Qed.

Lemma rx_valid_found (env : radio_env) :
  rx_valid env -> exists status, find rx_done (rx_irq env) = Some status.
Proof. intros (status & H & _). exists status. exact H. Qed.

(** The context after an event in which RX_DONE was seen, in terms of the
    context before and of the received PDU. *)
Lemma handle_connection_event_rx (w : ll_world) (env : radio_env) (status : Z) :
  find rx_done (rx_irq env) = Some status ->
  let c := ctx w in
  let rx := received_pdu w env in
  let c' := ctx (ll_handle_connection_event w env) in
  next_expected_seq_num c' =
    (if pdu_sn rx =? next_expected_seq_num c
     then Z.lxor (next_expected_seq_num c) 1 else next_expected_seq_num c) /\
  consecutive_crc_errors c' = 0 /\
  (new_control_pdu c rx LL_TERMINATE_IND = true ->
   tx_seq_num c' = tx_seq_num c /\ conn_state c' = CONN_STATE_IDLE) /\
  (new_control_pdu c rx LL_TERMINATE_IND = false ->
   tx_seq_num c' =
     (if pdu_nesn rx =? tx_seq_num c then tx_seq_num c else Z.lxor (tx_seq_num c) 1) /\
   ((pdu_nesn rx =? tx_seq_num c) = false -> tx_pending c' = false) /\
   ((pdu_nesn rx =? tx_seq_num c) = true ->
    new_control_pdu c rx LL_FEATURE_REQ = false ->
    tx_pending c' = tx_pending c /\
    tx_buffer c' = (if tx_pending c || (event_counter c =? 0)
                    then stamp_tx_header c else tx_buffer c))).
Proof.
  intros Hfind. cbv zeta.
  unfold ll_handle_connection_event. rewrite Hfind.
  destruct (rx_receive_frame w env) as (Hrx & Htx & Hne & Hpend & Hcs & Hbuf & Hzero).
  pose proof (rx_dispatch_fields (rx_receive (event_tx_phase w env) env)) as Hd.
  cbv zeta in Hd. rewrite Hrx in Hd.
  assert (Hc2 : forall op, new_control_pdu (ctx (rx_receive (event_tx_phase w env) env))
                  (received_pdu w env) op = new_control_pdu (ctx w) (received_pdu w env) op).
  { intros op. unfold new_control_pdu. rewrite Hne. reflexivity. }
  rewrite !Hc2 in Hd.
  rewrite Hne, Htx, Hpend, Hbuf in Hd.
  destruct Hd as (Hret & Hne' & Htx' & Hrx' & Hcce' & _ & Hidle & _ & Hfeat).
  destruct (rx_dispatch (rx_receive (event_tx_phase w env) env)) as [w' returned].
  cbn [fst snd] in *.
  rewrite Hzero in Hcce'.
  destruct (new_control_pdu (ctx w) (received_pdu w env) LL_TERMINATE_IND).
  - subst returned.
    split; [exact Hne'|]. split; [exact Hcce'|]. split; [|discriminate].
    intros _. split; [exact Htx'|]. apply Hidle. reflexivity.
  - subst returned.
    destruct (event_epilogue_fields (rx_acknowledge w') true)
      as (Etx & Ene & Epend & Ebuf & Ecce).
    rewrite Etx, Ene, Epend, Ebuf, Ecce.
    unfold rx_acknowledge.
    rewrite Hrx', Htx'.
    destruct (pdu_nesn (received_pdu w env) =? tx_seq_num (ctx w));
      cbn [ctx with_ctx next_expected_seq_num tx_seq_num tx_pending tx_buffer
           consecutive_crc_errors set_more_data set_tx_pending set_tx_seq_num].
    + split; [exact Hne'|]. split; [exact Hcce'|]. split; [discriminate|].
      intros _. split; [exact Htx'|]. split; [discriminate|].
      intros _ Hf. apply Hfeat. exact Hf.
    + split; [exact Hne'|]. split; [exact Hcce'|]. split; [discriminate|].
      intros _. split; [reflexivity|]. split; [reflexivity|discriminate].
Qed.

(** A status word with RX_DONE resets the error counter whether or not it
    also reports a CRC error: the CRC_ERROR flag is not looked at. *)
Lemma rx_done_with_crc_error_resets_counter (w : ll_world) (env : radio_env) :
  rx_irq env = [Z.lor SX128X_IRQ_RX_DONE SX128X_IRQ_CRC_ERROR] ->
  consecutive_crc_errors (ctx (ll_handle_connection_event w env)) = 0.
Proof.
  intros Hirq.
  apply (handle_connection_event_rx w env (Z.lor SX128X_IRQ_RX_DONE SX128X_IRQ_CRC_ERROR)).
  rewrite Hirq. reflexivity.
Qed.

Lemma handle_connection_event_timeout (w : ll_world) (env : radio_env) :
  rx_timed_out env ->
  let c := ctx w in
  let c' := ctx (ll_handle_connection_event w env) in
  consecutive_crc_errors c' = u32 (consecutive_crc_errors c + 1) /\
  tx_seq_num c' = tx_seq_num c /\
  next_expected_seq_num c' = next_expected_seq_num c /\
  tx_pending c' = tx_pending c.
Proof.
  intros Hto. cbv zeta. unfold rx_timed_out in Hto.
  unfold ll_handle_connection_event. rewrite Hto.
  destruct (event_tx_phase_frame w env)
    as (Htx & Hne & Hpend & Hrxb & Hcce & Hcs & Hcb & Hbuf).
  destruct (event_epilogue_fields (event_tx_phase w env) false)
    as (Etx & Ene & Epend & Ebuf & Ecce).
  rewrite Etx, Ene, Epend, Ecce, Htx, Hne, Hpend, Hcce.
  repeat split; reflexivity.
Qed.

(** A valid PDU that is not a new LL_TERMINATE_IND acknowledges the last
    transmission exactly when its NESN differs from [tx_seq_num]. *)
Lemma valid_pdu_acknowledgement (w : ll_world) (env : radio_env) :
  rx_valid env ->
  new_control_pdu (ctx w) (received_pdu w env) LL_TERMINATE_IND = false ->
  let c := ctx w in
  let c' := ctx (ll_handle_connection_event w env) in
  (pdu_nesn (received_pdu w env) <> tx_seq_num c ->
   tx_seq_num c' = Z.lxor (tx_seq_num c) 1 /\ tx_pending c' = false) /\
  (pdu_nesn (received_pdu w env) = tx_seq_num c -> tx_seq_num c' = tx_seq_num c).
Proof.
  intros Hv Hnt. cbv zeta.
  destruct (rx_valid_found env Hv) as [status Hfind].
  destruct (handle_connection_event_rx w env status Hfind) as (_ & _ & _ & Hack).
  destruct (Hack Hnt) as (Htx & Hclear & _).
  destruct (Z.eqb_spec (pdu_nesn (received_pdu w env)) (tx_seq_num (ctx w))) as [Heq|Hneq].
  - split; [intros Hc; contradiction|]. intros _. exact Htx.
  - split; [|intros Hc; contradiction].
    intros _. split; [exact Htx|]. apply Hclear. reflexivity.
Qed.

(** C1, as the claim states it, fails: a valid LL_TERMINATE_IND whose NESN
    (1) differs from [tx_seq_num] (0) leaves [tx_seq_num] at 0 and
    [tx_pending] set; the function returns from the control dispatch. *)
Lemma terminate_ind_skips_acknowledgement :
  let w := mk_world (set_tx_pending sample_ctx true) [] [] in
  let env := env_receiving [0x07; 0x02; LL_TERMINATE_IND; 0x13] in
  let w' := ll_handle_connection_event w env in
  rx_valid env /\
  pdu_nesn (received_pdu w env) = 1 /\
  tx_seq_num (ctx w) = 0 /\
  tx_seq_num (ctx w') = 0 /\
  tx_pending (ctx w') = true.
Proof.
  cbv zeta. split.
  - exists SX128X_IRQ_RX_DONE. split; reflexivity.
  - repeat split; vm_compute; reflexivity.
Qed.

(** A new LL_FEATURE_REQ that does not acknowledge the pending PDU replaces
    it in [tx_buffer] by the feature response. *)
Lemma feature_req_overwrites_pending_pdu :
  let payload := [0x02; 0x07; 0x03; 0x00; 0x04; 0x00; 0x0A; 0x03; 0x00] in
  let c := set_tx_pending (set_tx_buffer sample_ctx (store_bytes 0 payload (repeat 0 255))) true in
  let w := mk_world c [] [] in
  let env := env_receiving [0x03; 0x09; LL_FEATURE_REQ; 0; 0; 0; 0; 0; 0; 0; 0] in
  let w' := ll_handle_connection_event w env in
  pdu_nesn (received_pdu w env) = tx_seq_num (ctx w) /\
  firstn 9 (tx_buffer (ctx w)) = payload /\
  firstn 9 (tx_buffer (ctx w')) = [0x03; 9; LL_FEATURE_RSP; 0; 0; 0; 0; 0; 0].
Proof. cbv zeta. repeat split; vm_compute; reflexivity. Qed.

(** *** What the Master transmits *)

Lemma land_1_cases (v : Z) : Z.land v 1 = 0 \/ Z.land v 1 = 1.
Proof.
  change 1 with (Z.ones 1) at 1 2. rewrite Z.land_ones by lia.
  change (2 ^ 1) with 2.
  pose proof (Z.mod_pos_bound v 2). lia.
Qed.

Lemma set_bits_1_land (b pos v : Z) :
  set_bits b pos 1 v = set_bits b pos 1 (Z.land v 1).
Proof.
  unfold set_bits. change (Z.ones 1) with 1.
  rewrite <- Z.land_assoc, Z.land_diag. reflexivity.
Qed.

(** The three one-bit fields stamped on a header byte read back as written
    and leave the LLID bits alone. *)
Lemma stamped_header_bits (b nesn sn md : Z) :
  0 <= b < 256 ->
  let h := set_bits (set_bits (set_bits b 2 1 nesn) 3 1 sn) 4 1 md in
  bit h 2 = Z.land nesn 1 /\
  bit h 3 = Z.land sn 1 /\
  bit h 4 = Z.land md 1 /\
  Z.land h 3 = Z.land b 3.
Proof.
  intros Hb.
  assert (Hall : forallb (fun i =>
            forallb (fun n => forallb (fun s => forallb (fun m =>
              let h := set_bits (set_bits (set_bits (Z.of_nat i) 2 1 n) 3 1 s) 4 1 m in
              (bit h 2 =? n) && (bit h 3 =? s) && (bit h 4 =? m)
              && (Z.land h 3 =? Z.land (Z.of_nat i) 3))
            [0; 1]) [0; 1]) [0; 1]) (seq 0 256) = true)
    by (vm_compute; reflexivity).
  rewrite forallb_forall in Hall.
  specialize (Hall (Z.to_nat b)).
  rewrite Z2Nat.id in Hall by lia.
  assert (Hin : In (Z.to_nat b) (seq 0 256)) by (apply in_seq; lia).
  specialize (Hall Hin).
  cbv zeta.
  rewrite (set_bits_1_land _ 2 nesn), (set_bits_1_land _ 3 sn), (set_bits_1_land _ 4 md).
  assert (Hbit : forall v, In (Z.land v 1) [0; 1]).
  { intros v. destruct (land_1_cases v) as [-> | ->]; cbn; tauto. }
  rewrite forallb_forall in Hall. specialize (Hall _ (Hbit nesn)).
  rewrite forallb_forall in Hall. specialize (Hall _ (Hbit sn)).
  rewrite forallb_forall in Hall. specialize (Hall _ (Hbit md)).
  cbv zeta in Hall.
  apply andb_prop in Hall as [Hall H4].
  apply andb_prop in Hall as [Hall H3].
  apply andb_prop in Hall as [H1 H2].
  apply Z.eqb_eq in H1, H2, H3, H4.
  repeat split; assumption.
Qed.

Lemma llid_empty_bits (b : Z) :
  0 <= b < 256 ->
  0 <= set_bits b 0 2 0x01 < 256 /\ Z.land (set_bits b 0 2 0x01) 3 = 1.
Proof.
  intros Hb.
  assert (Hall : forallb (fun i =>
            (0 <=? set_bits (Z.of_nat i) 0 2 0x01)
            && (set_bits (Z.of_nat i) 0 2 0x01 <? 256)
            && (Z.land (set_bits (Z.of_nat i) 0 2 0x01) 3 =? 1)) (seq 0 256) = true)
    by (vm_compute; reflexivity).
  rewrite forallb_forall in Hall.
  specialize (Hall (Z.to_nat b)).
  rewrite Z2Nat.id in Hall by lia.
  assert (Hin : In (Z.to_nat b) (seq 0 256)) by (apply in_seq; lia).
  specialize (Hall Hin).
  apply andb_prop in Hall as [Hall H3].
  apply andb_prop in Hall as [H1 H2].
  apply Z.leb_le in H1. apply Z.ltb_lt in H2. apply Z.eqb_eq in H3.
  repeat split; assumption.
Qed.

Lemma nth_0_skipn_1 (buf : list Z) :
  nth 0 (skipn 1 buf) 0 = nth 1 buf 0.
Proof. destruct buf as [|x [|y buf]]; reflexivity. Qed.

Lemma land_md_bit (md : bool) : Z.land (if md then 1 else 0) 1 = Z.b2z md.
Proof. destruct md; reflexivity. Qed.

(** The header the Master transmits. *)
Lemma stamp_tx_header_fields (c : ble_conn_context_t) :
  0 <= nth 0 (tx_buffer c) 0 < 256 ->
  let pdu := stamp_tx_header c in
  pdu_nesn pdu = Z.land (next_expected_seq_num c) 1 /\
  pdu_sn pdu = Z.land (tx_seq_num c) 1 /\
  pdu_md pdu = Z.b2z (more_data c) /\
  (tx_pending c = true ->
   pdu_llid pdu = pdu_llid (tx_buffer c) /\
   pdu_length pdu = pdu_length (tx_buffer c) /\
   skipn 1 pdu = skipn 1 (tx_buffer c)) /\
  (tx_pending c = false ->
   pdu_llid pdu = 0x01 /\ pdu_length pdu = 0 /\
   firstn (Z.to_nat (pdu_length pdu + 2)) pdu = [nth 0 pdu 0; 0]).
Proof.
  intros Hb. cbv zeta.
  unfold stamp_tx_header, pdu_nesn, pdu_sn, pdu_md, pdu_llid, pdu_length.
  destruct (tx_pending c) eqn:Hpend.
  - unfold store_byte, store_bytes. cbn [firstn app nth length Nat.add].
    destruct (stamped_header_bits (nth 0 (tx_buffer c) 0) (next_expected_seq_num c)
                (tx_seq_num c) (if more_data c then 1 else 0) Hb)
      as (H2 & H3 & H4 & Hl).
    rewrite H2, H3, H4, Hl, nth_0_skipn_1, land_md_bit.
    split; [reflexivity|]. split; [reflexivity|]. split; [reflexivity|].
    split; [|discriminate].
    intros _. split; [reflexivity|]. split; reflexivity.
  - unfold store_byte, store_bytes. cbn [firstn app nth length Nat.add skipn].
    destruct (llid_empty_bits _ Hb) as [Hr Hl1].
    destruct (stamped_header_bits (set_bits (nth 0 (tx_buffer c) 0) 0 2 1)
                (next_expected_seq_num c) (tx_seq_num c)
                (if more_data c then 1 else 0) Hr)
      as (H2 & H3 & H4 & Hl).
    rewrite H2, H3, H4, Hl, Hl1, land_md_bit.
    split; [reflexivity|]. split; [reflexivity|]. split; [reflexivity|].
    split; [discriminate|].
    intros _. split; [reflexivity|]. split; reflexivity.
Qed.

Lemma event_ops_app (w w' : ll_world) (ops : list radio_op) :
  radio w' = radio w ++ ops -> event_ops w w' = ops.
Proof.
  intros H. unfold event_ops. rewrite H, skipn_app, skipn_all, Nat.sub_diag.
  reflexivity.
Qed.

(** C2, as the claim states it, fails: in an event after the first with
    nothing pending the Master writes no PDU and starts no transmission. *)
Lemma no_transmission_after_first_event :
  let w := mk_world sample_ctx [] [] in
  let w' := ll_handle_connection_event w (env_receiving [0x01; 0x00]) in
  tx_pending (ctx w) = false /\
  event_counter (ctx w) = 1 /\
  transmitted (event_ops w w') = [] /\
  tx_starts (event_ops w w') = 0%nat.
Proof. cbv zeta. repeat split; vm_compute; reflexivity. Qed.

(** C2, amended. In a connection event the Master transmits exactly one LL
    Data PDU when [tx_pending] is set or the event is the first
    ([event_counter] = 0), and nothing otherwise.  What it transmits is
    [tx_buffer] with NESN = [next_expected_seq_num], SN = [tx_seq_num] and
    MD = [more_data] stamped on the header: with [tx_pending] set, the
    prepared buffer, its LLID, length and payload untouched; in a first
    event with nothing pending, the two bytes of an empty PDU (LLID 01,
    length 0).  That empty PDU is acknowledged when the peer answers with
    a valid PDU, not an LL_TERMINATE_IND, whose NESN differs from
    [tx_seq_num]: [tx_seq_num] is toggled. *)
Theorem connection_event_transmission :
  forall (w : ll_world) (env : radio_env),
    let c := ctx w in
    let w' := ll_handle_connection_event w env in
    let pdu := stamp_tx_header c in
    let rx := received_pdu w env in
    0 <= nth 0 (tx_buffer c) 0 < 256 ->
    (tx_pending c = true \/ event_counter c = 0 ->
     transmitted (event_ops w w') = [firstn (Z.to_nat (pdu_length pdu + 2)) pdu] /\
     tx_starts (event_ops w w') = 1%nat /\
     pdu_nesn pdu = Z.land (next_expected_seq_num c) 1 /\
     pdu_sn pdu = Z.land (tx_seq_num c) 1 /\
     pdu_md pdu = Z.b2z (more_data c) /\
     (tx_pending c = true ->
      pdu_llid pdu = pdu_llid (tx_buffer c) /\
      pdu_length pdu = pdu_length (tx_buffer c) /\
      skipn 1 pdu = skipn 1 (tx_buffer c)) /\
     (tx_pending c = false ->
      pdu_llid pdu = 0x01 /\ pdu_length pdu = 0 /\
      firstn (Z.to_nat (pdu_length pdu + 2)) pdu = [nth 0 pdu 0; 0])) /\
    (tx_pending c = false -> event_counter c <> 0 ->
     transmitted (event_ops w w') = [] /\ tx_starts (event_ops w w') = 0%nat) /\
    (tx_pending c = false -> event_counter c = 0 ->
     rx_valid env -> new_control_pdu c rx LL_TERMINATE_IND = false ->
     pdu_nesn rx <> tx_seq_num c ->
     tx_seq_num (ctx w') = Z.lxor (tx_seq_num c) 1).
Proof.
  intros w env. cbv zeta. intros Hb.
  pose proof (event_tx_phase_radio w env) as Hradio. cbv zeta in Hradio.
  rewrite <- handle_connection_event_radio in Hradio.
  apply event_ops_app in Hradio.
  split; [|split].
  - intros Hcond.
    assert (Hc : tx_pending (ctx w) || (event_counter (ctx w) =? 0) = true).
    { destruct Hcond as [-> | ->]; [reflexivity|]. apply orb_true_r. }
    rewrite Hc in Hradio. rewrite Hradio.
    destruct (stamp_tx_header_fields (ctx w) Hb) as (H1 & H2 & H3 & H4 & H5).
    split; [|split].
    + destruct (tx_done_poll _ _ _ _ >? 0); reflexivity.
    + destruct (tx_done_poll _ _ _ _ >? 0); reflexivity.
    + repeat split; try assumption.
      * apply H4; assumption.
      * apply H4; assumption.
      * apply H4; assumption.
      * apply H5; assumption.
      * apply H5; assumption.
      * apply H5; assumption.
  - intros Hpend Hev.
    assert (Hc : tx_pending (ctx w) || (event_counter (ctx w) =? 0) = false).
    { rewrite Hpend. destruct (Z.eqb_spec (event_counter (ctx w)) 0); [contradiction|reflexivity]. }
    rewrite Hc in Hradio. rewrite Hradio. split; reflexivity.
  - intros _ _ Hv Hnt Hnesn.
    destruct (valid_pdu_acknowledgement w env Hv Hnt) as [Hack _].
    apply Hack. exact Hnesn.
Qed.

(** In a first event with nothing pending one PDU of two bytes goes out. *)
Lemma connection_event_transmission_witness :
  let w := mk_world (set_event_counter sample_ctx 0) [] [] in
  let w' := ll_handle_connection_event w (env_receiving [0x05; 0x00]) in
  transmitted (event_ops w w') = [[0x01; 0x00]] /\
  tx_starts (event_ops w w') = 1%nat.
Proof.
  intros w w'.
  assert (Hb : 0 <= nth 0 (tx_buffer (ctx w)) 0 < 256) by (cbn; lia).
  destruct (connection_event_transmission w (env_receiving [0x05; 0x00]) Hb) as [Htx _].
  destruct (Htx (or_intror eq_refl)) as (H1 & H2 & _).
  split; [exact H1|exact H2].
Defined.

(** *** Connection timeout *)

(** One event without reception. *)
Lemma silent_event_step (w : ll_world) (env : radio_env) :
  rx_timed_out env ->
  let c := ctx w in
  let w' := ll_handle_connection_event w env in
  let n := u32 (consecutive_crc_errors c + 1) in
  consecutive_crc_errors (ctx w') = n /\
  on_disconnected (ctx w') = on_disconnected c /\
  (6 < n ->
   conn_state (ctx w') = CONN_STATE_IDLE /\
   calls w' = calls w ++ (if on_disconnected c then [cb_disconnected 0x08] else [])) /\
  (n <= 6 -> conn_state (ctx w') = conn_state c /\ calls w' = calls w).
Proof.
  intros Hto. cbv zeta. unfold rx_timed_out in Hto.
  unfold ll_handle_connection_event. rewrite Hto.
  destruct (event_tx_phase_frame w env)
    as (Htx & Hne & Hpend & Hrxb & Hcce & Hcs & Hcb & Hbuf).
  pose proof (event_tx_phase_calls w env) as Hcalls.
  unfold event_epilogue.
  cbn [consecutive_crc_errors set_anchor_point set_event_counter set_total_crc_errors
       set_consecutive_crc_errors on_disconnected].
  rewrite Hcce, Hcb.
  destruct (Z.gtb_spec (u32 (consecutive_crc_errors (ctx w) + 1)) 6) as [Hgt|Hle].
  - rewrite invoke_ctx, invoke_calls.
    cbn [ctx with_ctx calls consecutive_crc_errors on_disconnected conn_state
         set_conn_state set_anchor_point set_event_counter set_total_crc_errors
         set_consecutive_crc_errors].
    rewrite ?Hcce, ?Hcb, ?Hcalls.
    split; [reflexivity|]. split; [reflexivity|]. split; [|lia].
    intros _. split; reflexivity.
  - cbn [ctx with_ctx calls consecutive_crc_errors on_disconnected conn_state
         set_anchor_point set_event_counter set_total_crc_errors
         set_consecutive_crc_errors].
    rewrite ?Hcce, ?Hcb, ?Hcs, ?Hcalls.
    split; [reflexivity|]. split; [reflexivity|]. split; [lia|].
    intros _. split; reflexivity.
Qed.

(** Up to six consecutive events without reception keep the connection. *)
Lemma silent_events_tolerated :
  forall (envs : list radio_env) (w : ll_world),
    Forall rx_timed_out envs ->
    0 <= consecutive_crc_errors (ctx w) ->
    consecutive_crc_errors (ctx w) + Z.of_nat (length envs) <= 6 ->
    let w' := handle_events w envs in
    consecutive_crc_errors (ctx w')
      = consecutive_crc_errors (ctx w) + Z.of_nat (length envs) /\
    on_disconnected (ctx w') = on_disconnected (ctx w) /\
    conn_state (ctx w') = conn_state (ctx w) /\
    calls w' = calls w.
Proof.
  induction envs as [|env envs IH]; intros w Hall H0 Hle.
  - cbn. repeat split; lia.
  - cbn [length] in Hle. inversion Hall as [|? ? Hto Hrest]; subst.
    destruct (silent_event_step w env Hto) as (Hn & Hcb & _ & Hkeep).
    assert (Hu : u32 (consecutive_crc_errors (ctx w) + 1) = consecutive_crc_errors (ctx w) + 1).
    { unfold u32. apply Z.mod_small. change (2 ^ 32) with 4294967296. lia. }
    rewrite Hu in Hn, Hkeep.
    destruct Hkeep as [Hcs Hcalls]; [lia|].
    cbv zeta. unfold handle_events. cbn [fold_left].
    fold (handle_events (ll_handle_connection_event w env) envs).
    destruct (IH (ll_handle_connection_event w env) Hrest) as (I1 & I2 & I3 & I4);
      [lia|lia|].
    rewrite I1, I2, I3, I4, Hn, Hcb, Hcs, Hcalls.
    cbn [length]. repeat split; lia.
Qed.

(** C7, as the claim states it, fails: with a supervision timeout of
    100 ms and events every 50 ms, the last packet is received at time 0,
    the peer is silent in the events at 50, 100 and 150 ms, and at 150 ms
    the connection is still up and no callback has been invoked. *)
Lemma supervision_timeout_not_enforced :
  let w0 := mk_world sample_ctx [] [] in
  let trace := [ (0, env_receiving [0x01; 0x00]);
                 (50000, env_silent); (100000, env_silent); (150000, env_silent) ] in
  let w := run_events w0 trace in
  supervision_timeout_us (ctx w0) < 150000 - 0 /\
  event_counter (ctx w) = event_counter (ctx w0) + 4 /\
  consecutive_crc_errors (ctx w) = 3 /\
  conn_state (ctx w) = CONN_STATE_CONNECTED /\
  calls w = [].
Proof. cbv zeta. repeat split; vm_compute; reflexivity. Qed.

(** ** ATT requests *)

Lemma att_build_pdu_encodable (g : gatt_client_context_t) (req : att_msg_t) :
  att_encodable g req ->
  exists pdu pdu_len,
    att_build_pdu g req = Some (Some (pdu, pdu_len)) /\ 1 <= pdu_len <= 249.
Proof.
  destruct req as [sh eh uuid|h|h v|op]; cbn [att_encodable att_build_pdu].
  - intros _. eexists _, _. split; [reflexivity|lia].
  - intros _. eexists _, _. split; [reflexivity|lia].
  - unfold ATT_MTU_MAX. intros Hm.
    destruct (Z.ltb_spec (mtu g) 3) as [?|_]; [lia|].
    destruct (Z.gtb_spec (mtu g) 247) as [?|_]; [lia|].
    cbn [orb]. eexists _, _. split; [reflexivity|].
    unfold u16. rewrite Z.mod_small by (change (2 ^ 16) with 65536; lia). lia.
  - intros [].
Qed.

(** C10, as the claim states it, fails: a read request is accepted; the
    peer acknowledges its LL PDU with an empty PDU, so that no ATT response
    has arrived ([response_received] is still false, no data callback was
    made); a second request is then accepted, not refused with Busy, and
    takes the place of the first in [pending_op] and [pending_handle]. *)
Lemma second_att_request_accepted_before_response :
  match gatt_send_att_request sample_gatt sample_ctx (gatt_build_read_request 0x0003) with
  | Some (status1, g1, c1) =>
      let w1 := ll_handle_connection_event (mk_world c1 [] [])
                  (env_receiving [0x05; 0x00]) in
      match gatt_send_att_request g1 (ctx w1) (gatt_build_read_request 0x0005) with
      | Some (status2, g2, c2) =>
          Some (status1, response_received g1, calls w1, conn_state (ctx w1),
                status2, pending_handle g1, pending_handle g2)
      | None => None
      end
  | None => None
  end
  = Some (BLE_STATUS_OK, false, [], CONN_STATE_CONNECTED,
          BLE_STATUS_OK, 0x0003, 0x0005).
Proof. vm_compute. reflexivity. Qed.

(** C10, amended. [gatt_send_att_request] keeps no record of an outstanding
    request: for a connected link and a request it can encode, it returns
    Busy exactly when the link layer still holds an unacknowledged PDU
    ([tx_pending]), and then leaves the link-layer context as it is; when
    nothing is pending it returns OK and queues the PDU, whether or not the
    response to an earlier request has arrived.  In both cases it clears
    [response_received] and overwrites [pending_op] and [pending_handle]
    with those of the new request. *)
Theorem att_request_busy_iff_ll_tx_pending :
  forall (g : gatt_client_context_t) (c : ble_conn_context_t) (req : att_msg_t),
    conn_state c = CONN_STATE_CONNECTED ->
    length (tx_buffer c) = 255%nat ->
    att_encodable g req ->
    exists st g' c',
      gatt_send_att_request g c req = Some (st, g', c') /\
      (st = BLE_STATUS_BUSY <-> tx_pending c = true) /\
      (tx_pending c = true -> c' = c) /\
      (tx_pending c = false -> st = BLE_STATUS_OK /\ tx_pending c' = true) /\
      response_received g' = false /\
      pending_op g' = att_opcode req /\
      pending_handle g' = att_first_handle req.
Proof.
  intros g c req Hconn Hbuf Henc.
  unfold gatt_send_att_request.
  assert (Henc' : att_encodable (set_response_length (set_response_received g false) 0) req).
  { destruct req; exact Henc. }
  destruct (att_build_pdu_encodable _ req Henc') as (pdu & pdu_len & Hpdu & Hlen).
  rewrite Hpdu.
  destruct (tx_pending c) eqn:Hpend.
  - rewrite (send_data_busy c pdu pdu_len Hconn Hpend) by lia.
    eexists _, _, _. split; [reflexivity|].
    repeat split; try reflexivity; try discriminate.
  - destruct (send_data_accepted c pdu pdu_len Hconn Hpend Hbuf Hlen) as (buf & Hs & _).
    rewrite Hs.
    eexists _, _, _. split; [reflexivity|].
    repeat split; try reflexivity; try discriminate.
Qed.

(** A read request on the sample connection is accepted. *)
Lemma att_request_busy_iff_ll_tx_pending_witness :
  exists st g' c',
    gatt_send_att_request sample_gatt sample_ctx (att_read_req 0x0003) = Some (st, g', c') /\
    (st = BLE_STATUS_BUSY <-> tx_pending sample_ctx = true) /\
    (tx_pending sample_ctx = true -> c' = sample_ctx) /\
    (tx_pending sample_ctx = false -> st = BLE_STATUS_OK /\ tx_pending c' = true) /\
    response_received g' = false /\
    pending_op g' = att_opcode (att_read_req 0x0003) /\
    pending_handle g' = att_first_handle (att_read_req 0x0003).
Proof.
  apply (att_request_busy_iff_ll_tx_pending sample_gatt sample_ctx (att_read_req 0x0003)).
  - reflexivity.
  - reflexivity.
  - exact I.
Defined.


(** * Further properties of the code *)

(** ** Exhaustive checks over a range of integers *)

Lemma forallb_below (n : nat) (P : Z -> bool) :
  forallb P (map Z.of_nat (seq 0 n)) = true ->
  forall z : Z, 0 <= z < Z.of_nat n -> P z = true.
Proof.
  intros H z Hz.
  rewrite forallb_forall in H. apply H.
  apply in_map_iff. exists (Z.to_nat z). split; [lia |].
  apply in_seq. lia.
Qed.

Lemma nodupb_NoDup (l : list Z) : nodupb l = true -> NoDup l.
Proof.
  induction l as [| x r IH]; intros H; [constructor |].
  cbn in H. apply andb_true_iff in H. destruct H as [Hx Hr].
  constructor; [| exact (IH Hr)].
  intros Hin. apply negb_true_iff in Hx.
  assert (existsb (Z.eqb x) r = true) as E.
  { apply existsb_exists. exists x. split; [exact Hin | apply Z.eqb_refl]. }
  congruence.
Qed.

(** ** CRC-24 *)

Lemma crc24_update_range (crc d : Z) : 0 <= crc24_update crc d < 2 ^ 24.
Proof.
  unfold crc24_update.
  change 16777215 with (Z.ones 24).
  rewrite Z.land_ones by lia.
  apply Z.mod_pos_bound. lia.
Qed.

Lemma fold_crc24_update_range (data : list Z) :
  forall crc : Z, 0 <= crc < 2 ^ 24 ->
    0 <= fold_left crc24_update data crc < 2 ^ 24.
Proof.
  induction data as [| d data IH]; intros crc Hc; [exact Hc |].
  cbn [fold_left]. apply IH. apply crc24_update_range.
Qed.

Lemma land_24_range (x : Z) : 0 <= Z.land x 0xFFFFFF < 2 ^ 24.
Proof.
  change 0xFFFFFF with (Z.ones 24).
  rewrite Z.land_ones by lia.
  apply Z.mod_pos_bound. lia.
Qed.

Lemma land_24_small (x : Z) : 0 <= x < 2 ^ 24 -> Z.land x 0xFFFFFF = x.
Proof.
  intros H. change 0xFFFFFF with (Z.ones 24).
  rewrite Z.land_ones by lia.
  apply Z.mod_small. exact H.
Qed.

Lemma calculate_crc24_range (data : list Z) (crc_init : Z) :
  0 <= ble_ll_calculate_crc24 data crc_init < 2 ^ 24.
Proof.
  unfold ble_ll_calculate_crc24.
  apply fold_crc24_update_range. apply land_24_range.
Qed.

(** X1. The CRC can be computed in pieces: the CRC of [a ++ b] is the CRC
    of [b] started from the CRC of [a]; every result fits in 24 bits, and
    only the low 24 bits of the initial value count. *)
Theorem calculate_crc24_streams (a b : list Z) (crc_init : Z) :
  ble_ll_calculate_crc24 (a ++ b) crc_init
    = ble_ll_calculate_crc24 b (ble_ll_calculate_crc24 a crc_init) /\
  0 <= ble_ll_calculate_crc24 a crc_init < 2 ^ 24 /\
  ble_ll_calculate_crc24 a (Z.land crc_init 0xFFFFFF) = ble_ll_calculate_crc24 a crc_init.
Proof.
  split; [| split].
  - pose proof (calculate_crc24_range a crc_init) as Hr.
    unfold ble_ll_calculate_crc24 in *.
    rewrite fold_left_app.
    rewrite (land_24_small (fold_left crc24_update a (Z.land crc_init 16777215)) Hr).
    reflexivity.
  - apply calculate_crc24_range.
  - unfold ble_ll_calculate_crc24.
    rewrite (land_24_small (Z.land crc_init 16777215) (land_24_range crc_init)).
    reflexivity.
Qed.

Lemma crc24_table_entries_distinct :
  forall i j : Z, 0 <= i < 256 -> 0 <= j < 256 -> i <> j ->
    nth (Z.to_nat i) crc24_table 0 <> nth (Z.to_nat j) crc24_table 0.
Proof.
  assert (forallb (fun i => forallb (fun j =>
            (i =? j) || negb (nth (Z.to_nat i) crc24_table 0 =? nth (Z.to_nat j) crc24_table 0))
            (map Z.of_nat (seq 0 256))) (map Z.of_nat (seq 0 256)) = true) as H
    by (vm_compute; reflexivity).
  intros i j Hi Hj Hij E.
  pose proof (forallb_below 256 _ H i Hi) as Hi'. cbv beta in Hi'.
  pose proof (forallb_below 256 _ Hi' j Hj) as Hj'. cbv beta in Hj'.
  apply orb_true_iff in Hj'. destruct Hj' as [Hj' | Hj'].
  - apply Z.eqb_eq in Hj'. contradiction.
  - apply negb_true_iff in Hj'. apply Z.eqb_neq in Hj'. contradiction.
Qed.

Lemma crc24_table_entries_range :
  forall i : Z, 0 <= i < 256 -> 0 <= nth (Z.to_nat i) crc24_table 0 < 2 ^ 24.
Proof.
  assert (forallb (fun i => (0 <=? nth (Z.to_nat i) crc24_table 0)
                            && (nth (Z.to_nat i) crc24_table 0 <? 2 ^ 24))
            (map Z.of_nat (seq 0 256)) = true) as H
    by (vm_compute; reflexivity).
  intros i Hi.
  pose proof (forallb_below 256 _ H i Hi) as Hi'. cbv beta in Hi'.
  apply andb_true_iff in Hi'. destruct Hi' as [H1 H2].
  apply Z.leb_le in H1. apply Z.ltb_lt in H2. lia.
Qed.

Lemma land_255_range (x : Z) : 0 <= Z.land x 255 < 256.
Proof.
  change 255 with (Z.ones 8).
  rewrite Z.land_ones by lia.
  apply Z.mod_pos_bound. lia.
Qed.

Lemma land_255_small (x : Z) : 0 <= x < 256 -> Z.land x 255 = x.
Proof.
  intros H. change 255 with (Z.ones 8).
  rewrite Z.land_ones by lia.
  apply Z.mod_small. exact H.
Qed.

Lemma land_lxor_distr (a b c : Z) :
  Z.land (Z.lxor a b) c = Z.lxor (Z.land a c) (Z.land b c).
Proof.
  apply Z.bits_inj'. intros n Hn.
  rewrite !Z.land_spec, !Z.lxor_spec, !Z.land_spec.
  destruct (Z.testbit a n), (Z.testbit b n), (Z.testbit c n); reflexivity.
Qed.

Lemma lxor_cancel_l (h a b : Z) : Z.lxor h a = Z.lxor h b -> a = b.
Proof.
  intros E.
  assert (Z.lxor h (Z.lxor h a) = Z.lxor h (Z.lxor h b)) as E2 by (rewrite E; reflexivity).
  rewrite <- !Z.lxor_assoc, !Z.lxor_nilpotent, !Z.lxor_0_l in E2. exact E2.
Qed.

Lemma crc24_update_separates_bytes (crc a b : Z) :
  0 <= a < 256 -> 0 <= b < 256 -> a <> b ->
  crc24_update crc a <> crc24_update crc b.
Proof.
  intros Ha Hb Hab E.
  unfold crc24_update in E. cbv zeta in E.
  set (ia := Z.land (Z.lxor (Z.shiftr crc 16) a) 255) in *.
  set (ib := Z.land (Z.lxor (Z.shiftr crc 16) b) 255) in *.
  assert (ia <> ib) as Hi.
  { subst ia ib. intros E2.
    rewrite !land_lxor_distr in E2.
    apply lxor_cancel_l in E2.
    rewrite (land_255_small a Ha), (land_255_small b Hb) in E2. contradiction. }
  pose proof (land_255_range (Z.lxor (Z.shiftr crc 16) a)) as Ria. fold ia in Ria.
  pose proof (land_255_range (Z.lxor (Z.shiftr crc 16) b)) as Rib. fold ib in Rib.
  pose proof (crc24_table_entries_distinct ia ib Ria Rib Hi) as Hne.
  pose proof (crc24_table_entries_range ia Ria) as Ta.
  pose proof (crc24_table_entries_range ib Rib) as Tb.
  rewrite !land_lxor_distr in E.
  apply lxor_cancel_l in E.
  rewrite (land_24_small _ Ta), (land_24_small _ Tb) in E.
  contradiction.
Qed.

(** X2. Two messages that differ only in their last byte never have the
    same CRC, whatever the initial value: the lookup table, wrong entries
    included, has 256 different entries. *)
Theorem calculate_crc24_detects_last_byte (m : list Z) (a b crc_init : Z)
  (Ha : 0 <= a < 256) (Hb : 0 <= b < 256) (Hab : a <> b) :
  ble_ll_calculate_crc24 (m ++ [a]) crc_init <> ble_ll_calculate_crc24 (m ++ [b]) crc_init.
Proof.
  unfold ble_ll_calculate_crc24.
  rewrite !fold_left_app. cbn [fold_left].
  apply crc24_update_separates_bytes; assumption.
Qed.

Lemma calculate_crc24_detects_last_byte_witness :
  ble_ll_calculate_crc24 ([0x40; 0x06] ++ [0x00]) BLE_CRC_INIT_ADV
    <> ble_ll_calculate_crc24 ([0x40; 0x06] ++ [0xFF]) BLE_CRC_INIT_ADV.
Proof.
  apply (calculate_crc24_detects_last_byte [0x40; 0x06] 0x00 0xFF BLE_CRC_INIT_ADV);
    [lia | lia | discriminate].
Defined.

(** ** Channel frequencies *)

Lemma channel_freq_linear_check :
  forallb (fun ch => channel_freq ch =? 2402000000 + 2000000 * ch)
    (map Z.of_nat (seq 0 40)) = true.
Proof. vm_compute. reflexivity. Qed.

Lemma frequency_lookups_check :
  forallb (fun ch => Bool.eqb (channel_freq ch =? ble_ll_get_frequency ch)
                              (negb ((ch =? 37) || (ch =? 38))))
    (map Z.of_nat (seq 0 40)) = true.
Proof. vm_compute. reflexivity. Qed.

(** X3. The table the connection event and the scan set-up use,
    [channel_freq_table], is linear in the channel index, 2402 MHz plus
    2 MHz per channel, for all 40 channels; [ble_ll_get_frequency], which
    the scanner uses, returns the same frequency for every channel except
    37 and 38. *)
Theorem frequency_lookups_agree_except_37_38 (channel : Z)
  (Hch : 0 <= channel <= 39) :
  channel_freq channel = 2402000000 + 2000000 * channel /\
  (channel_freq channel = ble_ll_get_frequency channel <->
   channel <> 37 /\ channel <> 38).
Proof.
  assert (0 <= channel < Z.of_nat 40) as Hr by lia.
  pose proof (forallb_below 40 _ channel_freq_linear_check channel Hr) as H1.
  pose proof (forallb_below 40 _ frequency_lookups_check channel Hr) as H2.
  cbv beta in H1, H2.
  apply Z.eqb_eq in H1. apply Bool.eqb_prop in H2.
  split; [exact H1 |].
  split.
  - intros E. apply Z.eqb_eq in E. rewrite E in H2.
    symmetry in H2. apply negb_true_iff in H2. apply orb_false_iff in H2.
    destruct H2 as [A B]. apply Z.eqb_neq in A. apply Z.eqb_neq in B. tauto.
  - intros [A B]. apply Z.eqb_neq in A. apply Z.eqb_neq in B.
    rewrite A, B in H2. cbn in H2. apply Z.eqb_eq. exact H2.
Qed.

Lemma frequency_lookups_agree_except_37_38_witness :
  channel_freq 37 = 2402000000 + 2000000 * 37 /\
  (channel_freq 37 = ble_ll_get_frequency 37 <-> 37 <> 37 /\ 37 <> 38).
Proof. apply (frequency_lookups_agree_except_37_38 37). lia. Defined.


(** ** The random number generator *)

Lemma get_random_fst_snd (s : Z) :
  snd (ble_ll_get_random s) = fst (ble_ll_get_random s).
Proof. reflexivity. Qed.

Lemma get_random_range (s : Z) : 0 <= fst (ble_ll_get_random s) < 256.
Proof.
  unfold ble_ll_get_random. cbv zeta. cbn [fst].
  unfold u8. apply Z.mod_pos_bound. lia.
Qed.

Lemma get_random_nonzero (s : Z) :
  1 <= s < 256 -> 1 <= fst (ble_ll_get_random s) < 256.
Proof.
  assert (forallb (fun s => (s =? 0) || ((1 <=? fst (ble_ll_get_random s))
                                         && (fst (ble_ll_get_random s) <? 256)))
            (map Z.of_nat (seq 0 256)) = true) as H by (vm_compute; reflexivity).
  intros Hs.
  assert (0 <= s < Z.of_nat 256) as Hr by lia.
  pose proof (forallb_below 256 _ H s Hr) as Hc. cbv beta in Hc.
  apply orb_true_iff in Hc. destruct Hc as [Hc | Hc].
  - apply Z.eqb_eq in Hc. lia.
  - apply andb_true_iff in Hc. destruct Hc as [A B].
    apply Z.leb_le in A. apply Z.ltb_lt in B. lia.
Qed.

Lemma random_bytes_length (n : nat) :
  forall s : Z, length (fst (random_bytes n s)) = n.
Proof.
  induction n as [| n IH]; intros s; [reflexivity |].
  cbn [random_bytes].
  destruct (ble_ll_get_random s) as [r s1].
  specialize (IH s1). destruct (random_bytes n s1) as [rs s2].
  cbn [fst length] in *. congruence.
Qed.

Lemma random_bytes_range (n : nat) :
  forall (s b : Z), In b (fst (random_bytes n s)) -> 0 <= b < 256.
Proof.
  induction n as [| n IH]; intros s b Hin; [contradiction |].
  cbn [random_bytes] in Hin.
  pose proof (get_random_range s) as Hr.
  destruct (ble_ll_get_random s) as [r s1].
  specialize (IH s1 b). destruct (random_bytes n s1) as [rs s2].
  cbn [fst] in *. destruct Hin as [E | Hin]; [subst b; exact Hr | exact (IH Hin)].
Qed.

Lemma nodup_range_covers (l : list Z) (lo : Z) (n : nat) :
  NoDup l -> length l = n ->
  (forall v, In v l -> lo <= v < lo + Z.of_nat n) ->
  forall v, lo <= v < lo + Z.of_nat n -> In v l.
Proof.
  intros Hnd Hlen Hrange v Hv.
  assert (incl (map (fun k => lo + Z.of_nat k) (seq 0 n)) l) as Hincl.
  { apply NoDup_length_incl; [exact Hnd | rewrite length_map, length_seq; lia |].
    intros x Hx. apply in_map_iff. exists (Z.to_nat (x - lo)).
    specialize (Hrange x Hx). split; [lia | apply in_seq; lia]. }
  apply Hincl. apply in_map_iff. exists (Z.to_nat (v - lo)).
  split; [lia | apply in_seq; lia].
Qed.

Lemma lfsr_cycle_check :
  forallb (fun s => (s =? 0) ||
                    (nodupb (fst (random_bytes 255 s))
                     && forallb (fun v => (1 <=? v) && (v <? 256)) (fst (random_bytes 255 s))
                     && (snd (random_bytes 255 s) =? s)))
    (map Z.of_nat (seq 0 256)) = true.
Proof. vm_compute. reflexivity. Qed.

(** X4. The generator has one cycle through all non-zero bytes: from any
    non-zero state, 255 consecutive calls of [ble_ll_get_random] return
    every value 1..255 exactly once, never 0, and leave the generator in
    the state it started from. *)
Theorem get_random_period_255 (s : Z) (Hs : 1 <= s < 256) :
  NoDup (fst (random_bytes 255 s)) /\
  (forall v, In v (fst (random_bytes 255 s)) <-> 1 <= v < 256) /\
  snd (random_bytes 255 s) = s.
Proof.
  assert (0 <= s < Z.of_nat 256) as Hr by lia.
  pose proof (forallb_below 256 _ lfsr_cycle_check s Hr) as Hc. cbv beta in Hc.
  apply orb_true_iff in Hc. destruct Hc as [Hc | Hc]; [apply Z.eqb_eq in Hc; lia |].
  apply andb_true_iff in Hc. destruct Hc as [Hc Hback].
  apply andb_true_iff in Hc. destruct Hc as [Hnd Hrange].
  apply nodupb_NoDup in Hnd. apply Z.eqb_eq in Hback.
  rewrite forallb_forall in Hrange.
  assert (forall v, In v (fst (random_bytes 255 s)) -> 1 <= v < 1 + Z.of_nat 255) as Hin.
  { intros v Hv. specialize (Hrange v Hv).
    apply andb_true_iff in Hrange. destruct Hrange as [A B].
    apply Z.leb_le in A. apply Z.ltb_lt in B. lia. }
  split; [exact Hnd | split; [| exact Hback]].
  intros v. split.
  - intros Hv. specialize (Hin v Hv). lia.
  - intros Hv.
    apply (nodup_range_covers _ 1 255 Hnd (random_bytes_length 255 s) Hin). lia.
Qed.

Lemma get_random_period_255_witness :
  NoDup (fst (random_bytes 255 0x53)) /\
  (forall v, In v (fst (random_bytes 255 0x53)) <-> 1 <= v < 256) /\
  snd (random_bytes 255 0x53) = 0x53.
Proof. apply (get_random_period_255 0x53). lia. Defined.

(** ** Initialisation *)

Lemma lor_C0_check :
  forallb (fun b => (0 <=? Z.lor b 0xC0) && (Z.lor b 0xC0 <? 256)
                    && (Z.land (Z.lor b 0xC0) 0xC0 =? 0xC0))
    (map Z.of_nat (seq 0 256)) = true.
Proof. vm_compute. reflexivity. Qed.

Lemma all_data_channels_used : used_channels all_data_channels_map = data_channels.
Proof. vm_compute. reflexivity. Qed.

(** X5. [ble_ll_init] with a radio context leaves an idle link whose
    channel map uses exactly the data channels 0..36, with
    [num_used_channels] their number, nothing pending, the counters at
    zero, and a local address of six bytes whose last byte has its two top
    bits set (a random static address), whatever the context held before
    and whatever the state of the generator. *)
Theorem init_establishes_defaults (c : ble_conn_context_t) (i : ble_conn_ident_t) (s : Z) :
  exists c' i' s',
    ble_ll_init c i true s = (BLE_STATUS_OK, c', i', s') /\
    conn_state c' = CONN_STATE_IDLE /\
    used_channels (channel_map c') = data_channels /\
    num_used_channels c' = Z.of_nat (length (used_channels (channel_map c'))) /\
    tx_pending c' = false /\
    event_counter c' = 0 /\ last_unmapped_channel c' = 0 /\
    tx_seq_num c' = 0 /\ next_expected_seq_num c' = 0 /\
    consecutive_crc_errors c' = 0 /\
    on_disconnected c' = false /\ on_data_received c' = false /\
    length (local_addr i') = 6%nat /\
    (forall b, In b (local_addr i') -> 0 <= b < 256) /\
    Z.land (nth 5 (local_addr i') 0) 0xC0 = 0xC0.
Proof.
  unfold ble_ll_init. cbn [negb].
  pose proof (random_bytes_length 6 s) as Hlen.
  pose proof (random_bytes_range 6 s) as Hrange.
  destruct (random_bytes 6 s) as [addr s'] eqn:E. cbn [fst] in Hlen, Hrange.
  do 3 eexists. split; [reflexivity |].
  cbn [conn_state channel_map num_used_channels tx_pending event_counter
       last_unmapped_channel tx_seq_num next_expected_seq_num
       consecutive_crc_errors on_disconnected on_data_received local_addr].
  change [255; 255; 255; 255; 31] with all_data_channels_map.
  rewrite all_data_channels_used.
  do 11 (split; [reflexivity |]).
  destruct addr as [| a0 [| a1 [| a2 [| a3 [| a4 [| a5 [| a6 addr]]]]]]];
    try discriminate Hlen.
  assert (0 <= a5 < Z.of_nat 256) as H5 by (apply Hrange; cbn; tauto).
  pose proof (forallb_below 256 _ lor_C0_check a5 H5) as Hc. cbv beta in Hc.
  apply andb_true_iff in Hc. destruct Hc as [Hc C3].
  apply andb_true_iff in Hc. destruct Hc as [C1 C2].
  apply Z.leb_le in C1. apply Z.ltb_lt in C2. apply Z.eqb_eq in C3.
  cbn [nth store_byte store_bytes firstn skipn app length Nat.add].
  split; [reflexivity | split; [| exact C3]].
  intros b Hb. cbn [In] in Hb.
  destruct Hb as [Hb | [Hb | [Hb | [Hb | [Hb | [Hb | []]]]]]];
    try (subst b; apply Hrange; cbn; tauto).
  subst b. lia.
Qed.


(** ** Initiating a connection *)

Lemma get_random_step (s r s1 : Z) :
  ble_ll_get_random s = (r, s1) -> 1 <= s < 256 ->
  1 <= s1 < 256 /\ 1 <= r < 256.
Proof.
  intros E Hs.
  pose proof (get_random_nonzero s Hs) as H.
  pose proof (get_random_fst_snd s) as H2.
  rewrite E in H, H2. cbn [fst snd] in H, H2. lia.
Qed.

Lemma aa_candidate_state (s aa s' : Z) :
  aa_candidate s = (aa, s') -> 1 <= s < 256 -> 1 <= s' < 256.
Proof.
  unfold aa_candidate. intros E Hs.
  destruct (ble_ll_get_random s) as [r3 s1] eqn:E1.
  destruct (get_random_step _ _ _ E1 Hs) as [Hs1 _].
  destruct (ble_ll_get_random s1) as [r2 s2] eqn:E2.
  destruct (get_random_step _ _ _ E2 Hs1) as [Hs2 _].
  destruct (ble_ll_get_random s2) as [r1 s3] eqn:E3.
  destruct (get_random_step _ _ _ E3 Hs2) as [Hs3 _].
  destruct (ble_ll_get_random s3) as [r0 s4] eqn:E4.
  destruct (get_random_step _ _ _ E4 Hs3) as [Hs4 _].
  inversion E. subst s'. exact Hs4.
Qed.

Lemma generate_access_address_state (fuel : nat) :
  forall s aa s' : Z, 1 <= s < 256 ->
    ble_ll_generate_access_address fuel s = Some (aa, s') -> 1 <= s' < 256.
Proof.
  induction fuel as [| fuel IH]; intros s aa s' Hs E; [discriminate E |].
  cbn [ble_ll_generate_access_address] in E.
  destruct (aa_candidate s) as [aa0 s1] eqn:Ec.
  pose proof (aa_candidate_state _ _ _ Ec Hs) as Hs1.
  destruct (ll_validate_access_address aa0).
  - inversion E. subst s'. exact Hs1.
  - exact (IH s1 aa s' Hs1 E).
Qed.

Lemma generate_crc_init_state (s crc s' : Z) :
  ble_ll_generate_crc_init s = (crc, s') -> 1 <= s < 256 -> 1 <= s' < 256.
Proof.
  unfold ble_ll_generate_crc_init. intros E Hs.
  destruct (ble_ll_get_random s) as [r2 s1] eqn:E1.
  destruct (get_random_step _ _ _ E1 Hs) as [Hs1 _].
  destruct (ble_ll_get_random s1) as [r1 s2] eqn:E2.
  destruct (get_random_step _ _ _ E2 Hs1) as [Hs2 _].
  destruct (ble_ll_get_random s2) as [r0 s3] eqn:E3.
  destruct (get_random_step _ _ _ E3 Hs2) as [Hs3 _].
  inversion E. subst s'. exact Hs3.
Qed.

Lemma connect_ok (c : ble_conn_context_t) (i : ble_conn_ident_t) (s : Z)
  (peer : list Z) (params : ble_conn_params_t) :
  1 <= s < 256 ->
  conn_state c = CONN_STATE_IDLE \/ conn_state c = CONN_STATE_SCANNING ->
  exists aa crc r s',
    ble_ll_connect 6 c i s (Some peer) (Some params)
      = Some (BLE_STATUS_OK,
              set_conn_state
                (set_hop_increment
                   (set_supervision_timeout
                      (set_conn_interval c (u16 (params_conn_interval params * 1250)))
                      (params_supervision_timeout params))
                   (u8 (5 + r mod 12)))
                CONN_STATE_INITIATING,
              mk_ident (local_addr i) (firstn 6 peer) aa (Z.land crc 0xFFFFFF)
                (params_slave_latency params),
              s') /\
    ll_validate_access_address aa = true /\
    0 <= r < 256 /\ 1 <= s' < 256.
Proof.
  intros Hs Hst.
  unfold ble_ll_connect.
  assert (negb (conn_state_eqb (conn_state c) CONN_STATE_IDLE)
          && negb (conn_state_eqb (conn_state c) CONN_STATE_SCANNING) = false) as Hg
    by (destruct Hst as [E | E]; rewrite E; reflexivity).
  rewrite Hg.
  destruct (generate_access_address_terminates s Hs) as [aa [s1 Ea]].
  rewrite Ea.
  pose proof (generate_access_address_valid _ _ _ _ Ea) as Hv.
  pose proof (generate_access_address_state _ _ _ _ Hs Ea) as Hs1.
  destruct (ble_ll_generate_crc_init s1) as [crc s2] eqn:Ec.
  pose proof (generate_crc_init_state _ _ _ Ec Hs1) as Hs2.
  destruct (ble_ll_get_random s2) as [r s3] eqn:Er.
  destruct (get_random_step _ _ _ Er Hs2) as [Hs3 Hr].
  exists aa, crc, r, s3.
  split; [reflexivity | split; [exact Hv | split; [lia | exact Hs3]]].
Qed.

(** X6. From the Idle or the Scanning state, with the generator in a
    non-zero state, [ble_ll_connect] returns OK within six candidates of
    the access-address generator and leaves the link Initiating with a hop
    increment between 5 and 16, an access address that satisfies the four
    validity rules, a CRC initial value of 24 bits, the peer address, the
    slave latency and the supervision timeout it was given; the local
    address and the channel map are kept and the generator stays in a
    non-zero state. *)
Theorem connect_generates_valid_parameters (c : ble_conn_context_t)
  (i : ble_conn_ident_t) (s : Z) (peer : list Z) (params : ble_conn_params_t)
  (Hs : 1 <= s < 256)
  (Hst : conn_state c = CONN_STATE_IDLE \/ conn_state c = CONN_STATE_SCANNING) :
  exists c' i' s',
    ble_ll_connect 6 c i s (Some peer) (Some params) = Some (BLE_STATUS_OK, c', i', s') /\
    conn_state c' = CONN_STATE_INITIATING /\
    5 <= hop_increment c' <= 16 /\
    aa_valid (access_address i') /\
    0 <= crc_init i' < 2 ^ 24 /\
    peer_addr i' = firstn 6 peer /\
    slave_latency i' = params_slave_latency params /\
    supervision_timeout c' = params_supervision_timeout params /\
    local_addr i' = local_addr i /\
    channel_map c' = channel_map c /\
    num_used_channels c' = num_used_channels c /\
    1 <= s' < 256.
Proof.
  destruct (connect_ok c i s peer params Hs Hst) as [aa [crc [r [s' [E [Hv [Hr Hs']]]]]]].
  do 3 eexists. split; [exact E |].
  cbn [conn_state set_conn_state hop_increment set_hop_increment access_address
       crc_init peer_addr slave_latency supervision_timeout set_supervision_timeout
       set_conn_interval local_addr channel_map num_used_channels].
  split; [reflexivity |].
  split.
  { pose proof (Z.mod_pos_bound r 12 ltac:(lia)) as Hm.
    unfold u8. rewrite Z.mod_small by lia. lia. }
  split; [apply ll_validate_access_address_spec; exact Hv |].
  split; [apply land_24_range |].
  repeat split; try reflexivity; lia.
Qed.

Lemma connect_generates_valid_parameters_witness :
  exists c' i' s',
    ble_ll_connect 6 zeroed_ctx zeroed_ident 0x53 (Some [1; 2; 3; 4; 5; 6])
      (Some (mk_conn_params 40 0 500)) = Some (BLE_STATUS_OK, c', i', s') /\
    conn_state c' = CONN_STATE_INITIATING /\
    5 <= hop_increment c' <= 16 /\
    aa_valid (access_address i') /\
    0 <= crc_init i' < 2 ^ 24 /\
    peer_addr i' = firstn 6 [1; 2; 3; 4; 5; 6] /\
    slave_latency i' = params_slave_latency (mk_conn_params 40 0 500) /\
    supervision_timeout c' = params_supervision_timeout (mk_conn_params 40 0 500) /\
    local_addr i' = local_addr zeroed_ident /\
    channel_map c' = channel_map zeroed_ctx /\
    num_used_channels c' = num_used_channels zeroed_ctx /\
    1 <= s' < 256.
Proof.
  apply (connect_generates_valid_parameters zeroed_ctx zeroed_ident 0x53
           [1; 2; 3; 4; 5; 6] (mk_conn_params 40 0 500)).
  - lia.
  - left. reflexivity.
Defined.

(** X7. [ble_ll_connect] stores the connection interval in microseconds in
    a 16-bit field: the stored value is the requested interval times 1250
    modulo 65536, which is the requested time only for intervals of at
    most 52 units (65 ms). *)
Theorem connect_truncates_interval (c : ble_conn_context_t)
  (i : ble_conn_ident_t) (s : Z) (peer : list Z) (params : ble_conn_params_t)
  (Hs : 1 <= s < 256)
  (Hst : conn_state c = CONN_STATE_IDLE \/ conn_state c = CONN_STATE_SCANNING)
  (Hint : 0 <= params_conn_interval params < 65536) :
  exists c' i' s',
    ble_ll_connect 6 c i s (Some peer) (Some params) = Some (BLE_STATUS_OK, c', i', s') /\
    conn_interval c' = (params_conn_interval params * 1250) mod 65536 /\
    (conn_interval c' = params_conn_interval params * 1250 <->
     params_conn_interval params <= 52).
Proof.
  destruct (connect_ok c i s peer params Hs Hst) as [aa [crc [r [s' [E _]]]]].
  do 3 eexists. split; [exact E |].
  cbn [conn_interval set_conn_state set_hop_increment set_supervision_timeout
       set_conn_interval].
  unfold u16. change (2 ^ 16) with 65536.
  split; [reflexivity |].
  pose proof (Z.mod_pos_bound (params_conn_interval params * 1250) 65536 ltac:(lia)) as Hm.
  split.
  - intros Eq. rewrite Eq in Hm. lia.
  - intros Hle. apply Z.mod_small. lia.
Qed.

Lemma connect_truncates_interval_witness :
  exists c' i' s',
    ble_ll_connect 6 zeroed_ctx zeroed_ident 0x53 (Some [1; 2; 3; 4; 5; 6])
      (Some (mk_conn_params 80 0 500)) = Some (BLE_STATUS_OK, c', i', s') /\
    conn_interval c' = (params_conn_interval (mk_conn_params 80 0 500) * 1250) mod 65536 /\
    (conn_interval c' = params_conn_interval (mk_conn_params 80 0 500) * 1250 <->
     params_conn_interval (mk_conn_params 80 0 500) <= 52).
Proof.
  apply (connect_truncates_interval zeroed_ctx zeroed_ident 0x53
           [1; 2; 3; 4; 5; 6] (mk_conn_params 80 0 500)).
  - lia.
  - left. reflexivity.
  - cbn. lia.
Defined.

(** ** Hopping over the full channel map *)

Lemma all_data_channels_check :
  forallb (fun ch => channel_used all_data_channels_map ch)
    (map Z.of_nat (seq 0 37)) = true.
Proof. vm_compute. reflexivity. Qed.

Lemma calculate_next_channel_full_map (c : ble_conn_context_t) :
  channel_map c = all_data_channels_map ->
  ble_ll_calculate_next_channel c
    = ((last_unmapped_channel c + hop_increment c) mod 37,
       set_last_unmapped_channel c ((last_unmapped_channel c + hop_increment c) mod 37)).
Proof.
  intros Hmap.
  unfold ble_ll_calculate_next_channel. cbv zeta.
  pose proof (Z.mod_pos_bound (last_unmapped_channel c + hop_increment c) 37 ltac:(lia)) as Hm.
  assert (u8 ((last_unmapped_channel c + hop_increment c) mod 37)
          = (last_unmapped_channel c + hop_increment c) mod 37) as Hu
    by (unfold u8; apply Z.mod_small; lia).
  rewrite Hu.
  change (channel_map (set_last_unmapped_channel c
            ((last_unmapped_channel c + hop_increment c) mod 37)))
    with (channel_map c).
  rewrite Hmap.
  assert (0 <= (last_unmapped_channel c + hop_increment c) mod 37 < Z.of_nat 37) as Hr by lia.
  rewrite (forallb_below 37 _ all_data_channels_check _ Hr).
  reflexivity.
Qed.

Lemma hop_sequence_full_map (n : nat) :
  forall c : ble_conn_context_t,
    channel_map c = all_data_channels_map ->
    hop_sequence n c
      = map (unmapped_after (last_unmapped_channel c) (hop_increment c)) (seq 1 n).
Proof.
  induction n as [| n IH]; intros c Hmap; [reflexivity |].
  cbn [hop_sequence]. rewrite (calculate_next_channel_full_map c Hmap).
  cbn [seq map]. f_equal.
  - unfold unmapped_after. f_equal. lia.
  - rewrite IH by exact Hmap.
    cbn [last_unmapped_channel hop_increment set_last_unmapped_channel].
    rewrite <- (seq_shift n 1), map_map.
    apply map_ext. intros k. unfold unmapped_after.
    rewrite Z.add_mod_idemp_l by lia. f_equal. lia.
Qed.

Lemma unmapped_after_mod (last hop : Z) (k : nat) :
  unmapped_after last hop k = unmapped_after (last mod 37) (hop mod 37) k.
Proof.
  unfold unmapped_after.
  symmetry.
  rewrite Z.add_mod_idemp_l by lia.
  rewrite <- (Z.add_mod_idemp_r last (Z.of_nat k * (hop mod 37))) by lia.
  rewrite Z.mul_mod_idemp_r by lia.
  rewrite Z.add_mod_idemp_r by lia.
  reflexivity.
Qed.

Lemma hop_cover_check :
  forallb (fun last => forallb (fun hop =>
             (hop =? 0) || nodupb (map (unmapped_after last hop) (seq 1 37)))
             (map Z.of_nat (seq 0 37)))
    (map Z.of_nat (seq 0 37)) = true.
Proof. vm_compute. reflexivity. Qed.

(** X8. With the channel map of [ble_ll_init] (all 37 data channels) and a
    hop increment that is not a multiple of 37, as every increment that
    [ble_ll_connect] draws is, 37 consecutive calls of
    [ble_ll_calculate_next_channel] return every data channel 0..36 exactly
    once. *)
Theorem hop_sequence_visits_every_channel_once (c : ble_conn_context_t)
  (Hmap : channel_map c = all_data_channels_map)
  (Hhop : hop_increment c mod 37 <> 0) :
  NoDup (hop_sequence 37 c) /\
  (forall ch, In ch (hop_sequence 37 c) <-> 0 <= ch < 37).
Proof.
  rewrite (hop_sequence_full_map 37 c Hmap).
  rewrite (map_ext _ _ (unmapped_after_mod (last_unmapped_channel c) (hop_increment c))).
  pose proof (Z.mod_pos_bound (last_unmapped_channel c) 37 ltac:(lia)) as Hl.
  pose proof (Z.mod_pos_bound (hop_increment c) 37 ltac:(lia)) as Hh.
  set (last := last_unmapped_channel c mod 37) in *.
  set (hop := hop_increment c mod 37) in *.
  assert (0 <= last < Z.of_nat 37) as Hl' by lia.
  assert (0 <= hop < Z.of_nat 37) as Hh' by lia.
  pose proof (forallb_below 37 _ hop_cover_check last Hl') as H1. cbv beta in H1.
  pose proof (forallb_below 37 _ H1 hop Hh') as H2. cbv beta in H2.
  apply orb_true_iff in H2. destruct H2 as [H2 | H2]; [apply Z.eqb_eq in H2; lia |].
  apply nodupb_NoDup in H2.
  assert (forall v, In v (map (unmapped_after last hop) (seq 1 37)) ->
                    0 <= v < 0 + Z.of_nat 37) as Hin.
  { intros v Hv. apply in_map_iff in Hv. destruct Hv as [k [Ek _]]. subst v.
    unfold unmapped_after.
    pose proof (Z.mod_pos_bound (last + Z.of_nat k * hop) 37 ltac:(lia)). lia. }
  split; [exact H2 |].
  intros ch. split.
  - intros Hch. specialize (Hin ch Hch). lia.
  - intros Hch.
    apply (nodup_range_covers _ 0 37 H2); [rewrite length_map, length_seq; reflexivity | exact Hin | lia].
Qed.

Lemma hop_sequence_visits_every_channel_once_witness :
  NoDup (hop_sequence 37 sample_ctx) /\
  (forall ch, In ch (hop_sequence 37 sample_ctx) <-> 0 <= ch < 37).
Proof.
  apply (hop_sequence_visits_every_channel_once sample_ctx).
  - reflexivity.
  - cbn. discriminate.
Defined.


(** ** The Link Layer API as a whole *)

Lemma transmitted_app (a b : list radio_op) :
  transmitted (a ++ b) = transmitted a ++ transmitted b.
Proof. unfold transmitted. apply flat_map_app. Qed.

Lemma tx_starts_app (a b : list radio_op) :
  tx_starts (a ++ b) = (tx_starts a + tx_starts b)%nat.
Proof. unfold tx_starts. rewrite filter_app, length_app. reflexivity. Qed.

Lemma no_tx_nil : no_tx [].
Proof. split; reflexivity. Qed.

Lemma no_tx_app (a b : list radio_op) : no_tx a -> no_tx b -> no_tx (a ++ b).
Proof.
  intros [A1 A2] [B1 B2]. split.
  - rewrite transmitted_app, A1, B1. reflexivity.
  - rewrite tx_starts_app, A2, B2. reflexivity.
Qed.

Lemma world_eta (w : ll_world) : with_ctx w (ctx w) = w.
Proof. destruct w. reflexivity. Qed.

Lemma random_bytes_state (n : nat) :
  forall s : Z, 1 <= s < 256 -> 1 <= snd (random_bytes n s) < 256.
Proof.
  induction n as [| n IH]; intros s Hs; [exact Hs |].
  cbn [random_bytes].
  destruct (ble_ll_get_random s) as [r s1] eqn:E.
  destruct (get_random_step _ _ _ E Hs) as [Hs1 _].
  specialize (IH s1 Hs1). destruct (random_bytes n s1) as [rs s2].
  exact IH.
Qed.

Lemma generate_access_address_more_fuel (fuel : nat) :
  forall (fuel' : nat) (s : Z) (r : Z * Z),
    ble_ll_generate_access_address fuel s = Some r -> (fuel <= fuel')%nat ->
    ble_ll_generate_access_address fuel' s = Some r.
Proof.
  induction fuel as [| fuel IH]; intros fuel' s r E Hle; [discriminate E |].
  destruct fuel' as [| fuel']; [lia |].
  cbn [ble_ll_generate_access_address] in *.
  destruct (aa_candidate s) as [aa s1].
  destruct (ll_validate_access_address aa); [exact E |].
  apply IH; [exact E | lia].
Qed.

(** What one API call does to a link that is not Connected. *)
Lemma api_step_not_connected (fuel : nat) (st : ll_state) (call : ll_api_call) :
  (6 <= fuel)%nat ->
  conn_state (ctx (st_world st)) <> CONN_STATE_CONNECTED ->
  1 <= st_lfsr st < 256 ->
  exists status st' ops,
    ll_api_step fuel st call = Some (status, st') /\
    conn_state (ctx (st_world st')) <> CONN_STATE_CONNECTED /\
    1 <= st_lfsr st' < 256 /\
    calls (st_world st') = calls (st_world st) /\
    radio (st_world st') = radio (st_world st) ++ ops /\
    no_tx ops.
Proof.
  intros Hfuel Hnc Hs.
  destruct st as [w i s]. cbn [st_world st_ident st_lfsr] in *.
  destruct call as [rc | past_end | addr | params | | peer params | reason past_end
                   | data len | now env | | ]; unfold ll_api_step; cbn [st_world st_ident st_lfsr].
  - (* ble_ll_init *)
    unfold ble_ll_init. destruct rc; cbn [negb].
    + pose proof (random_bytes_state 6 s Hs) as Hs'.
      destruct (random_bytes 6 s) as [addr s']. cbn [snd] in Hs'.
      do 2 eexists. exists []. split; [reflexivity |].
      cbn [st_world st_lfsr with_ctx ctx radio calls conn_state].
      rewrite app_nil_r.
      split; [discriminate | split; [exact Hs' | split; [reflexivity | split; [reflexivity | apply no_tx_nil]]]].
    + do 2 eexists. exists []. split; [reflexivity |].
      cbn [st_world st_lfsr with_ctx ctx radio calls]. rewrite app_nil_r.
      split; [exact Hnc | split; [exact Hs | split; [reflexivity | split; [reflexivity | apply no_tx_nil]]]].
  - (* ble_ll_deinit *)
    unfold ble_ll_deinit.
    destruct (conn_state_eqb (conn_state (ctx w)) CONN_STATE_CONNECTED) eqn:E.
    + destruct (conn_state (ctx w)); try discriminate E. contradiction.
    + do 2 eexists. exists []. split; [reflexivity |].
      cbn [st_world st_lfsr with_ctx ctx radio calls]. rewrite app_nil_r.
      split; [exact Hnc | split; [exact Hs | split; [reflexivity | split; [reflexivity | apply no_tx_nil]]]].
  - (* ble_ll_set_address *)
    unfold ble_ll_set_address. destruct addr as [addr |];
      (do 2 eexists; exists []; split; [reflexivity |];
       cbn [st_world st_lfsr]; rewrite app_nil_r;
       split; [exact Hnc | split; [exact Hs | split; [reflexivity | split; [reflexivity | apply no_tx_nil]]]]).
  - (* ble_ll_start_scanning *)
    unfold ble_ll_start_scanning. destruct params as [params |].
    + destruct (negb (conn_state_eqb (conn_state (ctx w)) CONN_STATE_IDLE)).
      * do 2 eexists. exists []. split; [reflexivity |].
        cbn [st_world st_lfsr]. rewrite app_nil_r.
        split; [exact Hnc | split; [exact Hs | split; [reflexivity | split; [reflexivity | apply no_tx_nil]]]].
      * do 3 eexists. split; [reflexivity |].
        cbn [st_world st_lfsr radio_do with_ctx ctx radio calls conn_state set_conn_state].
        split; [discriminate | split; [exact Hs | split; [reflexivity | split; [reflexivity |]]]].
        split; reflexivity.
    + do 2 eexists. exists []. split; [reflexivity |].
      cbn [st_world st_lfsr]. rewrite app_nil_r.
      split; [exact Hnc | split; [exact Hs | split; [reflexivity | split; [reflexivity | apply no_tx_nil]]]].
  - (* ble_ll_stop_scanning *)
    unfold ble_ll_stop_scanning.
    destruct (negb (conn_state_eqb (conn_state (ctx w)) CONN_STATE_SCANNING)).
    + do 2 eexists. exists []. split; [reflexivity |].
      cbn [st_world st_lfsr]. rewrite app_nil_r.
      split; [exact Hnc | split; [exact Hs | split; [reflexivity | split; [reflexivity | apply no_tx_nil]]]].
    + do 3 eexists. split; [reflexivity |].
      cbn [st_world st_lfsr radio_do with_ctx ctx radio calls conn_state set_conn_state].
      split; [discriminate | split; [exact Hs | split; [reflexivity | split; [reflexivity |]]]].
      split; reflexivity.
  - (* ble_ll_connect *)
    destruct peer as [peer |]; [destruct params as [params |] |].
    + destruct (conn_state (ctx w)) eqn:Est; try contradiction.
      1, 2: (assert (conn_state (ctx w) = CONN_STATE_IDLE
                     \/ conn_state (ctx w) = CONN_STATE_SCANNING) as Hst
               by (rewrite Est; tauto);
             destruct (connect_ok (ctx w) i s peer params Hs Hst)
               as [aa [crc [r [s' [E [_ [_ Hs']]]]]]];
             assert (ble_ll_connect fuel (ctx w) i s (Some peer) (Some params)
                     = ble_ll_connect 6 (ctx w) i s (Some peer) (Some params)) as Ef;
             [ unfold ble_ll_connect; rewrite Est; cbn [conn_state_eqb negb andb];
               destruct (generate_access_address_terminates s Hs) as [aa0 [s0 Eg]];
               rewrite Eg;
               rewrite (generate_access_address_more_fuel 6 fuel s _ Eg Hfuel);
               reflexivity
             | rewrite Ef, E;
               do 2 eexists; exists []; split; [reflexivity |];
               cbn [st_world st_lfsr with_ctx ctx radio calls conn_state set_conn_state];
               rewrite app_nil_r;
               split; [discriminate | split; [exact Hs' | split; [reflexivity | split; [reflexivity | apply no_tx_nil]]]] ]).
      all: (unfold ble_ll_connect; rewrite Est; cbn [conn_state_eqb negb andb];
            do 2 eexists; exists []; split; [reflexivity |];
            cbn [st_world st_lfsr with_ctx ctx radio calls]; rewrite app_nil_r;
            split; [rewrite Est; discriminate | split; [exact Hs | split; [reflexivity | split; [reflexivity | apply no_tx_nil]]]]).
    + unfold ble_ll_connect.
      do 2 eexists. exists []. split; [reflexivity |].
      cbn [st_world st_lfsr with_ctx ctx radio calls]. rewrite app_nil_r.
      split; [exact Hnc | split; [exact Hs | split; [reflexivity | split; [reflexivity | apply no_tx_nil]]]].
    + unfold ble_ll_connect.
      do 2 eexists. exists []. split; [reflexivity |].
      cbn [st_world st_lfsr with_ctx ctx radio calls]. rewrite app_nil_r.
      split; [exact Hnc | split; [exact Hs | split; [reflexivity | split; [reflexivity | apply no_tx_nil]]]].
  - (* ble_ll_disconnect *)
    unfold ble_ll_disconnect.
    destruct (conn_state_eqb (conn_state (ctx w)) CONN_STATE_CONNECTED) eqn:E.
    + destruct (conn_state (ctx w)); try discriminate E. contradiction.
    + cbn [negb]. do 2 eexists. exists []. split; [reflexivity |].
      cbn [st_world st_lfsr with_ctx ctx radio calls]. rewrite app_nil_r.
      split; [exact Hnc | split; [exact Hs | split; [reflexivity | split; [reflexivity | apply no_tx_nil]]]].
  - (* ble_ll_send_data *)
    assert (exists status, ble_ll_send_data (ctx w) data len = Some (status, ctx w)) as [status E].
    { unfold ble_ll_send_data. destruct data as [data |]; [| eexists; reflexivity].
      destruct ((len =? 0) || (len >? 251)); [eexists; reflexivity |].
      destruct (conn_state_eqb (conn_state (ctx w)) CONN_STATE_CONNECTED) eqn:E.
      - destruct (conn_state (ctx w)); try discriminate E. contradiction.
      - cbn [negb]. eexists; reflexivity. }
    rewrite E.
    do 2 eexists. exists []. split; [reflexivity |].
    cbn [st_world st_lfsr with_ctx ctx radio calls]. rewrite app_nil_r.
    split; [exact Hnc | split; [exact Hs | split; [reflexivity | split; [reflexivity | apply no_tx_nil]]]].
  - (* ble_ll_process_events *)
    unfold ble_ll_process_events.
    destruct (conn_state (ctx w)) eqn:Est; try contradiction.
    2: { destruct (rx_done (scan_irq env)).
         - do 3 eexists. split; [reflexivity |].
           cbn [st_world st_lfsr radio_do ctx radio calls].
           split; [rewrite Est; discriminate | split; [exact Hs | split; [reflexivity | split; [reflexivity |]]]].
           split; reflexivity.
         - do 2 eexists. exists []. split; [reflexivity |].
           cbn [st_world st_lfsr]. rewrite app_nil_r.
           split; [rewrite Est; discriminate | split; [exact Hs | split; [reflexivity | split; [reflexivity | apply no_tx_nil]]]]. }
    all: (do 2 eexists; exists []; split; [reflexivity |];
          cbn [st_world st_lfsr]; rewrite app_nil_r;
          split; [rewrite Est; discriminate | split; [exact Hs | split; [reflexivity | split; [reflexivity | apply no_tx_nil]]]]).
  - do 2 eexists. exists []. split; [reflexivity |].
    cbn [st_world st_lfsr]. rewrite app_nil_r.
    split; [exact Hnc | split; [exact Hs | split; [reflexivity | split; [reflexivity | apply no_tx_nil]]]].
  - do 2 eexists. exists []. split; [reflexivity |].
    cbn [st_world st_lfsr]. rewrite app_nil_r.
    split; [exact Hnc | split; [exact Hs | split; [reflexivity | split; [reflexivity | apply no_tx_nil]]]].
Qed.

Lemma api_run_not_connected (fuel : nat) (cs : list ll_api_call) :
  (6 <= fuel)%nat ->
  forall st : ll_state,
    conn_state (ctx (st_world st)) <> CONN_STATE_CONNECTED ->
    1 <= st_lfsr st < 256 ->
    exists st' ops,
      ll_api_run fuel st cs = Some st' /\
      conn_state (ctx (st_world st')) <> CONN_STATE_CONNECTED /\
      calls (st_world st') = calls (st_world st) /\
      radio (st_world st') = radio (st_world st) ++ ops /\
      no_tx ops.
Proof.
  intros Hfuel.
  induction cs as [| call cs IH]; intros st Hnc Hs.
  - exists st, []. rewrite app_nil_r.
    split; [reflexivity | split; [exact Hnc | split; [reflexivity | split; [reflexivity | apply no_tx_nil]]]].
  - destruct (api_step_not_connected fuel st call Hfuel Hnc Hs)
      as [status [st1 [ops1 [E [Hnc1 [Hs1 [Hc1 [Hr1 Hn1]]]]]]]].
    destruct (IH st1 Hnc1 Hs1) as [st' [ops [E' [Hnc' [Hc' [Hr' Hn']]]]]].
    exists st', (ops1 ++ ops).
    cbn [ll_api_run]. rewrite E.
    split; [exact E' | split; [exact Hnc' | split; [congruence | split]]].
    + rewrite Hr', Hr1, app_assoc. reflexivity.
    + apply no_tx_app; assumption.
Qed.

(** X9. Through the functions of the Link Layer API alone a link never
    becomes Connected.  On a context that is not Connected (the one
    [ble_ll_init] leaves, for one) every sequence of calls of
    [ble_ll_init], [ble_ll_deinit], [ble_ll_set_address],
    [ble_ll_start_scanning], [ble_ll_stop_scanning], [ble_ll_connect],
    [ble_ll_disconnect], [ble_ll_send_data], [ble_ll_process_events] and
    the two interrupt hooks runs to its end and leaves a context that is
    not Connected; no call writes the radio's TX buffer, none starts a
    transmission and none invokes a callback. *)
Theorem api_never_connects (fuel : nat) (st : ll_state) (cs : list ll_api_call)
  (Hfuel : (6 <= fuel)%nat)
  (Hnc : conn_state (ctx (st_world st)) <> CONN_STATE_CONNECTED)
  (Hs : 1 <= st_lfsr st < 256) :
  exists st',
    ll_api_run fuel st cs = Some st' /\
    conn_state (ctx (st_world st')) <> CONN_STATE_CONNECTED /\
    calls (st_world st') = calls (st_world st) /\
    no_tx (event_ops (st_world st) (st_world st')).
Proof.
  destruct (api_run_not_connected fuel cs Hfuel st Hnc Hs)
    as [st' [ops [E [Hnc' [Hc [Hr Hn]]]]]].
  exists st'.
  split; [exact E | split; [exact Hnc' | split; [exact Hc |]]].
  rewrite (event_ops_app _ _ ops Hr). exact Hn.
Qed.

Lemma api_never_connects_witness :
  exists st',
    ll_api_run 6 (mk_ll_state (mk_world zeroed_ctx [] []) zeroed_ident 0x53)
      [ api_init true;
        api_start_scanning (Some (mk_scan_params 16 16 0 false));
        api_process_events 0 (mk_env SX128X_IRQ_RX_DONE (fun _ => 0) [] []);
        api_connect (Some [1; 2; 3; 4; 5; 6]) (Some (mk_conn_params 40 0 500));
        api_process_events 1250 (mk_env SX128X_IRQ_RX_DONE (fun _ => 0) [] []);
        api_send_data (Some [0x0A; 0x03; 0x00]) 3 ] = Some st' /\
    conn_state (ctx (st_world st')) <> CONN_STATE_CONNECTED /\
    calls (st_world st')
      = calls (st_world (mk_ll_state (mk_world zeroed_ctx [] []) zeroed_ident 0x53)) /\
    no_tx (event_ops (st_world (mk_ll_state (mk_world zeroed_ctx [] []) zeroed_ident 0x53))
                     (st_world st')).
Proof.
  apply (api_never_connects 6 (mk_ll_state (mk_world zeroed_ctx [] []) zeroed_ident 0x53)).
  - lia.
  - cbn. discriminate.
  - cbn. lia.
Defined.

Ltac dead_end_done :=
  do 2 eexists; split; [reflexivity |]; cbn [st_world st_ident st_lfsr];
  split; [first [reflexivity | apply world_eta] |];
  split; [reflexivity |];
  split; [reflexivity |];
  first [exact I | discriminate | reflexivity].

Lemma api_step_dead_end (fuel : nat) (st : ll_state) (call : ll_api_call) :
  conn_state (ctx (st_world st)) = CONN_STATE_INITIATING
  \/ conn_state (ctx (st_world st)) = CONN_STATE_DISCONNECTING ->
  call <> api_init true ->
  exists status st',
    ll_api_step fuel st call = Some (status, st') /\
    st_world st' = st_world st /\
    st_lfsr st' = st_lfsr st /\
    st_ident st'
      = match call with
        | api_set_address (Some addr) =>
            mk_ident (firstn 6 addr) (peer_addr (st_ident st))
              (access_address (st_ident st)) (crc_init (st_ident st))
              (slave_latency (st_ident st))
        | _ => st_ident st
        end /\
    match call with
    | api_start_scanning _ | api_stop_scanning | api_connect _ _
    | api_disconnect _ _ | api_send_data _ _ => status <> BLE_STATUS_OK
    | api_set_address (Some _) => status = BLE_STATUS_OK
    | api_set_address None => status = BLE_STATUS_INVALID_PARAMS
    | _ => True
    end.
Proof.
  intros Hst Hcall.
  destruct st as [w i s]. cbn [st_world st_ident st_lfsr] in *.
  destruct call as [rc | past_end | addr | params | | peer params | reason past_end
                   | data len | now env | | ]; unfold ll_api_step; cbn [st_world st_ident st_lfsr].
  - destruct rc; [contradiction Hcall; reflexivity |].
    unfold ble_ll_init. cbn [negb]. dead_end_done.
  - unfold ble_ll_deinit.
    destruct Hst as [E | E]; rewrite E; cbn [conn_state_eqb]; dead_end_done.
  - unfold ble_ll_set_address.
    destruct addr; dead_end_done.
  - unfold ble_ll_start_scanning.
    destruct params; [| dead_end_done].
    destruct Hst as [E | E]; rewrite E; cbn [conn_state_eqb negb]; dead_end_done.
  - unfold ble_ll_stop_scanning.
    destruct Hst as [E | E]; rewrite E; cbn [conn_state_eqb negb]; dead_end_done.
  - unfold ble_ll_connect.
    destruct peer; [destruct params |]; [| dead_end_done | dead_end_done].
    destruct Hst as [E | E]; rewrite E; cbn [conn_state_eqb negb andb]; dead_end_done.
  - unfold ble_ll_disconnect.
    destruct Hst as [E | E]; rewrite E; cbn [conn_state_eqb negb]; dead_end_done.
  - unfold ble_ll_send_data.
    destruct data; [| dead_end_done].
    destruct ((len =? 0) || (len >? 251)); [dead_end_done |].
    destruct Hst as [E | E]; rewrite E; cbn [conn_state_eqb negb]; dead_end_done.
  - unfold ble_ll_process_events.
    destruct Hst as [E | E]; rewrite E; dead_end_done.
  - dead_end_done.
  - dead_end_done.
Qed.

(** X10. Initiating and Disconnecting are dead ends.  Once
    [ble_ll_connect] has left the link Initiating, or [ble_ll_disconnect]
    has left it Disconnecting, every API call other than a successful
    [ble_ll_init] leaves the context, the radio, the callbacks and the
    random number generator untouched, and the address fields too, with one
    exception: [ble_ll_set_address], which does not look at the state,
    overwrites [local_addr] with the six bytes it is given and returns OK
    (INVALID_PARAMS, and nothing written, for a NULL address).
    [ble_ll_start_scanning], [ble_ll_stop_scanning], [ble_ll_connect],
    [ble_ll_disconnect] and [ble_ll_send_data] return an error and
    [ble_ll_process_events] does nothing. *)
Theorem initiating_and_disconnecting_are_dead_ends (fuel : nat) (st : ll_state)
  (call : ll_api_call)
  (Hst : conn_state (ctx (st_world st)) = CONN_STATE_INITIATING
         \/ conn_state (ctx (st_world st)) = CONN_STATE_DISCONNECTING)
  (Hcall : call <> api_init true) :
  exists status st',
    ll_api_step fuel st call = Some (status, st') /\
    st_world st' = st_world st /\
    st_lfsr st' = st_lfsr st /\
    st_ident st'
      = match call with
        | api_set_address (Some addr) =>
            mk_ident (firstn 6 addr) (peer_addr (st_ident st))
              (access_address (st_ident st)) (crc_init (st_ident st))
              (slave_latency (st_ident st))
        | _ => st_ident st
        end /\
    match call with
    | api_start_scanning _ | api_stop_scanning | api_connect _ _
    | api_disconnect _ _ | api_send_data _ _ => status <> BLE_STATUS_OK
    | api_set_address (Some _) => status = BLE_STATUS_OK
    | api_set_address None => status = BLE_STATUS_INVALID_PARAMS
    | _ => True
    end.
Proof. exact (api_step_dead_end fuel st call Hst Hcall). Qed.

(** In the state Initiating a new address is still written. *)
Lemma initiating_and_disconnecting_are_dead_ends_witness :
  let st := mk_ll_state (mk_world (set_conn_state sample_ctx CONN_STATE_INITIATING) [] [])
              zeroed_ident 0x53 in
  exists status st',
    ll_api_step 6 st (api_set_address (Some [1; 2; 3; 4; 5; 6])) = Some (status, st') /\
    st_world st' = st_world st /\
    st_lfsr st' = 0x53 /\
    local_addr (st_ident st') = [1; 2; 3; 4; 5; 6] /\
    status = BLE_STATUS_OK.
Proof.
  intros st.
  destruct (initiating_and_disconnecting_are_dead_ends 6 st
              (api_set_address (Some [1; 2; 3; 4; 5; 6])))
    as (status & st' & Hstep & Hw & Hl & Hi & Hs).
  - left. reflexivity.
  - discriminate.
  - exists status, st'. rewrite Hi.
    split; [exact Hstep |]. split; [exact Hw |]. split; [exact Hl |].
    split; [reflexivity | exact Hs].
Defined.


(** ** Disconnecting *)

Lemma process_events_idle (w : ll_world) (now : Z) (env : radio_env) :
  conn_state (ctx w) <> CONN_STATE_SCANNING ->
  conn_state (ctx w) <> CONN_STATE_CONNECTED ->
  ble_ll_process_events w now env = w.
Proof.
  intros H1 H2. unfold ble_ll_process_events.
  destruct (conn_state (ctx w)); try reflexivity; contradiction.
Qed.

Lemma run_events_idle (trace : list (Z * radio_env)) (w : ll_world) :
  conn_state (ctx w) <> CONN_STATE_SCANNING ->
  conn_state (ctx w) <> CONN_STATE_CONNECTED ->
  run_events w trace = w.
Proof.
  intros H1 H2. unfold run_events.
  induction trace as [| te trace IH]; [reflexivity |].
  cbn [fold_left]. rewrite (process_events_idle w _ _ H1 H2). exact IH.
Qed.

(** X11. [ble_ll_disconnect] on a connected link queues the three bytes
    03 02 02 of an LL_TERMINATE_IND, followed by a byte that is not the
    reason (the reason passed plays no part in the result), and leaves the
    link Disconnecting; from then on [ble_ll_process_events] does nothing,
    whatever the time and whatever the radio reports: the PDU is never
    transmitted and no callback is invoked. *)
Theorem disconnect_pdu_is_never_transmitted (w : ll_world) (reason past_end : Z)
  (trace : list (Z * radio_env))
  (Hst : conn_state (ctx w) = CONN_STATE_CONNECTED) :
  exists c',
    (forall reason', ble_ll_disconnect (ctx w) reason' past_end = (BLE_STATUS_OK, c')) /\
    conn_state c' = CONN_STATE_DISCONNECTING /\
    tx_pending c' = true /\ tx_length c' = 4 /\
    firstn 4 (tx_buffer c') = [0x03; 0x02; LL_TERMINATE_IND; past_end] /\
    run_events (with_ctx w c') trace = with_ctx w c'.
Proof.
  unfold ble_ll_disconnect. rewrite Hst. cbn [conn_state_eqb negb].
  eexists. split; [intros reason'; reflexivity |].
  cbn [conn_state set_conn_state tx_pending set_tx_pending tx_length set_tx_length
       tx_buffer set_tx_buffer].
  split; [reflexivity | split; [reflexivity | split; [reflexivity | split; [reflexivity |]]]].
  apply run_events_idle; cbn [with_ctx ctx conn_state set_conn_state]; discriminate.
Qed.

Lemma disconnect_pdu_is_never_transmitted_witness :
  exists c',
    (forall reason',
       ble_ll_disconnect (ctx (mk_world sample_ctx [] [])) reason' 0xAA
         = (BLE_STATUS_OK, c')) /\
    conn_state c' = CONN_STATE_DISCONNECTING /\
    tx_pending c' = true /\ tx_length c' = 4 /\
    firstn 4 (tx_buffer c') = [0x03; 0x02; LL_TERMINATE_IND; 0xAA] /\
    run_events (with_ctx (mk_world sample_ctx [] []) c') [(50000, env_silent)]
      = with_ctx (mk_world sample_ctx [] []) c'.
Proof.
  apply (disconnect_pdu_is_never_transmitted (mk_world sample_ctx [] []) 0x13 0xAA
           [(50000, env_silent)]).
  reflexivity.
Defined.

(** ** Sending data *)

(** X12. The status of [ble_ll_send_data] tells what happened: it is OK
    exactly when the data pointer is not NULL, the length is between 1 and
    251, the link is Connected and no PDU is pending; with any other status
    the context is left exactly as it was.  The checks are made in this
    order: parameters, connection, pending PDU. *)
Theorem send_data_status (c c' : ble_conn_context_t) (data : option (list Z))
  (len : Z) (status : ble_status_t)
  (Hlen : 0 <= len < 65536)
  (Hcall : ble_ll_send_data c data len = Some (status, c')) :
  (status = BLE_STATUS_OK <->
   data <> None /\ 1 <= len <= 251 /\
   conn_state c = CONN_STATE_CONNECTED /\ tx_pending c = false) /\
  (status <> BLE_STATUS_OK -> c' = c) /\
  (status = BLE_STATUS_INVALID_PARAMS <-> data = None \/ len = 0 \/ 251 < len) /\
  (status = BLE_STATUS_BUSY ->
   conn_state c = CONN_STATE_CONNECTED /\ tx_pending c = true).
Proof.
  unfold ble_ll_send_data in Hcall.
  destruct data as [data |].
  2: { injection Hcall as Einj1 Einj2; subst status c'.
       split; [split; [discriminate | intros [H _]; contradiction H; reflexivity] |].
       split; [reflexivity |].
       split; [split; [tauto | reflexivity] | discriminate]. }
  destruct ((len =? 0) || (len >? 251)) eqn:Elen.
  { injection Hcall as Einj1 Einj2; subst status c'.
    assert (len = 0 \/ 251 < len) as Hl.
    { apply orb_true_iff in Elen. destruct Elen as [E | E].
      - apply Z.eqb_eq in E. tauto.
      - apply Z.gtb_lt in E. tauto. }
    split; [split; [discriminate | intros [_ [H _]]; lia] |].
    split; [reflexivity |].
    split; [split; [tauto | reflexivity] | discriminate]. }
  apply orb_false_iff in Elen. destruct Elen as [E0 E251].
  apply Z.eqb_neq in E0.
  assert (len <= 251) as Hle.
  { destruct (Z.gtb_spec len 251) as [H | H]; [discriminate E251 | exact H]. }
  destruct (conn_state_eqb (conn_state c) CONN_STATE_CONNECTED) eqn:Est; cbn [negb] in Hcall.
  2: { injection Hcall as Einj1 Einj2; subst status c'.
       assert (conn_state c <> CONN_STATE_CONNECTED) as Hn
         by (intros E; rewrite E in Est; discriminate Est).
       split; [split; [discriminate | intros [_ [_ [H _]]]; contradiction] |].
       split; [reflexivity |].
       split; [split; [discriminate | intros [H | [H | H]]; [discriminate H | lia | lia]] |
               discriminate]. }
  assert (conn_state c = CONN_STATE_CONNECTED) as Hc
    by (destruct (conn_state c); try discriminate Est; reflexivity).
  destruct (tx_pending c) eqn:Ep.
  { injection Hcall as Einj1 Einj2; subst status c'.
    split; [split; [discriminate | intros [_ [_ [_ H]]]; discriminate H] |].
    split; [reflexivity |].
    split; [split; [discriminate | intros [H | [H | H]]; [discriminate H | lia | lia]] |].
    intros _. split; [exact Hc | reflexivity]. }
  destruct (store_bytes_checked 0 _ (tx_buffer c)) as [buf |]; [| discriminate Hcall].
  destruct (store_bytes_checked 6 _ buf) as [buf' |]; [| discriminate Hcall].
  injection Hcall as Einj1 Einj2; subst status c'.
  split.
  { split; [intros _ | reflexivity].
    split; [discriminate | split; [lia | split; [exact Hc | reflexivity]]]. }
  split; [intros H; contradiction H; reflexivity |].
  split; [split; [discriminate | intros [H | [H | H]]; [discriminate H | lia | lia]] |
          discriminate].
Qed.

Lemma send_data_status_witness :
  (BLE_STATUS_INVALID_PARAMS = BLE_STATUS_OK <->
   @None (list Z) <> None /\ 1 <= 0 <= 251 /\
   conn_state sample_ctx = CONN_STATE_CONNECTED /\ tx_pending sample_ctx = false) /\
  (BLE_STATUS_INVALID_PARAMS <> BLE_STATUS_OK -> sample_ctx = sample_ctx) /\
  (BLE_STATUS_INVALID_PARAMS = BLE_STATUS_INVALID_PARAMS <->
   @None (list Z) = None \/ 0 = 0 \/ 251 < 0) /\
  (BLE_STATUS_INVALID_PARAMS = BLE_STATUS_BUSY ->
   conn_state sample_ctx = CONN_STATE_CONNECTED /\ tx_pending sample_ctx = true).
Proof.
  apply (send_data_status sample_ctx sample_ctx None 0 BLE_STATUS_INVALID_PARAMS).
  - lia.
  - reflexivity.
Defined.


(** ** From a queued PDU to the bytes on air *)

Lemma stamp_tx_header_pending (c : ble_conn_context_t) (b : Z) (rest : list Z) :
  tx_pending c = true -> tx_buffer c = b :: rest ->
  stamp_tx_header c
    = set_bits (set_bits (set_bits b 2 1 (next_expected_seq_num c)) 3 1 (tx_seq_num c))
        4 1 (if more_data c then 1 else 0) :: rest.
Proof.
  intros Hp Hb. unfold stamp_tx_header. rewrite Hp, Hb. reflexivity.
Qed.

Lemma transmitted_pending_event (w : ll_world) (env : radio_env) :
  tx_pending (ctx w) = true ->
  let w' := ll_handle_connection_event w env in
  transmitted (event_ops w w')
    = [firstn (Z.to_nat (pdu_length (stamp_tx_header (ctx w)) + 2))
         (stamp_tx_header (ctx w))] /\
  tx_starts (event_ops w w') = 1%nat.
Proof.
  intros Hp w'. subst w'.
  pose proof (handle_connection_event_radio w env) as Hr.
  rewrite (event_tx_phase_radio w env) in Hr. cbv zeta in Hr.
  rewrite Hp in Hr. cbn [orb] in Hr.
  rewrite (event_ops_app _ _ _ Hr).
  destruct (tx_done_poll 1001 1000 0 (tx_irq env) >? 0); split; reflexivity.
Qed.

Lemma send_data_buffer (c : ble_conn_context_t) (data : list Z) (len : Z) :
  conn_state c = CONN_STATE_CONNECTED ->
  tx_pending c = false ->
  length (tx_buffer c) = 255%nat ->
  1 <= len <= 249 ->
  (Z.to_nat len <= length data)%nat ->
  ble_ll_send_data c (Some data) len
    = Some (BLE_STATUS_OK,
            set_tx_pending
              (set_tx_length
                 (set_tx_buffer c
                    ([0x02; len + 4; len; 0; 0x04; 0x00]
                       ++ firstn (Z.to_nat len) data
                       ++ skipn (length (firstn (Z.to_nat len) data)) (skipn 6 (tx_buffer c))))
                 (len + 6))
              true).
Proof.
  intros Hst Hp Hbuf Hlen Hdata.
  unfold ble_ll_send_data.
  assert ((len =? 0) || (len >? 251) = false) as Hg.
  { apply orb_false_iff. split; [apply Z.eqb_neq; lia |].
    destruct (Z.gtb_spec len 251); [lia | reflexivity]. }
  rewrite Hg, Hst, Hp. cbn [conn_state_eqb negb].
  assert (u8 (len + 4) = len + 4) as E1 by (unfold u8; apply Z.mod_small; lia).
  assert (Z.land len 255 = len) as E2 by (apply land_255_small; lia).
  assert (Z.land (Z.shiftr len 8) 255 = 0) as E3.
  { rewrite Z.shiftr_div_pow2 by lia. rewrite Z.div_small by lia. reflexivity. }
  assert (u16 (len + 6) = len + 6) as E4 by (unfold u16; apply Z.mod_small; lia).
  rewrite E1, E2, E3, E4.
  change (Z.land L2CAP_CID_ATT 255) with 4.
  change (Z.land (Z.shiftr L2CAP_CID_ATT 8) 255) with 0.
  assert (length (firstn (Z.to_nat len) data) = Z.to_nat len) as Hp'
    by (rewrite length_firstn; lia).
  rewrite (store_bytes_checked_some 0 [2; len + 4; len; 0; 4; 0] (tx_buffer c))
    by (rewrite Hbuf; cbn; lia).
  change (store_bytes 0 [2; len + 4; len; 0; 4; 0] (tx_buffer c))
    with ([2; len + 4; len; 0; 4; 0] ++ skipn 6 (tx_buffer c)).
  rewrite (store_bytes_checked_some 6)
    by (rewrite length_app, length_skipn, Hbuf, Hp'; cbn [length]; lia).
  reflexivity.
Qed.

Lemma send_data_on_air (w : ll_world) (env : radio_env)
  (data : list Z) (len : Z)
  (Hst : conn_state (ctx w) = CONN_STATE_CONNECTED)
  (Hp : tx_pending (ctx w) = false)
  (Hbuf : length (tx_buffer (ctx w)) = 255%nat)
  (Hlen : 1 <= len <= 249)
  (Hdata : (Z.to_nat len <= length data)%nat) :
  exists c1 h,
    ble_ll_send_data (ctx w) (Some data) len = Some (BLE_STATUS_OK, c1) /\
    let w' := ll_handle_connection_event (with_ctx w c1) env in
    transmitted (event_ops w w')
      = [[h; len + 4; len; 0; 0x04; 0x00] ++ firstn (Z.to_nat len) data] /\
    tx_starts (event_ops w w') = 1%nat /\
    Z.land h 3 = 0x02 /\
    bit h 2 = Z.land (next_expected_seq_num (ctx w)) 1 /\
    bit h 3 = Z.land (tx_seq_num (ctx w)) 1.
Proof.
  rewrite (send_data_buffer (ctx w) data len Hst Hp Hbuf Hlen Hdata).
  set (p := firstn (Z.to_nat len) data).
  assert (length p = Z.to_nat len) as Hp' by (subst p; rewrite length_firstn; lia).
  set (tail := skipn (length p) (skipn 6 (tx_buffer (ctx w)))).
  set (c1 := set_tx_pending _ true).
  set (h := set_bits (set_bits (set_bits 2 2 1 (next_expected_seq_num (ctx w))) 3 1
                        (tx_seq_num (ctx w))) 4 1 (if more_data (ctx w) then 1 else 0)).
  exists c1, h. split; [reflexivity |].
  assert (tx_pending (ctx (with_ctx w c1)) = true) as Hp1 by reflexivity.
  pose proof (transmitted_pending_event (with_ctx w c1) env Hp1) as [Ht Hn].
  assert (stamp_tx_header (ctx (with_ctx w c1))
          = h :: [len + 4; len; 0; 4; 0] ++ p ++ tail) as Hs
    by exact (stamp_tx_header_pending (ctx (with_ctx w c1)) 2
                ([len + 4; len; 0; 4; 0] ++ p ++ tail) Hp1 eq_refl).
  rewrite Hs in Ht.
  assert (event_ops w (ll_handle_connection_event (with_ctx w c1) env)
          = event_ops (with_ctx w c1) (ll_handle_connection_event (with_ctx w c1) env)) as Hev
    by reflexivity.
  cbv zeta. rewrite Hev, Ht, Hn.
  split.
  { f_equal. unfold pdu_length. cbn [nth app].
    replace (Z.to_nat (len + 4 + 2)) with (6 + Z.to_nat len)%nat by lia.
    cbn [Nat.add firstn app]. do 6 f_equal.
    rewrite firstn_app, <- Hp', firstn_all, Nat.sub_diag. cbn [firstn].
    apply app_nil_r. }
  split; [reflexivity |].
  pose proof (stamped_header_bits 2 (next_expected_seq_num (ctx w)) (tx_seq_num (ctx w))
                (if more_data (ctx w) then 1 else 0) ltac:(lia)) as Hb.
  cbv zeta in Hb. fold h in Hb.
  destruct Hb as [B2 [B3 [_ B0]]].
  split; [exact B0 | split; [exact B2 | exact B3]].
Qed.

(** X13. A payload of 1 to 249 bytes handed to [ble_ll_send_data] on a
    connected link with nothing pending is what the next connection event
    puts on air, in one transmission: a header byte with LLID 10 that
    carries NESN and SN of the context, the length [len + 4], the L2CAP
    length [len], the channel id 4 of ATT, and the payload bytes
    unchanged. *)
Theorem send_data_is_transmitted_in_next_event (w : ll_world) (env : radio_env)
  (data : list Z) (len : Z)
  (Hst : conn_state (ctx w) = CONN_STATE_CONNECTED)
  (Hp : tx_pending (ctx w) = false)
  (Hbuf : length (tx_buffer (ctx w)) = 255%nat)
  (Hlen : 1 <= len <= 249)
  (Hdata : (Z.to_nat len <= length data)%nat) :
  exists c1 h,
    ble_ll_send_data (ctx w) (Some data) len = Some (BLE_STATUS_OK, c1) /\
    let w' := ll_handle_connection_event (with_ctx w c1) env in
    transmitted (event_ops w w')
      = [[h; len + 4; len; 0; 0x04; 0x00] ++ firstn (Z.to_nat len) data] /\
    tx_starts (event_ops w w') = 1%nat /\
    Z.land h 3 = 0x02 /\
    bit h 2 = Z.land (next_expected_seq_num (ctx w)) 1 /\
    bit h 3 = Z.land (tx_seq_num (ctx w)) 1.
Proof. exact (send_data_on_air w env data len Hst Hp Hbuf Hlen Hdata). Qed.

Lemma send_data_is_transmitted_in_next_event_witness :
  exists c1 h,
    ble_ll_send_data (ctx (mk_world sample_ctx [] [])) (Some [0x0A; 0x03; 0x00]) 3
      = Some (BLE_STATUS_OK, c1) /\
    let w' := ll_handle_connection_event (with_ctx (mk_world sample_ctx [] []) c1)
                (env_receiving [0x01; 0x00]) in
    transmitted (event_ops (mk_world sample_ctx [] []) w')
      = [[h; 3 + 4; 3; 0; 0x04; 0x00] ++ firstn (Z.to_nat 3) [0x0A; 0x03; 0x00]] /\
    tx_starts (event_ops (mk_world sample_ctx [] []) w') = 1%nat /\
    Z.land h 3 = 0x02 /\
    bit h 2 = Z.land (next_expected_seq_num (ctx (mk_world sample_ctx [] []))) 1 /\
    bit h 3 = Z.land (tx_seq_num (ctx (mk_world sample_ctx [] []))) 1.
Proof.
  apply (send_data_is_transmitted_in_next_event (mk_world sample_ctx [] [])
           (env_receiving [0x01; 0x00]) [0x0A; 0x03; 0x00] 3).
  - reflexivity.
  - reflexivity.
  - reflexivity.
  - lia.
  - cbn. lia.
Defined.

(** X14. [ble_send_empty_pdu] on a connected link replaces whatever PDU
    was queued: the next connection event transmits, in one transmission,
    the two bytes of an empty PDU (LLID 01, length 0) with NESN and SN of
    the context, also when a data PDU was pending before the call. *)
Theorem send_empty_pdu_replaces_pending_pdu (w : ll_world) (env : radio_env)
  (Hst : conn_state (ctx w) = CONN_STATE_CONNECTED) :
  exists c1 h,
    ble_send_empty_pdu (ctx w) = (BLE_STATUS_OK, c1) /\
    tx_pending c1 = true /\ tx_length c1 = 2 /\
    let w' := ll_handle_connection_event (with_ctx w c1) env in
    transmitted (event_ops w w') = [[h; 0]] /\
    tx_starts (event_ops w w') = 1%nat /\
    Z.land h 3 = 0x01 /\
    bit h 2 = Z.land (next_expected_seq_num (ctx w)) 1 /\
    bit h 3 = Z.land (tx_seq_num (ctx w)) 1.
Proof.
  unfold ble_send_empty_pdu. rewrite Hst. cbn [conn_state_eqb negb].
  set (c1 := set_tx_pending _ true).
  set (h := set_bits (set_bits (set_bits 1 2 1 (next_expected_seq_num (ctx w))) 3 1
                        (tx_seq_num (ctx w))) 4 1 (if more_data (ctx w) then 1 else 0)).
  exists c1, h. split; [reflexivity | split; [reflexivity | split; [reflexivity |]]].
  assert (tx_pending (ctx (with_ctx w c1)) = true) as Hp1 by reflexivity.
  pose proof (transmitted_pending_event (with_ctx w c1) env Hp1) as [Ht Hn].
  assert (stamp_tx_header (ctx (with_ctx w c1))
          = h :: 0 :: skipn 1 (skipn 1 (tx_buffer (ctx w)))) as Hs
    by exact (stamp_tx_header_pending (ctx (with_ctx w c1)) 1
                (0 :: skipn 1 (skipn 1 (tx_buffer (ctx w)))) Hp1 eq_refl).
  rewrite Hs in Ht.
  assert (event_ops w (ll_handle_connection_event (with_ctx w c1) env)
          = event_ops (with_ctx w c1) (ll_handle_connection_event (with_ctx w c1) env)) as Hev
    by reflexivity.
  cbv zeta. rewrite Hev, Ht, Hn.
  split; [reflexivity | split; [reflexivity |]].
  pose proof (stamped_header_bits 1 (next_expected_seq_num (ctx w)) (tx_seq_num (ctx w))
                (if more_data (ctx w) then 1 else 0) ltac:(lia)) as Hb.
  cbv zeta in Hb. fold h in Hb.
  destruct Hb as [B2 [B3 [_ B0]]].
  split; [exact B0 | split; [exact B2 | exact B3]].
Qed.

Lemma send_empty_pdu_replaces_pending_pdu_witness :
  exists c1 h,
    ble_send_empty_pdu
      (ctx (mk_world (set_tx_pending
                        (set_tx_buffer sample_ctx
                           (store_bytes 0 [0x02; 0x07; 0x03; 0x00; 0x04; 0x00; 0x0A; 0x03; 0x00]
                              (repeat 0 255))) true) [] []))
      = (BLE_STATUS_OK, c1) /\
    tx_pending c1 = true /\ tx_length c1 = 2 /\
    let w := mk_world (set_tx_pending
                         (set_tx_buffer sample_ctx
                            (store_bytes 0 [0x02; 0x07; 0x03; 0x00; 0x04; 0x00; 0x0A; 0x03; 0x00]
                               (repeat 0 255))) true) [] [] in
    let w' := ll_handle_connection_event (with_ctx w c1) env_silent in
    transmitted (event_ops w w') = [[h; 0]] /\
    tx_starts (event_ops w w') = 1%nat /\
    Z.land h 3 = 0x01 /\
    bit h 2 = Z.land (next_expected_seq_num (ctx w)) 1 /\
    bit h 3 = Z.land (tx_seq_num (ctx w)) 1.
Proof.
  apply (send_empty_pdu_replaces_pending_pdu
           (mk_world (set_tx_pending
                        (set_tx_buffer sample_ctx
                           (store_bytes 0 [0x02; 0x07; 0x03; 0x00; 0x04; 0x00; 0x0A; 0x03; 0x00]
                              (repeat 0 255))) true) [] [])
           env_silent).
  reflexivity.
Defined.


(** ** L2CAP frames *)

(** X15. [ll_send_l2cap_frame] on a connected link with nothing pending
    writes past the end of the 255-byte [tx_buffer] exactly when the
    frame's length field is above 249, although the payload array of a
    frame holds 251 bytes.  For a frame on the ATT channel with a length of
    1 to 251 it does what [ble_ll_send_data] does with the same payload;
    unlike that function it also accepts an empty frame, for which it
    queues the six header bytes. *)
Theorem send_l2cap_frame_overflows_above_249 (c : ble_conn_context_t)
  (frame : l2cap_frame_t)
  (Hst : conn_state c = CONN_STATE_CONNECTED)
  (Hp : tx_pending c = false)
  (Hbuf : length (tx_buffer c) = 255%nat)
  (Hpay : length (frame_payload frame) = 251%nat)
  (Hlen : 0 <= frame_length frame < 65536) :
  (ll_send_l2cap_frame c frame = None <-> 249 < frame_length frame) /\
  (frame_cid frame = L2CAP_CID_ATT -> 1 <= frame_length frame <= 251 ->
   ll_send_l2cap_frame c frame
     = ble_ll_send_data c (Some (frame_payload frame)) (frame_length frame)) /\
  (frame_length frame = 0 ->
   exists c', ll_send_l2cap_frame c frame = Some (BLE_STATUS_OK, c') /\
              tx_length c' = 6 /\ tx_pending c' = true).
Proof.
  split; [| split].
  - unfold ll_send_l2cap_frame. rewrite Hst, Hp. cbn [conn_state_eqb negb].
    rewrite (store_bytes_checked_some 0) by (rewrite Hbuf; cbn [length]; lia).
    assert (length (firstn (Z.to_nat (frame_length frame)) (frame_payload frame))
            = Nat.min (Z.to_nat (frame_length frame)) 251) as Hf
      by (rewrite length_firstn, Hpay; reflexivity).
    split.
    + intros E.
      destruct (Z.le_gt_cases (frame_length frame) 249) as [Hle | Hgt]; [| lia].
      rewrite (store_bytes_checked_some 6) in E; [discriminate E |].
      rewrite length_store_bytes by (rewrite Hbuf; cbn [length]; lia).
      rewrite Hf, Hbuf. lia.
    + intros Hgt.
      rewrite (store_bytes_checked_none 6); [reflexivity |].
      rewrite length_store_bytes by (rewrite Hbuf; cbn [length]; lia).
      rewrite Hf, Hbuf. lia.
  - intros Hcid Hl.
    unfold ll_send_l2cap_frame, ble_ll_send_data.
    assert ((frame_length frame =? 0) || (frame_length frame >? 251) = false) as Hg.
    { apply orb_false_iff. split; [apply Z.eqb_neq; lia |].
      destruct (Z.gtb_spec (frame_length frame) 251); [lia | reflexivity]. }
    rewrite Hg, Hcid. reflexivity.
  - intros H0.
    unfold ll_send_l2cap_frame. rewrite Hst, Hp, H0. cbn [conn_state_eqb negb].
    rewrite (store_bytes_checked_some 0) by (rewrite Hbuf; cbn [length]; lia).
    change (firstn (Z.to_nat 0) (frame_payload frame)) with (@nil Z).
    rewrite (store_bytes_checked_some 6)
      by (rewrite length_store_bytes by (rewrite Hbuf; cbn [length]; lia);
          rewrite Hbuf; cbn [length]; lia).
    eexists. split; [reflexivity | split; reflexivity].
Qed.

Lemma send_l2cap_frame_overflows_above_249_witness :
  (ll_send_l2cap_frame sample_ctx (mk_l2cap_frame 250 4 (repeat 0x41 251)) = None
   <-> 249 < frame_length (mk_l2cap_frame 250 4 (repeat 0x41 251))) /\
  (frame_cid (mk_l2cap_frame 250 4 (repeat 0x41 251)) = L2CAP_CID_ATT ->
   1 <= frame_length (mk_l2cap_frame 250 4 (repeat 0x41 251)) <= 251 ->
   ll_send_l2cap_frame sample_ctx (mk_l2cap_frame 250 4 (repeat 0x41 251))
     = ble_ll_send_data sample_ctx
         (Some (frame_payload (mk_l2cap_frame 250 4 (repeat 0x41 251))))
         (frame_length (mk_l2cap_frame 250 4 (repeat 0x41 251)))) /\
  (frame_length (mk_l2cap_frame 250 4 (repeat 0x41 251)) = 0 ->
   exists c', ll_send_l2cap_frame sample_ctx (mk_l2cap_frame 250 4 (repeat 0x41 251))
                = Some (BLE_STATUS_OK, c') /\
              tx_length c' = 6 /\ tx_pending c' = true).
Proof.
  apply (send_l2cap_frame_overflows_above_249 sample_ctx
           (mk_l2cap_frame 250 4 (repeat 0x41 251))).
  - reflexivity.
  - reflexivity.
  - reflexivity.
  - reflexivity.
  - cbn. lia.
Defined.

(** ** Waiting for TX_DONE *)

Lemma tx_done_poll_silent (fuel : nat) :
  forall (timeout : Z) (k : nat) (irq : nat -> Z),
    0 <= timeout -> (Z.to_nat timeout < fuel)%nat ->
    (forall j, (j < Z.to_nat timeout)%nat ->
               nonzero (Z.land (irq (k + j)%nat) SX128X_IRQ_TX_DONE) = false) ->
    tx_done_poll fuel timeout k irq = 2 ^ 32 - 1.
Proof.
  induction fuel as [| fuel IH]; intros timeout k irq Ht Hf Hs; [lia |].
  cbn [tx_done_poll].
  destruct (Z.eqb_spec timeout 0) as [E | E].
  - subst timeout. reflexivity.
  - pose proof (Hs 0%nat ltac:(lia)) as H0. rewrite Nat.add_0_r in H0. rewrite H0.
    apply IH; [lia | lia |].
    intros j Hj. replace (S k + j)%nat with (k + S j)%nat by lia.
    apply Hs. lia.
Qed.

Lemma tx_done_poll_found (fuel : nat) :
  forall (timeout : Z) (k : nat) (irq : nat -> Z) (n : nat),
    (n < Z.to_nat timeout)%nat -> (n < fuel)%nat ->
    (forall j, (j < n)%nat ->
               nonzero (Z.land (irq (k + j)%nat) SX128X_IRQ_TX_DONE) = false) ->
    nonzero (Z.land (irq (k + n)%nat) SX128X_IRQ_TX_DONE) = true ->
    tx_done_poll fuel timeout k irq = timeout - 1 - Z.of_nat n.
Proof.
  induction fuel as [| fuel IH]; intros timeout k irq n Hn Hf Hs Hd; [lia |].
  cbn [tx_done_poll].
  destruct (Z.eqb_spec timeout 0) as [E | E]; [lia |].
  destruct n as [| n].
  - rewrite Nat.add_0_r in Hd. rewrite Hd. lia.
  - pose proof (Hs 0%nat ltac:(lia)) as H0. rewrite Nat.add_0_r in H0. rewrite H0.
    rewrite (IH (timeout - 1) (S k) irq n); [lia | lia | lia | |].
    + intros j Hj. replace (S k + j)%nat with (k + S j)%nat by lia. apply Hs. lia.
    + replace (S k + n)%nat with (k + S n)%nat by lia. exact Hd.
Qed.

Lemma first_tx_done (irq : nat -> Z) (N : nat) :
  (forall j, (j < N)%nat -> nonzero (Z.land (irq j) SX128X_IRQ_TX_DONE) = false) \/
  (exists n, (n < N)%nat /\
     (forall j, (j < n)%nat -> nonzero (Z.land (irq j) SX128X_IRQ_TX_DONE) = false) /\
     nonzero (Z.land (irq n) SX128X_IRQ_TX_DONE) = true).
Proof.
  induction N as [| N IH].
  - left. intros j Hj. lia.
  - destruct IH as [Hnone | [n [Hn [Hb Hd]]]].
    + destruct (nonzero (Z.land (irq N) SX128X_IRQ_TX_DONE)) eqn:E.
      * right. exists N. split; [lia | split; [exact Hnone | exact E]].
      * left. intros j Hj. destruct (Nat.eq_dec j N) as [-> | Hne]; [exact E |].
        apply Hnone. lia.
    + right. exists n. split; [lia | split; [exact Hb | exact Hd]].
Qed.

Lemma tx_done_poll_1000 (irq : nat -> Z) :
  (tx_done_poll 1001 1000 0 irq = 0 <->
   (forall j, (j < 999)%nat -> nonzero (Z.land (irq j) SX128X_IRQ_TX_DONE) = false) /\
   nonzero (Z.land (irq 999%nat) SX128X_IRQ_TX_DONE) = true) /\
  ((forall j, (j < 1000)%nat -> nonzero (Z.land (irq j) SX128X_IRQ_TX_DONE) = false) ->
   tx_done_poll 1001 1000 0 irq = 2 ^ 32 - 1).
Proof.
  assert (forall n, (n < 1000)%nat ->
            (forall j, (j < n)%nat -> nonzero (Z.land (irq j) SX128X_IRQ_TX_DONE) = false) ->
            nonzero (Z.land (irq n) SX128X_IRQ_TX_DONE) = true ->
            tx_done_poll 1001 1000 0 irq = 999 - Z.of_nat n) as Hfound.
  { intros n Hn Hb Hd.
    rewrite (tx_done_poll_found 1001 1000 0 irq n); [lia | lia | lia | exact Hb | exact Hd]. }
  assert ((forall j, (j < 1000)%nat -> nonzero (Z.land (irq j) SX128X_IRQ_TX_DONE) = false) ->
          tx_done_poll 1001 1000 0 irq = 2 ^ 32 - 1) as Hnone.
  { intros Hs. apply tx_done_poll_silent; [lia | lia |].
    intros j Hj. apply Hs. lia. }
  split; [| exact Hnone].
  split.
  - intros E.
    destruct (first_tx_done irq 1000) as [Hs | [n [Hn [Hb Hd]]]].
    + rewrite (Hnone Hs) in E. discriminate E.
    + rewrite (Hfound n Hn Hb Hd) in E.
      assert (n = 999%nat) as -> by lia.
      split; [exact Hb | exact Hd].
  - intros [Hb Hd]. rewrite (Hfound 999%nat ltac:(lia) Hb Hd). reflexivity.
Qed.

(** X16. [ll_send_pdu] reports a timeout in one case only: TX_DONE first
    shows at the last of the 1000 polls.  When the radio never raises
    TX_DONE during the 1000 polls the post-decrement of the loop wraps the
    counter, and the function clears the interrupt and returns OK as if the
    PDU had been sent.  In every case the PDU has been written and the
    transmission started. *)
Theorem send_pdu_timeout_only_at_last_poll (w : ll_world) (pdu : list Z) (len : Z)
  (irq : nat -> Z) :
  (fst (ll_send_pdu w pdu len irq) = BLE_STATUS_TIMEOUT <->
   (forall j, (j < 999)%nat -> nonzero (Z.land (irq j) SX128X_IRQ_TX_DONE) = false) /\
   nonzero (Z.land (irq 999%nat) SX128X_IRQ_TX_DONE) = true) /\
  (fst (ll_send_pdu w pdu len irq) <> BLE_STATUS_TIMEOUT ->
   fst (ll_send_pdu w pdu len irq) = BLE_STATUS_OK) /\
  ((forall j, (j < 1000)%nat -> nonzero (Z.land (irq j) SX128X_IRQ_TX_DONE) = false) ->
   ll_send_pdu w pdu len irq
     = (BLE_STATUS_OK,
        radio_do w [ sx128x_set_standby SX128X_STANDBY_RC;
                     sx128x_set_buffer_base_address 0x00 0x80;
                     sx128x_write_buffer 0x00 (firstn (Z.to_nat len) pdu) len;
                     sx128x_set_tx;
                     sx128x_clear_irq_status SX128X_IRQ_TX_DONE ])) /\
  transmitted (event_ops w (snd (ll_send_pdu w pdu len irq)))
    = [firstn (Z.to_nat len) pdu].
Proof.
  destruct (tx_done_poll_1000 irq) as [Hiff Hnone].
  unfold ll_send_pdu.
  destruct (tx_done_poll 1001 1000 0 irq =? 0) eqn:E.
  - apply Z.eqb_eq in E. cbn [fst snd].
    split; [split; [intros _; apply Hiff; exact E | reflexivity] |].
    split; [intros H; contradiction H; reflexivity |].
    split.
    + intros Hs. rewrite (Hnone Hs) in E. discriminate E.
    + rewrite (event_ops_app w
                 (radio_do w [ sx128x_set_standby SX128X_STANDBY_RC;
                               sx128x_set_buffer_base_address 0x00 0x80;
                               sx128x_write_buffer 0x00 (firstn (Z.to_nat len) pdu) len;
                               sx128x_set_tx ])
                 [ sx128x_set_standby SX128X_STANDBY_RC;
                   sx128x_set_buffer_base_address 0x00 0x80;
                   sx128x_write_buffer 0x00 (firstn (Z.to_nat len) pdu) len;
                   sx128x_set_tx ] eq_refl).
      reflexivity.
  - apply Z.eqb_neq in E. cbn [fst snd].
    split; [split; [discriminate | intros H; apply Hiff in H; contradiction] |].
    split; [reflexivity |].
    split.
    + intros _. unfold radio_do. cbn [ctx radio calls]. rewrite <- app_assoc. reflexivity.
    + assert (radio (radio_do (radio_do w
                [ sx128x_set_standby SX128X_STANDBY_RC;
                  sx128x_set_buffer_base_address 0x00 0x80;
                  sx128x_write_buffer 0x00 (firstn (Z.to_nat len) pdu) len;
                  sx128x_set_tx ]) [sx128x_clear_irq_status SX128X_IRQ_TX_DONE])
              = radio w ++ [ sx128x_set_standby SX128X_STANDBY_RC;
                             sx128x_set_buffer_base_address 0x00 0x80;
                             sx128x_write_buffer 0x00 (firstn (Z.to_nat len) pdu) len;
                             sx128x_set_tx;
                             sx128x_clear_irq_status SX128X_IRQ_TX_DONE ]) as Hr
        by (unfold radio_do; cbn [ctx radio calls]; rewrite <- app_assoc; reflexivity).
      rewrite (event_ops_app w _ _ Hr). reflexivity.
Qed.


(** ** More on the connection event *)

Lemma rx_event_unfold (w : ll_world) (env : radio_env) (status : Z) :
  find rx_done (rx_irq env) = Some status ->
  ll_handle_connection_event w env
    = if snd (rx_dispatch (rx_receive (event_tx_phase w env) env))
      then fst (rx_dispatch (rx_receive (event_tx_phase w env) env))
      else event_epilogue
             (rx_acknowledge (fst (rx_dispatch (rx_receive (event_tx_phase w env) env))))
             true.
Proof.
  intros H. unfold ll_handle_connection_event. rewrite H.
  destruct (rx_dispatch (rx_receive (event_tx_phase w env) env)) as [w2 returned].
  reflexivity.
Qed.

(** The fields the first half of the event and the reception leave alone. *)
Lemma rx_receive_kept (w : ll_world) (env : radio_env) :
  let W := rx_receive (event_tx_phase w env) env in
  calls W = calls w /\
  on_data_received (ctx W) = on_data_received (ctx w) /\
  on_disconnected (ctx W) = on_disconnected (ctx w) /\
  event_counter (ctx W) = event_counter (ctx w) /\
  anchor_point (ctx W) = anchor_point (ctx w) /\
  conn_interval (ctx W) = conn_interval (ctx w) /\
  conn_state (ctx W) = conn_state (ctx w) /\
  next_expected_seq_num (ctx W) = next_expected_seq_num (ctx w) /\
  tx_seq_num (ctx W) = tx_seq_num (ctx w) /\
  tx_pending (ctx W) = tx_pending (ctx w) /\
  tx_length (ctx W) = tx_length (ctx w) /\
  rx_buffer (ctx W) = received_pdu w env /\
  consecutive_crc_errors (ctx W) = 0.
Proof.
  cbv zeta. unfold rx_receive, received_pdu.
  cbn [with_ctx ctx calls].
  rewrite (event_tx_phase_calls w env).
  pose proof (event_tx_phase_ctx w env) as Hc. cbv zeta in Hc. rewrite Hc.
  destruct (tx_pending (ctx w) || (event_counter (ctx w) =? 0)); fields_done.
Qed.

Lemma event_epilogue_received (w : ll_world) :
  consecutive_crc_errors (ctx w) = 0 ->
  event_epilogue w true
    = with_ctx w
        (set_anchor_point
           (set_event_counter (ctx w) (u32 (event_counter (ctx w) + 1)))
           (u64 (anchor_point (ctx w) + conn_interval (ctx w)))).
Proof.
  intros H. unfold event_epilogue.
  cbn [consecutive_crc_errors set_anchor_point set_event_counter].
  rewrite H. reflexivity.
Qed.

Lemma rx_acknowledge_kept (w : ll_world) :
  calls (rx_acknowledge w) = calls w /\
  radio (rx_acknowledge w) = radio w /\
  consecutive_crc_errors (ctx (rx_acknowledge w)) = consecutive_crc_errors (ctx w) /\
  event_counter (ctx (rx_acknowledge w)) = event_counter (ctx w) /\
  anchor_point (ctx (rx_acknowledge w)) = anchor_point (ctx w) /\
  conn_interval (ctx (rx_acknowledge w)) = conn_interval (ctx w) /\
  conn_state (ctx (rx_acknowledge w)) = conn_state (ctx w) /\
  next_expected_seq_num (ctx (rx_acknowledge w)) = next_expected_seq_num (ctx w) /\
  tx_buffer (ctx (rx_acknowledge w)) = tx_buffer (ctx w) /\
  tx_length (ctx (rx_acknowledge w)) = tx_length (ctx w) /\
  tx_seq_num (ctx (rx_acknowledge w))
    = (if pdu_nesn (rx_buffer (ctx w)) =? tx_seq_num (ctx w)
       then tx_seq_num (ctx w) else Z.lxor (tx_seq_num (ctx w)) 1) /\
  tx_pending (ctx (rx_acknowledge w))
    = (if pdu_nesn (rx_buffer (ctx w)) =? tx_seq_num (ctx w)
       then tx_pending (ctx w) else false).
Proof.
  unfold rx_acknowledge. cbn [with_ctx ctx calls radio].
  destruct (pdu_nesn (rx_buffer (ctx w)) =? tx_seq_num (ctx w)); fields_done.
Qed.

(** The event after a reception that does not end the connection. *)
Lemma rx_event_continues (w : ll_world) (env : radio_env) (status : Z) :
  find rx_done (rx_irq env) = Some status ->
  snd (rx_dispatch (rx_receive (event_tx_phase w env) env)) = false ->
  consecutive_crc_errors
    (ctx (fst (rx_dispatch (rx_receive (event_tx_phase w env) env)))) = 0 ->
  let D := fst (rx_dispatch (rx_receive (event_tx_phase w env) env)) in
  let A := rx_acknowledge D in
  ll_handle_connection_event w env
    = with_ctx A
        (set_anchor_point
           (set_event_counter (ctx A) (u32 (event_counter (ctx A) + 1)))
           (u64 (anchor_point (ctx A) + conn_interval (ctx A)))).
Proof.
  intros Hf Hs Hc. cbv zeta.
  rewrite (rx_event_unfold w env status Hf), Hs.
  apply event_epilogue_received.
  destruct (rx_acknowledge_kept
              (fst (rx_dispatch (rx_receive (event_tx_phase w env) env))))
    as [_ [_ [E _]]].
  rewrite E. exact Hc.
Qed.

Lemma rx_dispatch_duplicate (W : ll_world) :
  (pdu_sn (rx_buffer (ctx W)) =? next_expected_seq_num (ctx W)) = false ->
  rx_dispatch W = (W, false).
Proof. intros H. unfold rx_dispatch. rewrite H. reflexivity. Qed.


(** X17. A received PDU whose SN is not the expected one is a
    retransmission and is not delivered again: no callback is invoked, the
    expected sequence number and the connection state stay as they are and
    nothing is queued; its NESN still acknowledges, and the event is
    counted. *)
Theorem duplicate_pdu_is_not_delivered (w : ll_world) (env : radio_env) (status : Z)
  (Hrx : find rx_done (rx_irq env) = Some status)
  (Hdup : pdu_sn (received_pdu w env) <> next_expected_seq_num (ctx w)) :
  let c := ctx w in
  let w' := ll_handle_connection_event w env in
  calls w' = calls w /\
  next_expected_seq_num (ctx w') = next_expected_seq_num c /\
  conn_state (ctx w') = conn_state c /\
  tx_length (ctx w') = tx_length c /\
  tx_seq_num (ctx w')
    = (if pdu_nesn (received_pdu w env) =? tx_seq_num c
       then tx_seq_num c else Z.lxor (tx_seq_num c) 1) /\
  tx_pending (ctx w')
    = (if pdu_nesn (received_pdu w env) =? tx_seq_num c then tx_pending c else false) /\
  event_counter (ctx w') = u32 (event_counter c + 1).
Proof.
  cbv zeta.
  pose proof (rx_receive_kept w env) as K. cbv zeta in K.
  pose proof (rx_event_continues w env status Hrx) as Hev. cbv zeta in Hev.
  revert K Hev Hdup.
  generalize (received_pdu w env).
  generalize (ll_handle_connection_event w env).
  generalize (rx_receive (event_tx_phase w env) env).
  intros W w' rx K Hev Hdup.
  destruct K as [Kc [Kd [Kx [Ke [Ka [Ki [Ks [Kn [Kt [Kp [Kl [Kb Kz]]]]]]]]]]]].
  assert (rx_dispatch W = (W, false)) as Hd.
  { apply rx_dispatch_duplicate. rewrite Kb, Kn. apply Z.eqb_neq. exact Hdup. }
  rewrite Hd in Hev. cbn [fst snd] in Hev.
  rewrite (Hev eq_refl Kz).
  destruct (rx_acknowledge_kept W)
    as [Ac [_ [_ [Ae [_ [_ [As [An [_ [Al [At Ap]]]]]]]]]]].
  revert Ac Ae As An Al At Ap.
  generalize (rx_acknowledge W). intros A Ac Ae As An Al At Ap.
  cbn [with_ctx ctx calls next_expected_seq_num conn_state tx_length tx_seq_num
       tx_pending event_counter set_anchor_point set_event_counter].
  rewrite Ac, An, As, Al, At, Ap, Ae, Kc, Kn, Ks, Kl, Kt, Kp, Ke, Kb.
  repeat split; reflexivity.
Qed.

Lemma duplicate_pdu_is_not_delivered_witness :
  let w := mk_world sample_ctx [] [] in
  let env := env_receiving [0x0A; 0x05; 0x01; 0x00; 0x04; 0x00; 0x1B] in
  let c := ctx w in
  let w' := ll_handle_connection_event w env in
  calls w' = calls w /\
  next_expected_seq_num (ctx w') = next_expected_seq_num c /\
  conn_state (ctx w') = conn_state c /\
  tx_length (ctx w') = tx_length c /\
  tx_seq_num (ctx w')
    = (if pdu_nesn (received_pdu w env) =? tx_seq_num c
       then tx_seq_num c else Z.lxor (tx_seq_num c) 1) /\
  tx_pending (ctx w')
    = (if pdu_nesn (received_pdu w env) =? tx_seq_num c then tx_pending c else false) /\
  event_counter (ctx w') = u32 (event_counter c + 1).
Proof.
  apply (duplicate_pdu_is_not_delivered (mk_world sample_ctx [] [])
           (env_receiving [0x0A; 0x05; 0x01; 0x00; 0x04; 0x00; 0x1B])
           SX128X_IRQ_RX_DONE).
  - reflexivity.
  - vm_compute. discriminate.
Defined.




Lemma new_control_pdu_true (c : ble_conn_context_t) (rx : list Z) (opcode : Z) :
  new_control_pdu c rx opcode = true ->
  (pdu_sn rx =? next_expected_seq_num c) = true /\
  (pdu_length rx >? 0) = true /\
  (pdu_llid rx =? 0x03) = true /\
  pdu_payload rx 0 = opcode.
Proof.
  unfold new_control_pdu. intros H.
  apply andb_true_iff in H. destruct H as [H H4].
  apply andb_true_iff in H. destruct H as [H H3].
  apply andb_true_iff in H. destruct H as [H1 H2].
  apply Z.eqb_eq in H4. tauto.
Qed.

Lemma rx_dispatch_feature_req (W : ll_world) :
  new_control_pdu (ctx W) (rx_buffer (ctx W)) LL_FEATURE_REQ = true ->
  rx_dispatch W
    = (with_ctx W
         (set_tx_pending
            (set_tx_length
               (set_tx_buffer
                  (set_next_expected_seq_num (ctx W)
                     (Z.lxor (next_expected_seq_num (ctx W)) 1))
                  (store_bytes 0 [0x03; 9; LL_FEATURE_RSP; 0; 0; 0; 0; 0; 0; 0; 0]
                     (tx_buffer (ctx W))))
               11)
            true),
       false).
Proof.
  intros H. apply new_control_pdu_true in H. destruct H as [H1 [H2 [H3 H4]]].
  unfold rx_dispatch. rewrite H1, H2, H3, H4.
  assert ((pdu_llid (rx_buffer (ctx W)) =? 2) = false) as H5.
  { apply Z.eqb_eq in H3. rewrite H3. reflexivity. }
  rewrite H5. reflexivity.
Qed.

Lemma feature_req_event_state (w : ll_world) (env : radio_env) (status : Z) :
  find rx_done (rx_irq env) = Some status ->
  new_control_pdu (ctx w) (received_pdu w env) LL_FEATURE_REQ = true ->
  exists tail,
    calls (ll_handle_connection_event w env) = calls w /\
    tx_buffer (ctx (ll_handle_connection_event w env))
      = 0x03 :: [9; LL_FEATURE_RSP; 0; 0; 0; 0; 0; 0; 0; 0] ++ tail /\
    tx_length (ctx (ll_handle_connection_event w env)) = 11 /\
    tx_pending (ctx (ll_handle_connection_event w env))
      = (pdu_nesn (received_pdu w env) =? tx_seq_num (ctx w)) /\
    tx_seq_num (ctx (ll_handle_connection_event w env))
      = (if pdu_nesn (received_pdu w env) =? tx_seq_num (ctx w)
         then tx_seq_num (ctx w) else Z.lxor (tx_seq_num (ctx w)) 1).
Proof.
  intros Hrx Hreq.
  pose proof (rx_receive_kept w env) as K. cbv zeta in K.
  pose proof (rx_event_continues w env status Hrx) as Hev. cbv zeta in Hev.
  revert K Hev Hreq.
  generalize (received_pdu w env).
  generalize (ll_handle_connection_event w env).
  generalize (rx_receive (event_tx_phase w env) env).
  intros W w' rx K Hev Hreq.
  destruct K as [Kc [Kd [Kx [Ke [Ka [Ki [Ks [Kn [Kt [Kp [Kl [Kb Kz]]]]]]]]]]]].
  assert (new_control_pdu (ctx W) (rx_buffer (ctx W)) LL_FEATURE_REQ = true) as HW.
  { unfold new_control_pdu in *. rewrite Kb, Kn. exact Hreq. }
  pose proof (rx_dispatch_feature_req W HW) as Hd.
  rewrite Hd in Hev. cbn [fst snd] in Hev.
  specialize (Hev eq_refl Kz).
  rewrite Hev.
  match goal with
  | |- context [rx_acknowledge ?D] =>
      destruct (rx_acknowledge_kept D)
        as [Ac [_ [_ [_ [_ [_ [_ [_ [Ab [Al [At Ap]]]]]]]]]]];
      revert Ac Ab Al At Ap; generalize (rx_acknowledge D)
  end.
  intros A Ac Ab Al At Ap.
  exists (skipn 11 (tx_buffer (ctx W))).
  cbn [with_ctx ctx calls tx_buffer tx_length tx_pending tx_seq_num
       set_anchor_point set_event_counter].
  cbn [with_ctx ctx calls rx_buffer tx_buffer tx_length tx_seq_num tx_pending
       set_tx_pending set_tx_length set_tx_buffer set_next_expected_seq_num]
    in Ac, Ab, Al, At, Ap.
  rewrite Ac, Ab, Al, At, Ap, Kb, Kt.
  split; [exact Kc | split; [reflexivity | split; [reflexivity | split; [| reflexivity]]]].
  destruct (pdu_nesn rx =? tx_seq_num (ctx w)); reflexivity.
Qed.

Lemma feature_rsp_on_air (w1 : ll_world) (env2 : radio_env) (tail : list Z) :
  tx_pending (ctx w1) = true ->
  tx_buffer (ctx w1) = 0x03 :: [9; LL_FEATURE_RSP; 0; 0; 0; 0; 0; 0; 0; 0] ++ tail ->
  exists h,
    transmitted (event_ops w1 (ll_handle_connection_event w1 env2))
      = [[h; 9; LL_FEATURE_RSP; 0; 0; 0; 0; 0; 0; 0; 0]] /\
    Z.land h 3 = 0x03 /\
    bit h 3 = Z.land (tx_seq_num (ctx w1)) 1.
Proof.
  intros Hpend Hbuf.
  pose proof (transmitted_pending_event w1 env2 Hpend) as [Ht _].
  rewrite (stamp_tx_header_pending (ctx w1) 3 _ Hpend Hbuf) in Ht.
  exists (set_bits (set_bits (set_bits 3 2 1 (next_expected_seq_num (ctx w1))) 3 1
                      (tx_seq_num (ctx w1))) 4 1 (if more_data (ctx w1) then 1 else 0)).
  split; [rewrite Ht; reflexivity |].
  pose proof (stamped_header_bits 3 (next_expected_seq_num (ctx w1)) (tx_seq_num (ctx w1))
                (if more_data (ctx w1) then 1 else 0) ltac:(lia)) as Hb.
  cbv zeta in Hb. destruct Hb as [_ [B3 [_ B0]]].
  split; [exact B0 | exact B3].
Qed.

(** X19. A new LL_FEATURE_REQ is answered with an LL_FEATURE_RSP without
    features: the event leaves the eleven bytes 03 09 09 00 .. 00 at the
    start of [tx_buffer] with [tx_length] 11 and invokes no callback.  The
    answer stays pending only when the request carries NESN equal to the
    Master's SN; then the next event transmits it, nine payload bytes after
    a header with LLID 11.  When the same PDU acknowledges the Master's
    last PDU the pending flag is cleared after the answer has been
    queued. *)
Theorem feature_req_is_answered (w : ll_world) (env env2 : radio_env) (status : Z)
  (Hrx : find rx_done (rx_irq env) = Some status)
  (Hreq : new_control_pdu (ctx w) (received_pdu w env) LL_FEATURE_REQ = true) :
  let rx := received_pdu w env in
  let w' := ll_handle_connection_event w env in
  calls w' = calls w /\
  firstn 11 (tx_buffer (ctx w')) = [0x03; 9; LL_FEATURE_RSP; 0; 0; 0; 0; 0; 0; 0; 0] /\
  tx_length (ctx w') = 11 /\
  tx_pending (ctx w') = (pdu_nesn rx =? tx_seq_num (ctx w)) /\
  (pdu_nesn rx = tx_seq_num (ctx w) ->
   exists h,
     transmitted (event_ops w' (ll_handle_connection_event w' env2))
       = [[h; 9; LL_FEATURE_RSP; 0; 0; 0; 0; 0; 0; 0; 0]] /\
     Z.land h 3 = 0x03 /\
     bit h 3 = Z.land (tx_seq_num (ctx w)) 1).
Proof.
  cbv zeta.
  destruct (feature_req_event_state w env status Hrx Hreq)
    as [tail [Hc [Hbuf [Hl [Hpend Hseq]]]]].
  generalize dependent (ll_handle_connection_event w env). intros w' Hc Hbuf Hl Hpend Hseq.
  split; [exact Hc |].
  split; [rewrite Hbuf; reflexivity |].
  split; [exact Hl |].
  split; [exact Hpend |].
  intros Hnesn.
  assert ((pdu_nesn (received_pdu w env) =? tx_seq_num (ctx w)) = true) as Hn
    by (apply Z.eqb_eq; exact Hnesn).
  rewrite Hn in Hpend, Hseq.
  destruct (feature_rsp_on_air w' env2 tail Hpend Hbuf) as [h [Ht [H0 H3]]].
  exists h. split; [exact Ht | split; [exact H0 | rewrite H3, Hseq; reflexivity]].
Qed.

Lemma feature_req_is_answered_witness :
  let w := mk_world sample_ctx [] [] in
  let env := env_receiving [0x03; 0x09; LL_FEATURE_REQ; 0; 0; 0; 0; 0; 0; 0; 0] in
  let env2 := env_silent in
  let rx := received_pdu w env in
  let w' := ll_handle_connection_event w env in
  calls w' = calls w /\
  firstn 11 (tx_buffer (ctx w')) = [0x03; 9; LL_FEATURE_RSP; 0; 0; 0; 0; 0; 0; 0; 0] /\
  tx_length (ctx w') = 11 /\
  tx_pending (ctx w') = (pdu_nesn rx =? tx_seq_num (ctx w)) /\
  (pdu_nesn rx = tx_seq_num (ctx w) ->
   exists h,
     transmitted (event_ops w' (ll_handle_connection_event w' env2))
       = [[h; 9; LL_FEATURE_RSP; 0; 0; 0; 0; 0; 0; 0; 0]] /\
     Z.land h 3 = 0x03 /\
     bit h 3 = Z.land (tx_seq_num (ctx w)) 1).
Proof.
  apply (feature_req_is_answered (mk_world sample_ctx [] [])
           (env_receiving [0x03; 0x09; LL_FEATURE_REQ; 0; 0; 0; 0; 0; 0; 0; 0])
           env_silent SX128X_IRQ_RX_DONE).
  - reflexivity.
  - vm_compute. reflexivity.
Defined.

(** ** Sequence numbers, event counter and anchor point *)

Lemma lxor_1_bit (v : Z) : v = 0 \/ v = 1 -> Z.lxor v 1 = 0 \/ Z.lxor v 1 = 1.
Proof. intros [-> | ->]; [right | left]; reflexivity. Qed.

Lemma event_keeps_one_bit (w : ll_world) (env : radio_env) :
  (tx_seq_num (ctx w) = 0 \/ tx_seq_num (ctx w) = 1) ->
  (next_expected_seq_num (ctx w) = 0 \/ next_expected_seq_num (ctx w) = 1) ->
  (tx_seq_num (ctx (ll_handle_connection_event w env)) = 0
   \/ tx_seq_num (ctx (ll_handle_connection_event w env)) = 1) /\
  (next_expected_seq_num (ctx (ll_handle_connection_event w env)) = 0
   \/ next_expected_seq_num (ctx (ll_handle_connection_event w env)) = 1).
Proof.
  intros Ht Hn.
  destruct (find rx_done (rx_irq env)) as [status |] eqn:Hf.
  - pose proof (handle_connection_event_rx w env status Hf) as H. cbv zeta in H.
    destruct H as [Hne [_ [Hterm Hcont]]].
    split.
    + destruct (new_control_pdu (ctx w) (received_pdu w env) LL_TERMINATE_IND) eqn:E.
      * destruct (Hterm eq_refl) as [E1 _]. rewrite E1. exact Ht.
      * destruct (Hcont eq_refl) as [E1 _]. rewrite E1.
        destruct (pdu_nesn (received_pdu w env) =? tx_seq_num (ctx w));
          [exact Ht | apply lxor_1_bit; exact Ht].
    + rewrite Hne.
      destruct (pdu_sn (received_pdu w env) =? next_expected_seq_num (ctx w));
        [apply lxor_1_bit; exact Hn | exact Hn].
  - pose proof (handle_connection_event_timeout w env Hf) as H. cbv zeta in H.
    destruct H as [_ [E1 [E2 _]]]. rewrite E1, E2. tauto.
Qed.

(** X20. The two sequence numbers of a link stay single bits: if
    [tx_seq_num] and [next_expected_seq_num] are 0 or 1, as [ble_ll_init]
    leaves them, they are 0 or 1 after any number of connection events,
    whatever is received, so that the SN and NESN bits on air are the
    numbers themselves. *)
Theorem sequence_numbers_stay_one_bit (envs : list radio_env) (w : ll_world)
  (Ht : tx_seq_num (ctx w) = 0 \/ tx_seq_num (ctx w) = 1)
  (Hn : next_expected_seq_num (ctx w) = 0 \/ next_expected_seq_num (ctx w) = 1) :
  let w' := handle_events w envs in
  (tx_seq_num (ctx w') = 0 \/ tx_seq_num (ctx w') = 1) /\
  (next_expected_seq_num (ctx w') = 0 \/ next_expected_seq_num (ctx w') = 1) /\
  pdu_sn (stamp_tx_header (ctx w')) = tx_seq_num (ctx w') /\
  pdu_nesn (stamp_tx_header (ctx w')) = next_expected_seq_num (ctx w').
Proof.
  cbv zeta. unfold handle_events.
  revert w Ht Hn.
  induction envs as [| env envs IH]; intros w Ht Hn.
  - cbn [fold_left].
    split; [exact Ht | split; [exact Hn |]].
    unfold stamp_tx_header, pdu_sn, pdu_nesn.
    set (buf := if tx_pending (ctx w) then _ else _).
    assert (nth 0 (store_byte 0
              (set_bits (set_bits (set_bits (nth 0 buf 0) 2 1 (next_expected_seq_num (ctx w)))
                           3 1 (tx_seq_num (ctx w)))
                 4 1 (if more_data (ctx w) then 1 else 0)) buf) 0
            = set_bits (set_bits (set_bits (Z.land (nth 0 buf 0) 255) 2 1
                                    (next_expected_seq_num (ctx w)))
                          3 1 (tx_seq_num (ctx w)))
                4 1 (if more_data (ctx w) then 1 else 0)) as Hb.
    { unfold store_byte, store_bytes. cbn [firstn app nth].
      unfold set_bits.
      apply Z.bits_inj'. intros i Hi.
      rewrite !Z.lor_spec, !Z.land_spec, !Z.lor_spec, !Z.land_spec,
              !Z.lor_spec, !Z.land_spec.
      destruct (Z.testbit (nth 0 buf 0) i) eqn:Eb; cbn [andb orb]; try reflexivity.
      change (Z.lxor 255 (Z.shiftl (Z.ones 1) 2)) with 251.
      change (Z.lxor 255 (Z.shiftl (Z.ones 1) 3)) with 247.
      change (Z.lxor 255 (Z.shiftl (Z.ones 1) 4)) with 239.
      destruct (Z.testbit 255 i) eqn:E255; cbn [andb orb]; [reflexivity |].
      assert (8 <= i) as Hi8.
      { destruct (Z.lt_ge_cases i 8) as [Hlt | Hge]; [| exact Hge].
        change 255 with (Z.ones 8) in E255.
        rewrite Z.ones_spec_low in E255 by lia. discriminate E255. }
      assert (Z.testbit 251 i = false) as E1
        by (change 251 with (Z.land 251 (Z.ones 8)); rewrite Z.land_spec,
              Z.ones_spec_high by lia; apply andb_false_r).
      assert (Z.testbit 247 i = false) as E2
        by (change 247 with (Z.land 247 (Z.ones 8)); rewrite Z.land_spec,
              Z.ones_spec_high by lia; apply andb_false_r).
      assert (Z.testbit 239 i = false) as E3
        by (change 239 with (Z.land 239 (Z.ones 8)); rewrite Z.land_spec,
              Z.ones_spec_high by lia; apply andb_false_r).
      rewrite E1, E2, E3. cbn [andb orb]. reflexivity. }
    rewrite Hb.
    pose proof (stamped_header_bits (Z.land (nth 0 buf 0) 255)
                  (next_expected_seq_num (ctx w)) (tx_seq_num (ctx w))
                  (if more_data (ctx w) then 1 else 0)
                  (land_255_range (nth 0 buf 0))) as Hh.
    cbv zeta in Hh. destruct Hh as [B2 [B3 _]].
    rewrite B2, B3.
    split; [destruct Ht as [-> | ->]; reflexivity | destruct Hn as [-> | ->]; reflexivity].
  - cbn [fold_left].
    destruct (event_keeps_one_bit w env Ht Hn) as [Ht' Hn'].
    exact (IH _ Ht' Hn').
Qed.


Lemma sequence_numbers_stay_one_bit_witness :
  let w' := handle_events (mk_world sample_ctx [] [])
              [env_silent; env_receiving [0x01; 0x00]] in
  (tx_seq_num (ctx w') = 0 \/ tx_seq_num (ctx w') = 1) /\
  (next_expected_seq_num (ctx w') = 0 \/ next_expected_seq_num (ctx w') = 1) /\
  pdu_sn (stamp_tx_header (ctx w')) = tx_seq_num (ctx w') /\
  pdu_nesn (stamp_tx_header (ctx w')) = next_expected_seq_num (ctx w').
Proof.
  apply (sequence_numbers_stay_one_bit [env_silent; env_receiving [0x01; 0x00]]
           (mk_world sample_ctx [] [])).
  - left. reflexivity.
  - left. reflexivity.
Defined.

Lemma event_tx_phase_kept (w : ll_world) (env : radio_env) :
  event_counter (ctx (event_tx_phase w env)) = event_counter (ctx w) /\
  anchor_point (ctx (event_tx_phase w env)) = anchor_point (ctx w) /\
  conn_interval (ctx (event_tx_phase w env)) = conn_interval (ctx w).
Proof.
  pose proof (event_tx_phase_ctx w env) as Hc. cbv zeta in Hc. rewrite Hc.
  destruct (tx_pending (ctx w) || (event_counter (ctx w) =? 0)); fields_done.
Qed.

Lemma rx_dispatch_kept (W : ll_world) :
  event_counter (ctx (fst (rx_dispatch W))) = event_counter (ctx W) /\
  anchor_point (ctx (fst (rx_dispatch W))) = anchor_point (ctx W) /\
  conn_interval (ctx (fst (rx_dispatch W))) = conn_interval (ctx W).
Proof.
  unfold rx_dispatch.
  repeat match goal with
         | |- context [if ?b then _ else _] => destruct b
         end;
    cbn [fst]; rewrite ?invoke_ctx; fields_done.
Qed.

Lemma event_epilogue_counters (w : ll_world) (ok : bool) :
  event_counter (ctx (event_epilogue w ok)) = u32 (event_counter (ctx w) + 1) /\
  anchor_point (ctx (event_epilogue w ok))
    = u64 (anchor_point (ctx w) + conn_interval (ctx w)) /\
  conn_interval (ctx (event_epilogue w ok)) = conn_interval (ctx w).
Proof.
  unfold event_epilogue.
  destruct ok;
    match goal with
    | |- context [if ?b then _ else _] => destruct b
    end;
    rewrite ?invoke_ctx; fields_done.
Qed.

(** X21. Every connection event that does not end on a new
    LL_TERMINATE_IND is counted and moves the anchor point by exactly the
    connection interval (modulo 2^32 and 2^64), whether a PDU was received
    or the RX window ran out, and whatever the time of the call; an event
    in which the peer terminates leaves both as they were.  The connection
    interval itself is never changed. *)
Theorem event_advances_counter_and_anchor (w : ll_world) (env : radio_env) :
  let terminated :=
    match find rx_done (rx_irq env) with
    | Some _ => new_control_pdu (ctx w) (received_pdu w env) LL_TERMINATE_IND
    | None => false
    end in
  let c' := ctx (ll_handle_connection_event w env) in
  conn_interval c' = conn_interval (ctx w) /\
  event_counter c'
    = (if terminated then event_counter (ctx w) else u32 (event_counter (ctx w) + 1)) /\
  anchor_point c'
    = (if terminated then anchor_point (ctx w)
       else u64 (anchor_point (ctx w) + conn_interval (ctx w))).
Proof.
  cbv zeta.
  destruct (find rx_done (rx_irq env)) as [status |] eqn:Hf.
  - rewrite (rx_event_unfold w env status Hf).
    pose proof (rx_receive_kept w env) as K. cbv zeta in K.
    revert K. generalize (received_pdu w env).
    generalize (rx_receive (event_tx_phase w env) env).
    intros W rx K.
    destruct K as [_ [_ [_ [Ke [Ka [Ki [_ [Kn [_ [_ [_ [Kb _]]]]]]]]]]]].
    pose proof (rx_dispatch_fields W) as F. cbv zeta in F. destruct F as [Fs _].
    pose proof (rx_dispatch_kept W) as [De [Da Di]].
    assert (new_control_pdu (ctx W) (rx_buffer (ctx W)) LL_TERMINATE_IND
            = new_control_pdu (ctx w) rx LL_TERMINATE_IND) as En
      by (unfold new_control_pdu; rewrite Kb, Kn; reflexivity).
    rewrite En in Fs. rewrite Fs.
    revert De Da Di. generalize (fst (rx_dispatch W)). intros D De Da Di.
    destruct (new_control_pdu (ctx w) rx LL_TERMINATE_IND).
    + rewrite De, Da, Di, Ke, Ka, Ki. repeat split; reflexivity.
    + pose proof (event_epilogue_counters (rx_acknowledge D) true) as [Ee [Ea Ei]].
      destruct (rx_acknowledge_kept D) as [_ [_ [_ [Ae [Aa [Ai _]]]]]].
      rewrite Ee, Ea, Ei, Ae, Aa, Ai, De, Da, Di, Ke, Ka, Ki.
      repeat split; reflexivity.
  - unfold ll_handle_connection_event. rewrite Hf.
    pose proof (event_epilogue_counters (event_tx_phase w env) false) as [Ee [Ea Ei]].
    destruct (event_tx_phase_kept w env) as [Ke [Ka Ki]].
    rewrite Ee, Ea, Ei, Ke, Ka, Ki.
    repeat split; reflexivity.
Qed.


(** ** Received ATT PDUs *)

Lemma att_is_response_opcode (opcode : Z) :
  att_is_response opcode = true ->
  (opcode =? ATT_ERROR_RSP) = false /\ (opcode =? ATT_EXCHANGE_MTU_RSP) = false.
Proof.
  unfold att_is_response. intros H.
  repeat (apply orb_true_iff in H; destruct H as [H | H]);
    apply Z.eqb_eq in H; subst opcode; split; reflexivity.
Qed.

(** X22. A response PDU (Read, Read Blob, Read By Type, Read By Group
    Type or Write Response) is copied into [response_buffer] whole: when
    it is longer than the 247 bytes of the buffer the copy runs past the
    end of the buffer, and only then; a response of at most 247 bytes is
    stored unchanged with its length and the received flag, and leaves the
    MTU and the link layer alone. *)
Theorem handle_rx_response_overflows_above_247 (g : gatt_client_context_t)
  (w : ll_world) (data : list Z) (len : Z)
  (Hop : att_is_response (nth 0 data 0) = true)
  (Hbuf : length (response_buffer g) = 247%nat)
  (Hlen : 0 < len)
  (Hdata : (Z.to_nat len <= length data)%nat) :
  (ble_gatt_handle_rx_data g w (Some data) len = None <-> 247 < len) /\
  (len <= 247 ->
   exists g',
     ble_gatt_handle_rx_data g w (Some data) len = Some (g', w) /\
     firstn (Z.to_nat len) (response_buffer g') = firstn (Z.to_nat len) data /\
     length (response_buffer g') = 247%nat /\
     response_length g' = len /\
     response_received g' = true /\
     mtu g' = mtu g).
Proof.
  destruct (att_is_response_opcode _ Hop) as [E1 E2].
  assert ((len =? 0) = false) as E0 by (apply Z.eqb_neq; lia).
  assert (length (firstn (Z.to_nat len) data) = Z.to_nat len) as Hf
    by (rewrite length_firstn; lia).
  unfold ble_gatt_handle_rx_data. rewrite E0, E1, E2, Hop.
  split.
  - split.
    + intros E.
      destruct (Z.le_gt_cases len 247) as [Hle | Hgt]; [| lia].
      rewrite store_bytes_checked_some in E by (rewrite Hf, Hbuf; lia).
      discriminate E.
    + intros Hgt.
      rewrite store_bytes_checked_none by (rewrite Hf, Hbuf; lia).
      reflexivity.
  - intros Hle.
    rewrite store_bytes_checked_some by (rewrite Hf, Hbuf; lia).
    eexists. split; [reflexivity |].
    cbn [response_buffer response_length response_received mtu
         set_response_buffer set_response_length set_response_received].
    split.
    { pose proof (store_bytes_payload 0 (firstn (Z.to_nat len) data) (response_buffer g)
                    ltac:(lia)) as Hp.
      cbn [skipn] in Hp. rewrite Hf in Hp. exact Hp. }
    split; [rewrite length_store_bytes by (rewrite Hf, Hbuf; lia); exact Hbuf |].
    repeat split; reflexivity.
Qed.

Lemma handle_rx_response_overflows_above_247_witness :
  (ble_gatt_handle_rx_data sample_gatt (mk_world sample_ctx [] [])
     (Some (ATT_READ_RSP :: repeat 0x41 250)) 251 = None <-> 247 < 251) /\
  (251 <= 247 ->
   exists g',
     ble_gatt_handle_rx_data sample_gatt (mk_world sample_ctx [] [])
       (Some (ATT_READ_RSP :: repeat 0x41 250)) 251
       = Some (g', mk_world sample_ctx [] []) /\
     firstn (Z.to_nat 251) (response_buffer g')
       = firstn (Z.to_nat 251) (ATT_READ_RSP :: repeat 0x41 250) /\
     length (response_buffer g') = 247%nat /\
     response_length g' = 251 /\
     response_received g' = true /\
     mtu g' = mtu sample_gatt).
Proof.
  apply (handle_rx_response_overflows_above_247 sample_gatt (mk_world sample_ctx [] [])
           (ATT_READ_RSP :: repeat 0x41 250) 251).
  - reflexivity.
  - reflexivity.
  - lia.
  - cbn. lia.
Defined.

(** X23. Of an Error Response only the opcode is kept: byte 0 of
    [response_buffer] becomes 01 and the length and the received flag are
    set, but the request opcode, the handle and the error code of the PDU
    are not copied, so every other byte of the buffer, the error code at
    offset 4 included, is what an earlier response left there. *)
Theorem error_response_keeps_only_the_opcode (g : gatt_client_context_t)
  (w : ll_world) (data : list Z) (len : Z)
  (Hop : nth 0 data 0 = ATT_ERROR_RSP)
  (Hlen : 0 < len)
  (Hbuf : (0 < length (response_buffer g))%nat) :
  exists g',
    ble_gatt_handle_rx_data g w (Some data) len = Some (g', w) /\
    nth 0 (response_buffer g') 0 = ATT_ERROR_RSP /\
    (forall i, (0 < i)%nat ->
               nth i (response_buffer g') 0 = nth i (response_buffer g) 0) /\
    length (response_buffer g') = length (response_buffer g) /\
    response_length g' = len /\
    response_received g' = true.
Proof.
  assert ((len =? 0) = false) as E0 by (apply Z.eqb_neq; lia).
  unfold ble_gatt_handle_rx_data. rewrite E0, Hop.
  change (ATT_ERROR_RSP =? ATT_ERROR_RSP) with true. cbv iota.
  eexists. split; [reflexivity |].
  cbn [response_buffer response_length response_received
       set_response_buffer set_response_length set_response_received].
  destruct (response_buffer g) as [| b0 rest]; [cbn in Hbuf; lia |].
  split; [reflexivity |].
  split; [intros i Hi; destruct i as [| i]; [lia | reflexivity] |].
  repeat split; reflexivity.
Qed.

Lemma error_response_keeps_only_the_opcode_witness :
  exists g',
    ble_gatt_handle_rx_data sample_gatt (mk_world sample_ctx [] [])
      (Some [ATT_ERROR_RSP; ATT_READ_REQ; 0x03; 0x00; 0x0A]) 5
      = Some (g', mk_world sample_ctx [] []) /\
    nth 0 (response_buffer g') 0 = ATT_ERROR_RSP /\
    (forall i, (0 < i)%nat ->
               nth i (response_buffer g') 0 = nth i (response_buffer sample_gatt) 0) /\
    length (response_buffer g') = length (response_buffer sample_gatt) /\
    response_length g' = 5 /\
    response_received g' = true.
Proof.
  apply (error_response_keeps_only_the_opcode sample_gatt (mk_world sample_ctx [] [])
           [ATT_ERROR_RSP; ATT_READ_REQ; 0x03; 0x00; 0x0A] 5).
  - reflexivity.
  - lia.
  - cbn. lia.
Defined.






(** ** ATT requests on their way out *)

(** X26. A Read Request for a 16-bit handle, sent on a connected link
    with nothing pending, goes on air in the next connection event as the
    nine bytes header, 07, 03 00, 04 00, 0A, handle low, handle high; the
    GATT context records the opcode and the handle as pending and clears
    the response flag and length. *)
Theorem read_request_on_air (g : gatt_client_context_t) (w : ll_world)
  (env : radio_env) (handle : Z)
  (Hst : conn_state (ctx w) = CONN_STATE_CONNECTED)
  (Hp : tx_pending (ctx w) = false)
  (Hbuf : length (tx_buffer (ctx w)) = 255%nat) :
  exists g' c1 h,
    gatt_send_att_request g (ctx w) (gatt_build_read_request handle)
      = Some (BLE_STATUS_OK, g', c1) /\
    pending_op g' = ATT_READ_REQ /\ pending_handle g' = handle /\
    response_received g' = false /\ response_length g' = 0 /\
    mtu g' = mtu g /\
    let w' := ll_handle_connection_event (with_ctx w c1) env in
    transmitted (event_ops w w')
      = [[h; 0x07; 0x03; 0x00; 0x04; 0x00; ATT_READ_REQ;
          Z.land handle 0xFF; Z.land (Z.shiftr handle 8) 0xFF]] /\
    tx_starts (event_ops w w') = 1%nat /\
    Z.land h 3 = 0x02.
Proof.
  destruct (send_data_on_air w env
              [ATT_READ_REQ; Z.land handle 0xFF; Z.land (Z.shiftr handle 8) 0xFF] 3
              Hst Hp Hbuf ltac:(lia) ltac:(cbn; lia))
    as [c1 [h [Es [Ht [Hn [H0 _]]]]]].
  unfold gatt_send_att_request, gatt_build_read_request, att_build_pdu.
  cbn [att_opcode att_first_handle]. rewrite Es.
  eexists. exists c1, h.
  split; [reflexivity |].
  cbn [pending_op pending_handle response_received response_length mtu
       set_pending_op set_pending_handle set_response_received set_response_length].
  do 5 (split; [reflexivity |]).
  cbv zeta in Ht. cbv zeta.
  split; [exact Ht | split; [exact Hn | exact H0]].
Qed.

Lemma read_request_on_air_witness :
  exists g' c1 h,
    gatt_send_att_request sample_gatt (ctx (mk_world sample_ctx [] []))
      (gatt_build_read_request 0x0003)
      = Some (BLE_STATUS_OK, g', c1) /\
    pending_op g' = ATT_READ_REQ /\ pending_handle g' = 0x0003 /\
    response_received g' = false /\ response_length g' = 0 /\
    mtu g' = mtu sample_gatt /\
    let w' := ll_handle_connection_event (with_ctx (mk_world sample_ctx [] []) c1)
                env_silent in
    transmitted (event_ops (mk_world sample_ctx [] []) w')
      = [[h; 0x07; 0x03; 0x00; 0x04; 0x00; ATT_READ_REQ;
          Z.land 0x0003 0xFF; Z.land (Z.shiftr 0x0003 8) 0xFF]] /\
    tx_starts (event_ops (mk_world sample_ctx [] []) w') = 1%nat /\
    Z.land h 3 = 0x02.
Proof.
  apply (read_request_on_air sample_gatt (mk_world sample_ctx [] []) env_silent 0x0003).
  - reflexivity.
  - reflexivity.
  - reflexivity.
Defined.

(** X27. A Write Request always carries [mtu - 3] value bytes, whatever
    the length of the value it was built from: the PDU handed to the link
    layer has [mtu] bytes, the opcode 12, the handle, the value, and after
    it the bytes the message array held before
    [gatt_build_write_request] copied the value into it. *)
Theorem write_request_carries_mtu_bytes (g : gatt_client_context_t)
  (c : ble_conn_context_t) (old_value value : list Z) (handle : Z)
  (Hmtu : 3 <= mtu g <= ATT_MTU_MAX)
  (Hst : conn_state c = CONN_STATE_CONNECTED)
  (Hp : tx_pending c = false)
  (Hbuf : length (tx_buffer c) = 255%nat)
  (Hold : length old_value = Z.to_nat (ATT_MTU_MAX - 3))
  (Hval : (length value <= Z.to_nat (mtu g - 3))%nat) :
  exists g' c',
    gatt_send_att_request g c (gatt_build_write_request old_value handle value)
      = Some (BLE_STATUS_OK, g', c') /\
    tx_length c' = mtu g + 6 /\ tx_pending c' = true /\
    firstn (Z.to_nat (mtu g + 6)) (tx_buffer c')
      = [0x02; mtu g + 4; mtu g; 0x00; 0x04; 0x00;
         ATT_WRITE_REQ; Z.land handle 0xFF; Z.land (Z.shiftr handle 8) 0xFF]
        ++ value
        ++ firstn (Z.to_nat (mtu g - 3) - length value) (skipn (length value) old_value).
Proof.
  change ATT_MTU_MAX with 247 in *.
  change (Z.to_nat (247 - 3)) with 244%nat in Hold.
  set (rest := firstn (Z.to_nat (mtu g - 3) - length value) (skipn (length value) old_value)).
  assert (firstn (Z.to_nat (mtu g - 3)) (store_bytes 0 value old_value) = value ++ rest) as Hv.
  { unfold store_bytes. cbn [firstn app Nat.add].
    rewrite firstn_app. rewrite (firstn_all2 value) by lia. reflexivity. }
  assert (length (value ++ rest) = Z.to_nat (mtu g - 3)) as Hl.
  { rewrite length_app. subst rest. rewrite length_firstn, length_skipn, Hold. lia. }
  set (pdu := [ATT_WRITE_REQ; Z.land handle 255; Z.land (Z.shiftr handle 8) 255]
                ++ value ++ rest).
  assert (length pdu = Z.to_nat (mtu g)) as Hpl.
  { subst pdu. rewrite length_app, Hl. cbn [length]. lia. }
  unfold gatt_send_att_request, gatt_build_write_request, att_build_pdu.
  cbn [mtu set_response_length set_response_received att_opcode att_first_handle].
  assert ((mtu g <? 3) || (mtu g >? 247) = false) as Eg.
  { apply orb_false_iff. split; [apply Z.ltb_ge; lia |].
    destruct (Z.gtb_spec (mtu g) 247); [lia | reflexivity]. }
  change ATT_MTU_MAX with 247. rewrite Eg, Hv. fold pdu.
  assert (u16 (3 + (mtu g - 3)) = mtu g) as Eu
    by (unfold u16; rewrite Z.mod_small by lia; lia).
  rewrite Eu.
  rewrite (send_data_buffer c pdu (mtu g) Hst Hp Hbuf ltac:(lia)) by lia.
  do 2 eexists. split; [reflexivity |].
  cbn [tx_length tx_pending tx_buffer set_tx_pending set_tx_length set_tx_buffer].
  split; [reflexivity | split; [reflexivity |]].
  rewrite (firstn_all2 pdu) by lia.
  replace (Z.to_nat (mtu g + 6)) with (6 + length pdu)%nat by lia.
  cbn [Nat.add firstn app]. do 6 f_equal.
  rewrite firstn_app, firstn_all, Nat.sub_diag. cbn [firstn].
  rewrite app_nil_r. reflexivity.
Qed.

Lemma write_request_carries_mtu_bytes_witness :
  exists g' c',
    gatt_send_att_request sample_gatt sample_ctx
      (gatt_build_write_request (repeat 0xEE 244) 0x0012 [0x01; 0x00])
      = Some (BLE_STATUS_OK, g', c') /\
    tx_length c' = mtu sample_gatt + 6 /\ tx_pending c' = true /\
    firstn (Z.to_nat (mtu sample_gatt + 6)) (tx_buffer c')
      = [0x02; mtu sample_gatt + 4; mtu sample_gatt; 0x00; 0x04; 0x00;
         ATT_WRITE_REQ; Z.land 0x0012 0xFF; Z.land (Z.shiftr 0x0012 8) 0xFF]
        ++ [0x01; 0x00]
        ++ firstn (Z.to_nat (mtu sample_gatt - 3) - length [0x01; 0x00])
             (skipn (length [0x01; 0x00]) (repeat 0xEE 244)).
Proof.
  apply (write_request_carries_mtu_bytes sample_gatt sample_ctx (repeat 0xEE 244)
           [0x01; 0x00] 0x0012).
  - unfold ATT_MTU_MAX, sample_gatt. cbn [mtu]. lia.
  - reflexivity.
  - reflexivity.
  - reflexivity.
  - reflexivity.
  - cbn. lia.
Defined.


(** ** Writing a text *)

Lemma chunks_concat (fuel : nat) :
  forall (n : nat) (text : list Z),
    (1 <= n)%nat -> (length text <= fuel)%nat -> concat (chunks fuel n text) = text.
Proof.
  induction fuel as [| fuel IH]; intros n text Hn Hlen.
  - destruct text; [reflexivity | cbn in Hlen; lia].
  - cbn [chunks]. destruct text as [| b text]; [reflexivity |].
    cbn [concat]. rewrite IH.
    + apply firstn_skipn.
    + exact Hn.
    + rewrite length_skipn. cbn [length] in *. lia.
Qed.

Lemma chunks_sizes (fuel : nat) :
  forall (n : nat) (text : list Z),
    (1 <= n)%nat ->
    Forall (fun value => (1 <= length value <= n)%nat) (chunks fuel n text).
Proof.
  induction fuel as [| fuel IH]; intros n text Hn; [constructor |].
  cbn [chunks]. destruct text as [| b text]; [constructor |].
  constructor; [| apply IH; exact Hn].
  rewrite length_firstn. cbn [length]. lia.
Qed.

Lemma chunks_more_fuel (fuel : nat) :
  forall (fuel' n : nat) (text : list Z),
    (1 <= n)%nat -> (length text <= fuel)%nat -> (fuel <= fuel')%nat ->
    chunks fuel' n text = chunks fuel n text.
Proof.
  induction fuel as [| fuel IH]; intros fuel' n text Hn Hlen Hle.
  - destruct text; [| cbn in Hlen; lia]. destruct fuel'; reflexivity.
  - destruct fuel' as [| fuel']; [lia |].
    cbn [chunks]. destruct text as [| b text]; [reflexivity |].
    f_equal. apply IH; [exact Hn | | lia].
    rewrite length_skipn. cbn [length] in *. lia.
Qed.

Lemma send_att_request_keeps (g g' : gatt_client_context_t) (c c' : ble_conn_context_t)
  (req : att_msg_t) (status : ble_status_t) :
  gatt_send_att_request g c req = Some (status, g', c') ->
  mtu g' = mtu g /\ handles g' = handles g.
Proof.
  unfold gatt_send_att_request. intros H.
  destruct (att_build_pdu _ req) as [[[pdu pdu_len] |] |]; [| | discriminate H].
  - destruct (ble_ll_send_data c (Some pdu) pdu_len) as [[st c1] |]; [| discriminate H].
    injection H as _ Hg _. subst g'. split; reflexivity.
  - injection H as _ Hg _. subst g'. split; reflexivity.
Qed.

Lemma write_data_keeps
  (wait : gatt_client_context_t -> ble_conn_context_t -> Z -> Z ->
          ble_status_t * gatt_client_context_t * ble_conn_context_t)
  (g g' : gatt_client_context_t) (c c' : ble_conn_context_t) (req_value : list Z)
  (handle : Z) (data : option (list Z)) (len : Z) (status : ble_status_t) :
  (forall g c op t,
     mtu (snd (fst (wait g c op t))) = mtu g /\
     handles (snd (fst (wait g c op t))) = handles g) ->
  ble_gatt_write_data wait g c req_value handle data len = Some (status, g', c') ->
  mtu g' = mtu g /\ handles g' = handles g.
Proof.
  intros Hwait. unfold ble_gatt_write_data. intros H.
  destruct data as [data |].
  2: { injection H as _ Hg _. subst g'. split; reflexivity. }
  destruct ((len =? 0) || (len >? mtu g - 3)).
  { injection H as _ Hg _. subst g'. split; reflexivity. }
  destruct (gatt_send_att_request g c _) as [[[st g1] c1] |] eqn:Es; [| discriminate H].
  destruct (send_att_request_keeps _ _ _ _ _ _ Es) as [Em Eh].
  destruct st;
    try (injection H as _ Hg _; subst g'; split; [exact Em | exact Eh]).
  specialize (Hwait g1 c1 ATT_WRITE_RSP 1000).
  injection H as H. rewrite H in Hwait. cbn [fst snd] in Hwait.
  destruct Hwait as [Wm Wh]. split; congruence.
Qed.

Lemma write_data_firstn
  (wait : gatt_client_context_t -> ble_conn_context_t -> Z -> Z ->
          ble_status_t * gatt_client_context_t * ble_conn_context_t)
  (g : gatt_client_context_t) (c : ble_conn_context_t) (req_value : list Z)
  (handle : Z) (data : list Z) (len : Z) (m : nat) :
  (Z.to_nat len <= m)%nat ->
  ble_gatt_write_data wait g c req_value handle (Some (firstn m data)) len
    = ble_gatt_write_data wait g c req_value handle (Some data) len.
Proof.
  intros Hm. unfold ble_gatt_write_data.
  rewrite firstn_firstn. rewrite Nat.min_l by exact Hm. reflexivity.
Qed.

Lemma write_text_loop_chunks
  (wait : gatt_client_context_t -> ble_conn_context_t -> Z -> Z ->
          ble_status_t * gatt_client_context_t * ble_conn_context_t)
  (stack : nat -> list Z) (text : list Z) :
  (forall g c op t,
     mtu (snd (fst (wait g c op t))) = mtu g /\
     handles (snd (fst (wait g c op t))) = handles g) ->
  Z.of_nat (length text) < 65536 ->
  forall (fuel : nat) (g : gatt_client_context_t) (c : ble_conn_context_t)
         (k : nat) (offset : Z),
    4 <= mtu g < 65536 ->
    0 <= offset <= Z.of_nat (length text) ->
    (length text - Z.to_nat offset < fuel)%nat ->
    write_text_loop wait fuel g c stack k text (Z.of_nat (length text)) offset
      = write_values wait g c stack k
          (chunks fuel (Z.to_nat (mtu g - 3)) (skipn (Z.to_nat offset) text)).
Proof.
  intros Hwait Htext.
  induction fuel as [| fuel IH]; intros g c k offset Hmtu Hoff Hfuel; [lia |].
  cbn [write_text_loop].
  set (rem := skipn (Z.to_nat offset) text).
  assert (length rem = (length text - Z.to_nat offset)%nat) as Hrem
    by (subst rem; apply length_skipn).
  destruct (Z.ltb_spec offset (Z.of_nat (length text))) as [Hlt | Hge].
  2: { assert (rem = []) as -> by (apply length_zero_iff_nil; lia). reflexivity. }
  set (n := Z.to_nat (mtu g - 3)).
  assert (u16 (Z.of_nat (length text) - offset) = Z.of_nat (length text) - offset) as E1
    by (unfold u16; apply Z.mod_small; lia).
  assert (u16 (mtu g - 3) = mtu g - 3) as E2 by (unfold u16; apply Z.mod_small; lia).
  rewrite E1, E2.
  set (chunk_len := if Z.of_nat (length text) - offset >? mtu g - 3
                    then mtu g - 3 else Z.of_nat (length text) - offset).
  assert (Z.to_nat chunk_len = Nat.min n (length rem)) as Hcl.
  { subst chunk_len n. rewrite Hrem.
    destruct (Z.gtb_spec (Z.of_nat (length text) - offset) (mtu g - 3)); lia. }
  assert (1 <= chunk_len <= Z.of_nat (length text) - offset) as Hcr.
  { subst chunk_len.
    destruct (Z.gtb_spec (Z.of_nat (length text) - offset) (mtu g - 3)); lia. }
  destruct rem as [| b rem'] eqn:Erem; [cbn [length] in Hrem; lia |].
  rewrite <- Erem in *. clear Erem b rem'.
  assert (chunks (S fuel) n rem = firstn n rem :: chunks fuel n (skipn n rem)) as Ech
    by (destruct rem; [cbn [length] in Hrem; lia | reflexivity]).
  rewrite Ech. cbn [write_values].
  assert (Z.of_nat (length (firstn n rem)) = chunk_len) as Hfl
    by (rewrite length_firstn; lia).
  rewrite Hfl.
  rewrite (write_data_firstn wait g c (stack k) (tx_char_handle (handles g)) rem chunk_len n)
    by lia.
  destruct (ble_gatt_write_data wait g c (stack k) (tx_char_handle (handles g))
              (Some rem) chunk_len) as [[[status g1] c1] |] eqn:Ew; [| reflexivity].
  destruct (write_data_keeps wait _ _ _ _ _ _ _ _ _ Hwait Ew) as [Em Eh].
  destruct status; try reflexivity.
  assert (u16 (offset + chunk_len) = offset + chunk_len) as E3
    by (unfold u16; apply Z.mod_small; lia).
  rewrite E3.
  rewrite (IH g1 c1 (S k) (offset + chunk_len)); [| lia | lia | lia].
  rewrite Em.
  assert (skipn (Z.to_nat (offset + chunk_len)) text = skipn n rem) as Es.
  { subst rem. rewrite skipn_skipn.
    destruct (Nat.le_gt_cases n (length text - Z.to_nat offset)) as [Hle | Hgt].
    - f_equal. lia.
    - rewrite !skipn_all2 by lia. reflexivity. }
  rewrite Es. reflexivity.
Qed.

(** X28. [ble_gatt_write_text] sends a text in order and completely: as
    long as the wait for a response leaves the MTU and the handles alone,
    it does what consecutive calls of [ble_gatt_write_data] on the TX
    characteristic do for the pieces of the text, stopping at the first
    status other than OK.  Each piece has [mtu - 3] bytes, the last one
    what is left (at least one byte), and the pieces put together are the
    text. *)
Theorem write_text_sends_the_text_in_chunks
  (wait : gatt_client_context_t -> ble_conn_context_t -> Z -> Z ->
          ble_status_t * gatt_client_context_t * ble_conn_context_t)
  (g : gatt_client_context_t) (c : ble_conn_context_t)
  (bracelet_type : bracelet_type_t) (stack : nat -> list Z) (text : list Z)
  (Hwait : forall g c op t,
     mtu (snd (fst (wait g c op t))) = mtu g /\
     handles (snd (fst (wait g c op t))) = handles g)
  (Htype : bracelet_type <> BRACELET_TYPE_UNKNOWN)
  (Hmtu : 4 <= mtu g < 65536)
  (Htext : Z.of_nat (length text) < 65536) :
  let n := Z.to_nat (mtu g - 3) in
  ble_gatt_write_text wait (S (length text)) g c bracelet_type stack (Some text)
    = write_values wait g c stack 0 (chunks (length text) n text) /\
  concat (chunks (length text) n text) = text /\
  Forall (fun value => (1 <= length value <= n)%nat) (chunks (length text) n text).
Proof.
  cbv zeta.
  split; [| split; [apply chunks_concat; lia | apply chunks_sizes; lia]].
  unfold ble_gatt_write_text.
  assert (bracelet_type_eqb bracelet_type BRACELET_TYPE_UNKNOWN = false) as Eb
    by (destruct bracelet_type; [contradiction Htype; reflexivity | | |]; reflexivity).
  rewrite Eb.
  assert (u16 (Z.of_nat (length text)) = Z.of_nat (length text)) as Eu
    by (unfold u16; apply Z.mod_small; lia).
  rewrite Eu.
  rewrite (write_text_loop_chunks wait stack text Hwait Htext (S (length text)) g c 0%nat 0
             Hmtu ltac:(lia) ltac:(lia)).
  change (skipn (Z.to_nat 0) text) with text.
  rewrite (chunks_more_fuel (length text) (S (length text))) by lia.
  reflexivity.
Qed.

Lemma write_text_sends_the_text_in_chunks_witness :
  let text := [0x48; 0x65; 0x6C; 0x6C; 0x6F] in
  let n := Z.to_nat (mtu sample_gatt - 3) in
  ble_gatt_write_text wait_answered (S (length text)) sample_gatt sample_ctx
    BRACELET_TYPE_NORDIC_UART (fun _ => repeat 0 244) (Some text)
    = write_values wait_answered sample_gatt sample_ctx (fun _ => repeat 0 244) 0
        (chunks (length text) n text) /\
  concat (chunks (length text) n text) = text /\
  Forall (fun value => (1 <= length value <= n)%nat) (chunks (length text) n text).
Proof.
  apply (write_text_sends_the_text_in_chunks wait_answered sample_gatt sample_ctx
           BRACELET_TYPE_NORDIC_UART (fun _ => repeat 0 244) [0x48; 0x65; 0x6C; 0x6C; 0x6F]).
  - intros g c op t. split; reflexivity.
  - discriminate.
  - unfold sample_gatt. cbn [mtu]. lia.
  - cbn. lia.
Defined.

(** X29. [ble_gatt_write_text] sends nothing in three cases: with the
    bracelet type unknown, as [ble_gatt_init] leaves it, it returns an
    error for every text; with a known type and an empty text it returns
    OK; and with a known type, a text that is not empty and an MTU of 3 or
    less it returns INVALID_PARAMS, the piece length [mtu - 3] being 0 or,
    as a 16-bit value, above every length [ble_gatt_write_data] accepts.
    Both contexts are left as they were. *)
Theorem write_text_without_sending
  (wait : gatt_client_context_t -> ble_conn_context_t -> Z -> Z ->
          ble_status_t * gatt_client_context_t * ble_conn_context_t)
  (fuel : nat) (g : gatt_client_context_t) (c : ble_conn_context_t)
  (bracelet_type : bracelet_type_t) (stack : nat -> list Z) (text : list Z)
  (Hmtu : 0 <= mtu g < 65536)
  (Htext : Z.of_nat (length text) < 65536) :
  (forall g0 t0,
     ble_gatt_write_text wait fuel (snd (fst (ble_gatt_init g0 t0 true))) c
       (snd (ble_gatt_init g0 t0 true)) stack (Some text)
       = Some (BLE_STATUS_ERROR, snd (fst (ble_gatt_init g0 t0 true)), c)) /\
  (bracelet_type <> BRACELET_TYPE_UNKNOWN ->
   ble_gatt_write_text wait (S fuel) g c bracelet_type stack (Some [])
     = Some (BLE_STATUS_OK, g, c)) /\
  (bracelet_type <> BRACELET_TYPE_UNKNOWN -> text <> [] -> mtu g <= 3 ->
   ble_gatt_write_text wait (S fuel) g c bracelet_type stack (Some text)
     = Some (BLE_STATUS_INVALID_PARAMS, g, c)).
Proof.
  split; [intros g0 t0; reflexivity |].
  split.
  - intros Htype. unfold ble_gatt_write_text.
    destruct bracelet_type; [contradiction Htype; reflexivity | | |]; reflexivity.
  - intros Htype Hne Hle.
    assert (0 < Z.of_nat (length text)) as Hpos
      by (destruct text; [contradiction Hne; reflexivity | cbn [length]; lia]).
    unfold ble_gatt_write_text.
    assert (bracelet_type_eqb bracelet_type BRACELET_TYPE_UNKNOWN = false) as Eb
      by (destruct bracelet_type; [contradiction Htype; reflexivity | | |]; reflexivity).
    rewrite Eb.
    assert (u16 (Z.of_nat (length text)) = Z.of_nat (length text)) as Eu
      by (unfold u16; apply Z.mod_small; lia).
    rewrite Eu. cbn [write_text_loop].
    assert ((0 <? Z.of_nat (length text)) = true) as E0 by (apply Z.ltb_lt; lia).
    rewrite E0, Z.sub_0_r, Eu.
    assert ((Z.of_nat (length text) >? mtu g - 3) = true) as E1
      by (apply Z.gtb_lt; lia).
    rewrite E1.
    unfold ble_gatt_write_data.
    assert ((u16 (mtu g - 3) =? 0) || (u16 (mtu g - 3) >? mtu g - 3) = true) as E2.
    { destruct (Z.eq_dec (mtu g) 3) as [E3 | E3].
      - rewrite E3. reflexivity.
      - apply orb_true_iff. right. apply Z.gtb_lt.
        unfold u16.
        pose proof (Z.mod_pos_bound (mtu g - 3) (2 ^ 16) ltac:(lia)). lia. }
    rewrite E2. reflexivity.
Qed.

Lemma write_text_without_sending_witness :
  (forall g0 t0,
     ble_gatt_write_text wait_answered 1 (snd (fst (ble_gatt_init g0 t0 true))) sample_ctx
       (snd (ble_gatt_init g0 t0 true)) (fun _ => repeat 0 244) (Some [0x48; 0x69])
       = Some (BLE_STATUS_ERROR, snd (fst (ble_gatt_init g0 t0 true)), sample_ctx)) /\
  (BRACELET_TYPE_XIAOMI <> BRACELET_TYPE_UNKNOWN ->
   ble_gatt_write_text wait_answered 2 (set_mtu sample_gatt 3) sample_ctx
     BRACELET_TYPE_XIAOMI (fun _ => repeat 0 244) (Some [])
     = Some (BLE_STATUS_OK, set_mtu sample_gatt 3, sample_ctx)) /\
  (BRACELET_TYPE_XIAOMI <> BRACELET_TYPE_UNKNOWN -> [0x48; 0x69] <> [] ->
   mtu (set_mtu sample_gatt 3) <= 3 ->
   ble_gatt_write_text wait_answered 2 (set_mtu sample_gatt 3) sample_ctx
     BRACELET_TYPE_XIAOMI (fun _ => repeat 0 244) (Some [0x48; 0x69])
     = Some (BLE_STATUS_INVALID_PARAMS, set_mtu sample_gatt 3, sample_ctx)).
Proof.
  apply (write_text_without_sending wait_answered 1 (set_mtu sample_gatt 3) sample_ctx
           BRACELET_TYPE_XIAOMI (fun _ => repeat 0 244) [0x48; 0x69]).
  - cbn. lia.
  - cbn. lia.
Defined.


(** ** A scanning session *)

Lemma run_events_scanning (trace : list (Z * radio_env)) :
  forall w : ll_world,
    conn_state (ctx w) = CONN_STATE_SCANNING ->
    run_events w trace = mk_world (ctx w) (radio w ++ scan_rearm_ops trace) (calls w).
Proof.
  unfold run_events.
  induction trace as [| te trace IH]; intros w Hst.
  - cbn [fold_left scan_rearm_ops flat_map]. rewrite app_nil_r.
    destruct w. reflexivity.
  - cbn [fold_left scan_rearm_ops flat_map].
    unfold ble_ll_process_events at 2. rewrite Hst.
    destruct (rx_done (scan_irq (snd te))).
    + rewrite IH by exact Hst.
      cbn [radio_do ctx radio calls]. rewrite <- app_assoc. reflexivity.
    + rewrite IH by exact Hst. reflexivity.
Qed.

(** X30. A scanning session reports nothing.  [ble_ll_start_scanning] on
    an idle link returns OK and leaves it Scanning; every following call
    of [ble_ll_process_events] that finds a received advertising packet
    clears the interrupt and restarts the receiver, and nothing else: the
    context does not change and no callback is invoked, whoever the
    advertiser is; [ble_ll_stop_scanning] then returns OK, puts the radio
    in standby and leaves the context exactly as it was before the
    session. *)
Theorem scanning_session_reports_nothing (w : ll_world) (params : ble_scan_params_t)
  (trace : list (Z * radio_env))
  (Hst : conn_state (ctx w) = CONN_STATE_IDLE) :
  let w1 := snd (ble_ll_start_scanning w (Some params)) in
  let w2 := run_events w1 trace in
  let w3 := snd (ble_ll_stop_scanning w2) in
  fst (ble_ll_start_scanning w (Some params)) = BLE_STATUS_OK /\
  conn_state (ctx w1) = CONN_STATE_SCANNING /\
  ctx w2 = ctx w1 /\ calls w2 = calls w /\
  radio w2 = radio w1 ++ scan_rearm_ops trace /\
  fst (ble_ll_stop_scanning w2) = BLE_STATUS_OK /\
  ctx w3 = ctx w /\ calls w3 = calls w /\
  radio w3 = radio w2 ++ [sx128x_set_standby SX128X_STANDBY_RC].
Proof.
  cbv zeta.
  unfold ble_ll_start_scanning. rewrite Hst. cbn [conn_state_eqb negb fst snd].
  set (w1 := radio_do _ _).
  assert (conn_state (ctx w1) = CONN_STATE_SCANNING) as H1 by reflexivity.
  rewrite (run_events_scanning trace w1 H1).
  unfold ble_ll_stop_scanning. cbn [ctx]. rewrite H1.
  cbn [conn_state_eqb negb fst snd radio_do with_ctx ctx radio calls].
  split; [reflexivity |].
  split; [reflexivity |].
  split; [reflexivity |].
  split; [reflexivity |].
  split; [reflexivity |].
  split; [reflexivity |].
  split; [| split; reflexivity].
  subst w1. cbn [radio_do with_ctx ctx].
  destruct (ctx w). cbn [conn_state] in Hst. subst. reflexivity.
Qed.

Lemma scanning_session_reports_nothing_witness :
  let w := mk_world zeroed_ctx [] [] in
  let params := mk_scan_params 16 16 0 false in
  let trace := [(0, mk_env SX128X_IRQ_RX_DONE (fun _ => 0) [] []); (10, env_silent)] in
  let w1 := snd (ble_ll_start_scanning w (Some params)) in
  let w2 := run_events w1 trace in
  let w3 := snd (ble_ll_stop_scanning w2) in
  fst (ble_ll_start_scanning w (Some params)) = BLE_STATUS_OK /\
  conn_state (ctx w1) = CONN_STATE_SCANNING /\
  ctx w2 = ctx w1 /\ calls w2 = calls w /\
  radio w2 = radio w1 ++ scan_rearm_ops trace /\
  fst (ble_ll_stop_scanning w2) = BLE_STATUS_OK /\
  ctx w3 = ctx w /\ calls w3 = calls w /\
  radio w3 = radio w2 ++ [sx128x_set_standby SX128X_STANDBY_RC].
Proof.
  apply (scanning_session_reports_nothing (mk_world zeroed_ctx [] [])
           (mk_scan_params 16 16 0 false)
           [(0, mk_env SX128X_IRQ_RX_DONE (fun _ => 0) [] []); (10, env_silent)]).
  reflexivity.
Defined.

(** ** The connection event with the callbacks of the application *)

Section CallbackEvent.

Variable D : ll_world -> Z -> ll_world.
Variable R : ll_world -> list Z -> Z -> ll_world.

Lemma call_back_unregistered (w : ll_world) (cb : callback) :
  call_back D R w false cb = w.
Proof. reflexivity. Qed.

Lemma rx_event_unfold_cb (w : ll_world) (env : radio_env) (status : Z) :
  find rx_done (rx_irq env) = Some status ->
  ll_handle_connection_event_cb D R w env
    = if snd (rx_dispatch_cb D R (rx_receive (event_tx_phase w env) env))
      then fst (rx_dispatch_cb D R (rx_receive (event_tx_phase w env) env))
      else event_epilogue_cb D R
             (rx_acknowledge
                (fst (rx_dispatch_cb D R (rx_receive (event_tx_phase w env) env))))
             true.
Proof.
  intros H. unfold ll_handle_connection_event_cb. rewrite H.
  destruct (rx_dispatch_cb D R (rx_receive (event_tx_phase w env) env)) as [w2 returned].
  reflexivity.
Qed.

(** After a reception the error counter is 0 and the end of the event calls
    nothing. *)
Lemma event_epilogue_cb_received (w : ll_world) :
  consecutive_crc_errors (ctx w) = 0 ->
  event_epilogue_cb D R w true
    = with_ctx w
        (set_anchor_point
           (set_event_counter (ctx w) (u32 (event_counter (ctx w) + 1)))
           (u64 (anchor_point (ctx w) + conn_interval (ctx w)))).
Proof.
  intros H. unfold event_epilogue_cb.
  cbn [consecutive_crc_errors set_anchor_point set_event_counter].
  rewrite H. reflexivity.
Qed.

(** An event without reception that stays within the six tolerated ones
    calls nothing: it is the event of [ll_handle_connection_event]. *)
Lemma silent_event_calls_nothing (w : ll_world) (env : radio_env) :
  rx_timed_out env ->
  u32 (consecutive_crc_errors (ctx w) + 1) <= 6 ->
  ll_handle_connection_event_cb D R w env = ll_handle_connection_event w env.
Proof.
  intros Hto Hle. unfold rx_timed_out in Hto.
  unfold ll_handle_connection_event_cb, ll_handle_connection_event. rewrite Hto.
  destruct (event_tx_phase_frame w env)
    as (_ & _ & _ & _ & Hcce & _ & _ & _).
  revert Hcce. generalize (event_tx_phase w env). intros W Hcce.
  unfold event_epilogue_cb, event_epilogue.
  cbn [consecutive_crc_errors set_anchor_point set_event_counter set_total_crc_errors
       set_consecutive_crc_errors].
  rewrite Hcce.
  destruct (Z.gtb_spec (u32 (consecutive_crc_errors (ctx w) + 1)) 6) as [Hgt|_];
    [lia|reflexivity].
Qed.

Lemma silent_events_call_nothing :
  forall (envs : list radio_env) (w : ll_world),
    Forall rx_timed_out envs ->
    0 <= consecutive_crc_errors (ctx w) ->
    consecutive_crc_errors (ctx w) + Z.of_nat (length envs) <= 6 ->
    handle_events_cb D R w envs = handle_events w envs.
Proof.
  induction envs as [|env envs IH]; intros w Hall H0 Hle; [reflexivity|].
  cbn [length] in Hle. inversion Hall as [|? ? Hto Hrest]; subst.
  assert (Hu : u32 (consecutive_crc_errors (ctx w) + 1) = consecutive_crc_errors (ctx w) + 1).
  { unfold u32. apply Z.mod_small. change (2 ^ 32) with 4294967296. lia. }
  unfold handle_events_cb, handle_events. cbn [fold_left].
  rewrite (silent_event_calls_nothing w env Hto) by lia.
  destruct (silent_event_step w env Hto) as (Hn & _).
  rewrite Hu in Hn.
  apply IH; [exact Hrest| |]; rewrite Hn; lia.
Qed.

(** The event without reception that takes the error counter past 6 sets
    the state to Idle and then calls [on_disconnected] with reason 0x08;
    the function returns what the callback leaves. *)
Lemma silent_event_disconnects (w : ll_world) (env : radio_env) :
  rx_timed_out env ->
  6 < u32 (consecutive_crc_errors (ctx w) + 1) ->
  exists wt : ll_world,
    ll_handle_connection_event_cb D R w env
      = call_back D R wt (on_disconnected (ctx w)) (cb_disconnected 0x08) /\
    conn_state (ctx wt) = CONN_STATE_IDLE /\
    consecutive_crc_errors (ctx wt) = u32 (consecutive_crc_errors (ctx w) + 1) /\
    tx_seq_num (ctx wt) = tx_seq_num (ctx w) /\
    next_expected_seq_num (ctx wt) = next_expected_seq_num (ctx w) /\
    calls wt = calls w.
Proof.
  intros Hto Hgt. unfold rx_timed_out in Hto.
  unfold ll_handle_connection_event_cb. rewrite Hto.
  destruct (event_tx_phase_frame w env)
    as (Htx & Hne & _ & _ & Hcce & _ & Hcb & _).
  pose proof (event_tx_phase_calls w env) as Hcalls.
  revert Htx Hne Hcce Hcb Hcalls. generalize (event_tx_phase w env).
  intros W Htx Hne Hcce Hcb Hcalls.
  unfold event_epilogue_cb.
  cbn [consecutive_crc_errors set_anchor_point set_event_counter set_total_crc_errors
       set_consecutive_crc_errors on_disconnected].
  rewrite Hcce, Hcb.
  destruct (Z.gtb_spec (u32 (consecutive_crc_errors (ctx w) + 1)) 6) as [_|Hle]; [|lia].
  eexists. split; [reflexivity|].
  cbn [ctx with_ctx calls conn_state set_conn_state consecutive_crc_errors
       tx_seq_num next_expected_seq_num
       set_anchor_point set_event_counter set_total_crc_errors
       set_consecutive_crc_errors].
  repeat split; assumption.
Qed.

(** A new LL_TERMINATE_IND: the state is set to Idle, [on_disconnected] is
    called with the reason byte of the PDU, and the function returns what
    the callback leaves. *)
Lemma rx_dispatch_cb_terminate (W : ll_world) :
  new_control_pdu (ctx W) (rx_buffer (ctx W)) LL_TERMINATE_IND = true ->
  exists wt : ll_world,
    rx_dispatch_cb D R W
      = (call_back D R wt (on_disconnected (ctx W))
           (cb_disconnected (pdu_payload (rx_buffer (ctx W)) 1)), true) /\
    conn_state (ctx wt) = CONN_STATE_IDLE /\
    tx_seq_num (ctx wt) = tx_seq_num (ctx W) /\
    next_expected_seq_num (ctx wt) = Z.lxor (next_expected_seq_num (ctx W)) 1 /\
    calls wt = calls W.
Proof.
  intros Hn. destruct (new_control_pdu_true _ _ _ Hn) as (Hsn & Hlen & Hllid & Hop).
  unfold rx_dispatch_cb. rewrite Hsn, Hlen, Hop.
  apply Z.eqb_eq in Hllid. rewrite Hllid.
  cbn [Z.eqb Pos.eqb]. unfold LL_TERMINATE_IND. cbn [Z.eqb Pos.eqb].
  eexists. split; [reflexivity|].
  repeat split; reflexivity.
Qed.

(** The event that receives a new LL_TERMINATE_IND ends in the call of
    [on_disconnected] on the state Idle. *)
Lemma handle_connection_event_cb_terminate (w : ll_world) (env : radio_env) (status : Z) :
  find rx_done (rx_irq env) = Some status ->
  new_control_pdu (ctx w) (received_pdu w env) LL_TERMINATE_IND = true ->
  exists wt : ll_world,
    ll_handle_connection_event_cb D R w env
      = call_back D R wt (on_disconnected (ctx w))
          (cb_disconnected (pdu_payload (received_pdu w env) 1)) /\
    conn_state (ctx wt) = CONN_STATE_IDLE /\
    tx_seq_num (ctx wt) = tx_seq_num (ctx w) /\
    next_expected_seq_num (ctx wt) = Z.lxor (next_expected_seq_num (ctx w)) 1 /\
    calls wt = calls w.
Proof.
  intros Hfind Hterm.
  rewrite (rx_event_unfold_cb w env status Hfind).
  destruct (rx_receive_kept w env)
    as (Hcalls & _ & Hcb & _ & _ & _ & _ & Hne & Htx & _ & _ & Hrx & _).
  revert Hcalls Hcb Hne Htx Hrx.
  generalize (rx_receive (event_tx_phase w env) env). intros W Hcalls Hcb Hne Htx Hrx.
  assert (HtW : new_control_pdu (ctx W) (rx_buffer (ctx W)) LL_TERMINATE_IND = true).
  { rewrite Hrx. unfold new_control_pdu. rewrite Hne. exact Hterm. }
  destruct (rx_dispatch_cb_terminate W HtW) as (wt & Hd & Hidle & Htx' & Hne' & Hcalls').
  rewrite Hd. cbn [fst snd].
  exists wt. rewrite Hcb, Hrx.
  split; [reflexivity|].
  split; [exact Hidle|].
  split; [rewrite Htx'; exact Htx|].
  split; [rewrite Hne', Hne; reflexivity|].
  rewrite Hcalls'. exact Hcalls.
Qed.

Hypothesis D_keeps : forall (w : ll_world) (reason : Z),
  keeps_sequence_state w (D w reason).
Hypothesis R_keeps : forall (w : ll_world) (data : list Z) (len : Z),
  keeps_sequence_state w (R w data len).

Lemma call_back_keeps (w : ll_world) (registered : bool) (cb : callback) :
  keeps_sequence_state w (call_back D R w registered cb).
Proof.
  unfold call_back. destruct registered; [|repeat split; reflexivity].
  destruct cb as [reason|data len].
  - exact (D_keeps (mk_world (ctx w) (radio w) (calls w ++ [cb_disconnected reason])) reason).
  - exact (R_keeps (mk_world (ctx w) (radio w) (calls w ++ [cb_data_received data len]))
             data len).
Qed.

(** What [rx_dispatch_cb] does to the fields of the sequence-number
    protocol when the callbacks keep them. *)
Lemma rx_dispatch_cb_fields (W : ll_world) :
  let c := ctx W in
  let rx := rx_buffer c in
  let c' := ctx (fst (rx_dispatch_cb D R W)) in
  snd (rx_dispatch_cb D R W) = new_control_pdu c rx LL_TERMINATE_IND /\
  next_expected_seq_num c' =
    (if pdu_sn rx =? next_expected_seq_num c
     then Z.lxor (next_expected_seq_num c) 1 else next_expected_seq_num c) /\
  tx_seq_num c' = tx_seq_num c /\
  rx_buffer c' = rx /\
  consecutive_crc_errors c' = consecutive_crc_errors c.
Proof.
  cbv zeta. unfold rx_dispatch_cb, new_control_pdu.
  unfold LL_TERMINATE_IND, LL_FEATURE_REQ, LL_VERSION_IND.
  destruct (pdu_sn (rx_buffer (ctx W)) =? next_expected_seq_num (ctx W));
    [|cbn; fields_done].
  destruct (pdu_length (rx_buffer (ctx W)) >? 0);
    [|cbn; fields_done].
  destruct (Z.eqb_spec (pdu_llid (rx_buffer (ctx W))) 2) as [H2|H2].
  { rewrite H2. cbn [fst snd andb Z.eqb Pos.eqb].
    match goal with
    | |- context [call_back D R ?w0 ?b ?cb] =>
        destruct (call_back_keeps w0 b cb) as (E1 & E2 & E3 & E4);
        rewrite E1, E2, E3, E4
    end.
    cbn. fields_done. }
  destruct (Z.eqb_spec (pdu_llid (rx_buffer (ctx W))) 3) as [H3|H3];
    [|cbn; fields_done].
  destruct (Z.eqb_spec (pdu_payload (rx_buffer (ctx W)) 0) 2) as [Ht|Ht].
  { rewrite ?Ht. cbn [fst snd andb Z.eqb Pos.eqb].
    match goal with
    | |- context [call_back D R ?w0 ?b ?cb] =>
        destruct (call_back_keeps w0 b cb) as (E1 & E2 & E3 & E4);
        rewrite E1, E2, E3, E4
    end.
    cbn. fields_done. }
  destruct (Z.eqb_spec (pdu_payload (rx_buffer (ctx W)) 0) 12) as [Hv|Hv].
  { rewrite ?Hv. cbn. fields_done. }
  destruct (Z.eqb_spec (pdu_payload (rx_buffer (ctx W)) 0) 8) as [Hf|Hf];
    cbn; fields_done.
Qed.

(** The transmit queue after [rx_dispatch_cb], when the PDU is neither a
    new LL_TERMINATE_IND nor a new LL_FEATURE_REQ and [on_data_received]
    queues nothing. *)
Lemma rx_dispatch_cb_tx_queue (W : ll_world) :
  (forall (w : ll_world) (data : list Z) (len : Z), keeps_tx_queue w (R w data len)) ->
  new_control_pdu (ctx W) (rx_buffer (ctx W)) LL_TERMINATE_IND = false ->
  new_control_pdu (ctx W) (rx_buffer (ctx W)) LL_FEATURE_REQ = false ->
  keeps_tx_queue W (fst (rx_dispatch_cb D R W)).
Proof.
  intros HR. unfold keeps_tx_queue, rx_dispatch_cb, new_control_pdu.
  unfold LL_TERMINATE_IND, LL_FEATURE_REQ, LL_VERSION_IND.
  destruct (pdu_sn (rx_buffer (ctx W)) =? next_expected_seq_num (ctx W));
    [|cbn; fields_done].
  destruct (pdu_length (rx_buffer (ctx W)) >? 0);
    [|cbn; fields_done].
  destruct (Z.eqb_spec (pdu_llid (rx_buffer (ctx W))) 2) as [H2|H2].
  { intros _ _. cbn [fst]. unfold call_back.
    destruct (on_data_received _); [|cbn; fields_done].
    match goal with
    | |- context [R ?w0 ?d ?n] => destruct (HR w0 d n) as (E1 & E2); rewrite E1, E2
    end.
    cbn. fields_done. }
  destruct (Z.eqb_spec (pdu_llid (rx_buffer (ctx W))) 3) as [H3|H3];
    [|cbn; fields_done].
  destruct (Z.eqb_spec (pdu_payload (rx_buffer (ctx W)) 0) 2) as [Ht|Ht].
  { cbn. discriminate. }
  destruct (Z.eqb_spec (pdu_payload (rx_buffer (ctx W)) 0) 12) as [Hv|Hv].
  { cbn. fields_done. }
  destruct (Z.eqb_spec (pdu_payload (rx_buffer (ctx W)) 0) 8) as [Hf|Hf];
    cbn; fields_done.
Qed.

(** The context after an event in which RX_DONE was seen, in terms of the
    context before and of the received PDU. *)
Lemma handle_connection_event_cb_rx (w : ll_world) (env : radio_env) (status : Z) :
  find rx_done (rx_irq env) = Some status ->
  let c := ctx w in
  let rx := received_pdu w env in
  let c' := ctx (ll_handle_connection_event_cb D R w env) in
  next_expected_seq_num c' =
    (if pdu_sn rx =? next_expected_seq_num c
     then Z.lxor (next_expected_seq_num c) 1 else next_expected_seq_num c) /\
  consecutive_crc_errors c' = 0 /\
  (new_control_pdu c rx LL_TERMINATE_IND = true -> tx_seq_num c' = tx_seq_num c) /\
  (new_control_pdu c rx LL_TERMINATE_IND = false ->
   tx_seq_num c' =
     (if pdu_nesn rx =? tx_seq_num c then tx_seq_num c else Z.lxor (tx_seq_num c) 1) /\
   ((pdu_nesn rx =? tx_seq_num c) = false -> tx_pending c' = false) /\
   ((pdu_nesn rx =? tx_seq_num c) = true ->
    new_control_pdu c rx LL_FEATURE_REQ = false ->
    (forall (w0 : ll_world) (data : list Z) (len : Z), keeps_tx_queue w0 (R w0 data len)) ->
    tx_pending c' = tx_pending c /\
    tx_buffer c' = (if tx_pending c || (event_counter c =? 0)
                    then stamp_tx_header c else tx_buffer c))).
Proof.
  intros Hfind. cbv zeta.
  rewrite (rx_event_unfold_cb w env status Hfind).
  destruct (rx_receive_frame w env) as (Hrx & Htx & Hne & Hpend & Hcs & Hbuf & Hzero).
  revert Hrx Htx Hne Hpend Hbuf Hzero.
  generalize (rx_receive (event_tx_phase w env) env). intros W Hrx Htx Hne Hpend Hbuf Hzero.
  pose proof (rx_dispatch_cb_fields W) as Hd. cbv zeta in Hd.
  pose proof (rx_dispatch_cb_tx_queue W) as Hq. unfold keeps_tx_queue in Hq.
  assert (Hc2 : forall op, new_control_pdu (ctx W) (received_pdu w env) op
                           = new_control_pdu (ctx w) (received_pdu w env) op).
  { intros op. unfold new_control_pdu. rewrite Hne. reflexivity. }
  rewrite Hrx in Hd, Hq. rewrite !Hc2 in Hd, Hq.
  rewrite Hne, Htx, Hzero in Hd. rewrite Hpend, Hbuf in Hq.
  destruct Hd as (Hret & Hne' & Htx' & Hrx' & Hcce').
  revert Hret Hne' Htx' Hrx' Hcce' Hq.
  generalize (rx_dispatch_cb D R W). intros [w' returned].
  cbn [fst snd]. intros Hret Hne' Htx' Hrx' Hcce' Hq.
  destruct (new_control_pdu (ctx w) (received_pdu w env) LL_TERMINATE_IND).
  - subst returned.
    split; [exact Hne'|]. split; [exact Hcce'|]. split; [|discriminate].
    intros _. exact Htx'.
  - subst returned.
    destruct (rx_acknowledge_kept w')
      as (_ & _ & Acce & _ & _ & _ & _ & Ane & Abuf & _ & Atx & Apend).
    rewrite event_epilogue_cb_received by (rewrite Acce; exact Hcce').
    cbn [ctx with_ctx next_expected_seq_num tx_seq_num tx_pending tx_buffer
         consecutive_crc_errors set_anchor_point set_event_counter].
    rewrite Acce, Ane, Abuf, Atx, Apend, Hrx', Htx'.
    split; [exact Hne'|]. split; [exact Hcce'|]. split; [discriminate|].
    intros _.
    destruct (pdu_nesn (received_pdu w env) =? tx_seq_num (ctx w)).
    + split; [reflexivity|]. split; [discriminate|].
      intros _ Hf HR. apply (Hq HR eq_refl). rewrite ?Hc2. exact Hf.
    + split; [reflexivity|]. split; [reflexivity|discriminate].
Qed.

Lemma handle_connection_event_cb_timeout (w : ll_world) (env : radio_env) :
  rx_timed_out env ->
  let c := ctx w in
  let c' := ctx (ll_handle_connection_event_cb D R w env) in
  consecutive_crc_errors c' = u32 (consecutive_crc_errors c + 1) /\
  tx_seq_num c' = tx_seq_num c /\
  next_expected_seq_num c' = next_expected_seq_num c.
Proof.
  intros Hto. cbv zeta.
  destruct (Z.le_gt_cases (u32 (consecutive_crc_errors (ctx w) + 1)) 6) as [Hle|Hgt].
  - rewrite (silent_event_calls_nothing w env Hto Hle).
    destruct (handle_connection_event_timeout w env Hto) as (H1 & H2 & H3 & _).
    repeat split; assumption.
  - destruct (silent_event_disconnects w env Hto Hgt)
      as (wt & Hw & _ & Hcce & Htx & Hne & _).
    rewrite Hw.
    destruct (call_back_keeps wt (on_disconnected (ctx w)) (cb_disconnected 0x08))
      as (E1 & E2 & _ & E4).
    rewrite E1, E2, E4, Hcce, Htx, Hne. repeat split; reflexivity.
Qed.

End CallbackEvent.

(** The sample callbacks keep the sequence numbers, the receive buffer and
    the error counter. *)
Lemma sample_on_disconnected_keeps (w : ll_world) (reason : Z) :
  keeps_sequence_state w (sample_on_disconnected w reason).
Proof.
  unfold keeps_sequence_state, sample_on_disconnected, ble_ll_start_scanning.
  destruct (reason =? 0x13); [repeat split; reflexivity|].
  destruct (negb _); repeat split; reflexivity.
Qed.

Lemma sample_on_data_received_keeps (w : ll_world) (data : list Z) (len : Z) :
  keeps_sequence_state w (sample_on_data_received w data len).
Proof.
  unfold keeps_sequence_state, sample_on_data_received, ble_ll_send_data.
  destruct (nth 0 data 0 =? ATT_HANDLE_VALUE_IND); [|repeat split; reflexivity].
  cbn [Z.eqb Z.gtb Z.compare orb].
  destruct (negb _); [repeat split; reflexivity|].
  destruct (tx_pending (ctx w)); [repeat split; reflexivity|].
  destruct (store_bytes_checked 0 _ _) as [buf|]; [|repeat split; reflexivity].
  destruct (store_bytes_checked 6 _ _) as [buf'|]; repeat split; reflexivity.
Qed.

(** With callbacks that return at once, the event is the one of
    [ll_handle_connection_event], which only records the calls. *)
Lemma call_back_returning (w : ll_world) (registered : bool) (cb : callback) :
  call_back (fun w0 _ => w0) (fun w0 _ _ => w0) w registered cb = invoke w registered cb.
Proof. destruct registered; [destruct cb|]; reflexivity. Qed.

Lemma event_with_returning_callbacks (w : ll_world) (env : radio_env) :
  ll_handle_connection_event_cb (fun w0 _ => w0) (fun w0 _ _ => w0) w env
    = ll_handle_connection_event w env.
Proof.
  unfold ll_handle_connection_event_cb, ll_handle_connection_event.
  generalize (event_tx_phase w env). intros W.
  assert (Hd : forall W0, rx_dispatch_cb (fun w0 _ => w0) (fun w0 _ _ => w0) W0
                          = rx_dispatch W0).
  { intros W0. unfold rx_dispatch_cb, rx_dispatch. cbv zeta.
    rewrite !call_back_returning. reflexivity. }
  assert (He : forall W0 ok, event_epilogue_cb (fun w0 _ => w0) (fun w0 _ _ => w0) W0 ok
                             = event_epilogue W0 ok).
  { intros W0 ok. unfold event_epilogue_cb, event_epilogue. cbv zeta.
    rewrite !call_back_returning. reflexivity. }
  rewrite Hd, He.
  destruct (find rx_done (rx_irq env)); [|reflexivity].
  destruct (rx_dispatch (rx_receive W env)) as [w2 returned].
  rewrite He. reflexivity.
Qed.

(** C1, amended. In one connection event, with callbacks that leave the
    sequence numbers, the receive buffer and the error counter of the
    context as they find them: when the RX window times out,
    [consecutive_crc_errors] is incremented and both sequence numbers are
    unchanged; when a valid PDU is received, [next_expected_seq_num] is
    toggled once if the SN of the PDU equals it and unchanged otherwise; if
    the PDU is a new LL_TERMINATE_IND the state is set to Idle,
    [on_disconnected] (when registered) is called on that state with the
    reason byte of the PDU, and the function returns what the callback
    leaves, with [tx_seq_num] unchanged; otherwise [tx_seq_num] is toggled
    once and [tx_pending] cleared when the NESN of the PDU differs from
    [tx_seq_num], and when it does not, [tx_seq_num] is unchanged and,
    unless the PDU is a new LL_FEATURE_REQ and provided [on_data_received]
    queues nothing, [tx_pending] is unchanged and a pending [tx_buffer]
    keeps every byte after its first. *)
Theorem connection_event_sequence_numbers :
  forall (app_on_disconnected : ll_world -> Z -> ll_world)
         (app_on_data_received : ll_world -> list Z -> Z -> ll_world)
         (w : ll_world) (env : radio_env),
    (forall (w0 : ll_world) (reason : Z),
        keeps_sequence_state w0 (app_on_disconnected w0 reason)) ->
    (forall (w0 : ll_world) (data : list Z) (len : Z),
        keeps_sequence_state w0 (app_on_data_received w0 data len)) ->
    let c := ctx w in
    let rx := received_pdu w env in
    let w' := ll_handle_connection_event_cb app_on_disconnected app_on_data_received w env in
    let c' := ctx w' in
    (rx_timed_out env ->
     consecutive_crc_errors c' = u32 (consecutive_crc_errors c + 1) /\
     tx_seq_num c' = tx_seq_num c /\
     next_expected_seq_num c' = next_expected_seq_num c) /\
    (rx_valid env ->
     (pdu_sn rx = next_expected_seq_num c ->
      next_expected_seq_num c' = Z.lxor (next_expected_seq_num c) 1) /\
     (pdu_sn rx <> next_expected_seq_num c ->
      next_expected_seq_num c' = next_expected_seq_num c) /\
     (new_control_pdu c rx LL_TERMINATE_IND = true ->
      tx_seq_num c' = tx_seq_num c /\
      exists wt : ll_world,
        w' = call_back app_on_disconnected app_on_data_received wt
               (on_disconnected c) (cb_disconnected (pdu_payload rx 1)) /\
        conn_state (ctx wt) = CONN_STATE_IDLE /\
        calls wt = calls w) /\
     (new_control_pdu c rx LL_TERMINATE_IND = false ->
      (pdu_nesn rx <> tx_seq_num c ->
       tx_seq_num c' = Z.lxor (tx_seq_num c) 1 /\ tx_pending c' = false) /\
      (pdu_nesn rx = tx_seq_num c ->
       tx_seq_num c' = tx_seq_num c /\
       (new_control_pdu c rx LL_FEATURE_REQ = false ->
        (forall (w0 : ll_world) (data : list Z) (len : Z),
            keeps_tx_queue w0 (app_on_data_received w0 data len)) ->
        tx_pending c' = tx_pending c /\
        (tx_pending c = true -> skipn 1 (tx_buffer c') = skipn 1 (tx_buffer c)))))).
Proof.
  intros D R w env HD HR. cbv zeta. split.
  - intros Hto.
    exact (handle_connection_event_cb_timeout D R HD HR w env Hto).
  - intros Hv. destruct (rx_valid_found env Hv) as [status Hfind].
    destruct (handle_connection_event_cb_rx D R HD HR w env status Hfind)
      as (Hne & _ & Hterm & Hack).
    split; [|split; [|split]].
    + intros Hsn. rewrite Hne.
      destruct (Z.eqb_spec (pdu_sn (received_pdu w env)) (next_expected_seq_num (ctx w)));
        [reflexivity|contradiction].
    + intros Hsn. rewrite Hne.
      destruct (Z.eqb_spec (pdu_sn (received_pdu w env)) (next_expected_seq_num (ctx w)));
        [contradiction|reflexivity].
    + intros Ht. split; [exact (Hterm Ht)|].
      destruct (handle_connection_event_cb_terminate D R w env status Hfind Ht)
        as (wt & Hw & Hidle & _ & _ & Hcalls).
      exists wt. split; [exact Hw|]. split; assumption.
    + intros Hnt. destruct (Hack Hnt) as (Htx & Hclear & Hkeep).
      destruct (Z.eqb_spec (pdu_nesn (received_pdu w env)) (tx_seq_num (ctx w)))
        as [Heq|Hneq].
      * split; [intros Hc; contradiction|].
        intros _. split; [exact Htx|].
        intros Hf Hq. destruct (Hkeep eq_refl Hf Hq) as [Hp Hb].
        split; [exact Hp|].
        intros Hpend. rewrite Hb, Hpend. cbn [orb].
        unfold stamp_tx_header. rewrite Hpend. reflexivity.
      * split; [|intros Hc; contradiction].
        intros _. split; [exact Htx|]. apply Hclear. reflexivity.
Qed.

(** An empty PDU from the peer that acknowledges the pending PDU, with
    callbacks that restart scanning and queue confirmations. *)
Lemma connection_event_sequence_numbers_witness :
  let w := mk_world (set_tx_pending sample_ctx true) [] [] in
  let env := env_receiving [0x05; 0x00] in
  let c' := ctx (ll_handle_connection_event_cb
                   sample_on_disconnected sample_on_data_received w env) in
  next_expected_seq_num c' = 1 /\ tx_seq_num c' = 1 /\ tx_pending c' = false.
Proof.
  intros w env c'.
  destruct (connection_event_sequence_numbers
              sample_on_disconnected sample_on_data_received w env
              sample_on_disconnected_keeps sample_on_data_received_keeps)
    as [_ Hvalid].
  assert (Hv : rx_valid env) by (exists SX128X_IRQ_RX_DONE; split; reflexivity).
  destruct (Hvalid Hv) as (Hsn & _ & _ & Hack).
  split.
  - apply Hsn. reflexivity.
  - apply Hack; [reflexivity|].
    vm_compute. discriminate.
Defined.

(** C7, amended. The connection is ended by a count of events, not by a
    time: starting with [consecutive_crc_errors] = 0 (the value after every
    reception), up to six consecutive connection events without reception
    call no callback and leave the connection state as it is, and the
    seventh sets the state to Idle and then calls [on_disconnected] (when
    registered) with reason 0x08, returning what the callback leaves --
    whatever [supervision_timeout], the time elapsed and the callbacks. *)
Theorem connection_timeout_after_seven_silent_events :
  forall (app_on_disconnected : ll_world -> Z -> ll_world)
         (app_on_data_received : ll_world -> list Z -> Z -> ll_world)
         (w : ll_world) (envs : list radio_env),
    Forall rx_timed_out envs ->
    consecutive_crc_errors (ctx w) = 0 ->
    let w' := handle_events_cb app_on_disconnected app_on_data_received w envs in
    ((length envs <= 6)%nat ->
     conn_state (ctx w') = conn_state (ctx w) /\ calls w' = calls w) /\
    (length envs = 7%nat ->
     exists wt : ll_world,
       w' = call_back app_on_disconnected app_on_data_received wt
              (on_disconnected (ctx w)) (cb_disconnected 0x08) /\
       conn_state (ctx wt) = CONN_STATE_IDLE /\
       calls wt = calls w).
Proof.
  intros D R w envs Hall Hzero. cbv zeta. split.
  - intros Hlen.
    rewrite (silent_events_call_nothing D R envs w Hall) by lia.
    destruct (silent_events_tolerated envs w Hall) as (_ & _ & Hcs & Hcalls);
      [lia|lia|].
    split; assumption.
  - intros Hlen.
    rewrite <- (firstn_skipn 6 envs) in Hall |- *.
    apply Forall_app in Hall as [Hfirst Hlast].
    assert (Hl6 : length (firstn 6 envs) = 6%nat) by (rewrite length_firstn; lia).
    destruct (skipn 6 envs) as [|env [|env' rest]] eqn:Hskip.
    + apply (f_equal (@length radio_env)) in Hskip.
      rewrite length_skipn in Hskip. cbn in Hskip. lia.
    + unfold handle_events_cb. rewrite fold_left_app. cbn [fold_left].
      fold (handle_events_cb D R w (firstn 6 envs)).
      rewrite (silent_events_call_nothing D R (firstn 6 envs) w Hfirst) by lia.
      destruct (silent_events_tolerated (firstn 6 envs) w Hfirst)
        as (Hn & Hcb & Hcs & Hcalls); [lia|lia|].
      inversion Hlast as [|? ? Hto _]; subst.
      revert Hn Hcb Hcalls. generalize (handle_events w (firstn 6 envs)).
      intros w6 Hn Hcb Hcalls.
      rewrite Hzero, Hl6 in Hn.
      destruct (silent_event_disconnects D R w6 env Hto)
        as (wt & Hw & Hidle & _ & _ & _ & Hcalls7).
      { rewrite Hn. vm_compute. reflexivity. }
      exists wt. rewrite Hw, Hcb, Hcalls7, Hcalls.
      repeat split; assumption.
    + apply (f_equal (@length radio_env)) in Hskip.
      rewrite length_skipn in Hskip. cbn in Hskip. lia.
Qed.

(** Seven silent events end the sample connection with reason 0x08; the
    callback is handed the state Idle, restarts scanning, and the
    connection is left in the state Scanning. *)
Lemma connection_timeout_after_seven_silent_events_witness :
  let w := mk_world sample_ctx [] [] in
  let w' := handle_events_cb sample_on_disconnected sample_on_data_received
              w (repeat env_silent 7) in
  (exists wt : ll_world,
     w' = call_back sample_on_disconnected sample_on_data_received wt
            true (cb_disconnected 0x08) /\
     conn_state (ctx wt) = CONN_STATE_IDLE /\
     calls wt = []) /\
  conn_state (ctx w') = CONN_STATE_SCANNING /\
  calls w' = [cb_disconnected 0x08].
Proof.
  intros w w'.
  assert (Hall : Forall rx_timed_out (repeat env_silent 7)).
  { repeat constructor. }
  destruct (connection_timeout_after_seven_silent_events
              sample_on_disconnected sample_on_data_received
              w (repeat env_silent 7) Hall eq_refl) as [_ H7].
  split; [exact (H7 eq_refl)|].
  split; vm_compute; reflexivity.
Defined.

